(** * Ecobee thermostat plugin: a shallow embedding of [src/main.ts]

    The plugin polls the ecobee cloud API, keeps a normalised copy of
    every thermostat and forwards commands.  This development embeds
    the unit/enum translators, the token manager, the request gateway
    [req], the per-device reconciler and the discovery pass, and states
    the properties of the specification over those definitions.

    Conventions.
    - A JavaScript [number] is an IEEE-754 binary64 value, represented
      by [spec_float] with the operations of [SpecFloat] instantiated at
      precision 53 and maximal exponent 1024.
    - A JavaScript string is a [string] of 8-bit characters; the vendor
      vocabulary and every string built by the plugin is ASCII.
    - [async] methods are state transformers over a [World] that holds
      the controller, the console and the trace of HTTP requests; an
      HTTP call asks the environment (a function of the call's rank and
      of the request) for its outcome.  A rejected promise is [Throw].
    - [req] retries by recursion without any structural bound, so the
      effectful definitions carry a fuel argument; [Diverge] is the
      result of an execution that needs more steps than the fuel. *)

From Stdlib Require Import ZArith String Ascii List Bool Lia.
From Stdlib Require Import SpecFloat DecimalString DecimalN DecimalPos.
From stdpp Require Import base gmap strings list.
Import ListNotations.

Local Open Scope Z_scope.
Local Open Scope string_scope.

(** ** JavaScript numbers *)

Module JsNumber.

Definition prec : Z := 53.
Definition emax : Z := 1024.

Definition number : Type := spec_float.

Definition NaN : number := S754_nan.

Definition add : number -> number -> number := SFadd prec emax.
Definition sub : number -> number -> number := SFsub prec emax.
Definition mul : number -> number -> number := SFmul prec emax.
Definition div : number -> number -> number := SFdiv prec emax.

(** [x < y], [x >= y] and [x > y] of JavaScript: every comparison
    with NaN is false. *)
Definition lt (x y : number) : bool := SFltb x y.
Definition ge (x y : number) : bool := SFleb y x.
Definition gt (x y : number) : bool := SFltb y x.

(** The number denoted by an integer literal: the nearest binary64
    value (exact below 2^53). *)
Definition of_Z (z : Z) : number := binary_normalize prec emax z 0 false.

(** The binary64 value nearest to [(-1)^s * n / 10^k]; the division
    of [SpecFloat] rounds the exact quotient of its arguments to
    nearest-even, whatever the size of their mantissas. *)
Definition of_decimal (s : bool) (n : Z) (k : nat) : number :=
  match n with
  | Zpos p => div (S754_finite s p 0)
                  (S754_finite false (Z.to_pos (10 ^ Z.of_nat k)) 0)
  | _ => S754_zero s
  end.

(** *** StringToNumber (unary [+], [Number(s)])

    The grammar covered is the one the vendor payload and [toFixed]
    produce: an optional sign, decimal digits and an optional
    fraction; the empty string is [+0] and the spellings of the
    infinities are recognised.  Any other string
    (exponent notation, radix prefixes, surrounding white space)
    is mapped to NaN here. *)

Fixpoint cut_at (c : ascii) (s : string) : string * option string :=
  match s with
  | EmptyString => (EmptyString, None)
  | String a r =>
      if Ascii.eqb a c then (EmptyString, Some r)
      else let '(h, t) := cut_at c r in (String a h, t)
  end.

Definition digits_to_Z (s : string) : option Z :=
  match NilEmpty.uint_of_string s with
  | Some u => Some (Z.of_N (N.of_uint u))
  | None => None
  end.

Definition unsigned_decimal (s : bool) (body : string) : number :=
  let '(ip, fp) := cut_at "."%char body in
  let fp := match fp with Some f => f | None => EmptyString end in
  match String.append ip fp with
  | EmptyString => NaN
  | ds =>
      match digits_to_Z ds with
      | Some n => of_decimal s n (String.length fp)
      | None => NaN
      end
  end.

Definition to_number (s : string) : number :=
  match s with
  | EmptyString => S754_zero false
  | String "-" r =>
      if String.eqb r "Infinity" then S754_infinity true
      else unsigned_decimal true r
  | String "+" r =>
      if String.eqb r "Infinity" then S754_infinity false
      else unsigned_decimal false r
  | _ =>
      if String.eqb s "Infinity" then S754_infinity false
      else unsigned_decimal false s
  end.

(** *** Number.prototype.toFixed

    [scaled_half_up m e f] is the integer [n] for which
    [n / 10^f - m * 2^e] is closest to zero, the larger one when two
    are equally close (step 10.a of the ECMAScript algorithm). *)
Definition scaled_half_up (m : positive) (e : Z) (f : nat) : Z :=
  let p := Zpos m * 10 ^ Z.of_nat f in
  match e with
  | Zneg k => (2 * p + 2 ^ Zpos k) / 2 ^ (Zpos k + 1)
  | _ => p * 2 ^ e
  end.

Definition digits_of_Z (n : Z) : string :=
  NilZero.string_of_uint (N.to_uint (Z.to_N n)).

Fixpoint zeros (k : nat) : string :=
  match k with
  | O => EmptyString
  | S k' => String "0" (zeros k')
  end.

(** Steps 10.b to 10.d: pad to [f + 1] digits and place the point
    before the last [f] digits. *)
Definition place_point (f : nat) (m : string) : string :=
  match f with
  | O => m
  | _ =>
      let k := String.length m in
      let m := if Nat.leb k f then String.append (zeros (f + 1 - k)) m else m in
      let k := String.length m in
      String.append (String.substring 0 (k - f) m)
                    (String "." (String.substring (k - f) f m))
  end.

(** Magnitudes of 10^21 and above are printed by JavaScript in
    exponent notation; they are printed in full here. *)
Definition toFixed (f : nat) (x : number) : string :=
  match x with
  | S754_nan => "NaN"
  | S754_infinity false => "Infinity"
  | S754_infinity true => "-Infinity"
  | S754_zero _ => place_point f "0"
  | S754_finite s m e =>
      String.append (if s then "-" else "")
                    (place_point f (digits_of_Z (scaled_half_up m e f)))
  end.

End JsNumber.

Import JsNumber.

(** ** Unit and enumeration translators (main.ts, lines 5-61) *)

Definition API_RETRY : number := of_Z 2.

(** [ecobeeIntToCelsius]: [+intV/10], then [(5/9) * (f - 32)], then
    [+c.toFixed(2)]. *)
Definition ecobeeIntToCelsius (intV : string) : number :=
  let f := div (to_number intV) (of_Z 10) in
  let c := mul (div (of_Z 5) (of_Z 9)) (sub f (of_Z 32)) in
  to_number (toFixed 2 c).

(** [celsiusToEcobeeInt]: [(c * 1.8) + 32], then [(f*10).toFixed(0)]. *)
Definition celsiusToEcobeeInt (c : number) : string :=
  let f := add (mul c (to_number "1.8")) (of_Z 32) in
  toFixed 0 (mul f (of_Z 10)).

(** ** JavaScript strings *)

Module JsString.

(** [s.split(sep)] for a separator of one character. *)
Fixpoint split (sep : ascii) (s : string) : list string :=
  match s with
  | EmptyString => [EmptyString]
  | String c r =>
      if Ascii.eqb c sep then EmptyString :: split sep r
      else match split sep r with
           | h :: t => String c h :: t
           | [] => [String c EmptyString]
           end
  end.

(** [s.includes(sub)]: [sub] occurs in [s] at some position. *)
Fixpoint includes (s sub : string) : bool :=
  if String.prefix sub s then true
  else match s with
       | EmptyString => false
       | String _ r => includes r sub
       end.

Definition lower_char (c : ascii) : ascii :=
  let n := nat_of_ascii c in
  if (Nat.leb 65 n && Nat.leb n 90)%bool then ascii_of_nat (n + 32) else c.

(** [s.toLowerCase()] on ASCII text. *)
Fixpoint toLowerCase (s : string) : string :=
  match s with
  | EmptyString => EmptyString
  | String c r => String (lower_char c) (toLowerCase r)
  end.

(** Decimal rendering of an integer and its inverse; [read_Z]
    accepts the spelling ["-0"] that [toFixed] gives to a negative
    value rounding to zero. *)
Definition show_Z (z : Z) : string :=
  match z with
  | Zneg p => String "-" (digits_of_Z (Zpos p))
  | _ => digits_of_Z z
  end.

Definition read_Z (s : string) : option Z :=
  match s with
  | String "-" r =>
      match digits_to_Z r with Some n => Some (- n) | None => None end
  | _ => digits_to_Z s
  end.

End JsString.

Import JsString.

(** ** Enumerations of the hosting SDK

    [@scrypted/sdk] is an external package; the enumerations below list
    the members of its declarations that the plugin can meet. *)

Inductive ThermostatMode : Type :=
  | Off | Cool | Heat | HeatCool | Auto | FanOnly | Purifier | Eco | Dry | On.

Inductive HumidityMode : Type :=
  | HumOff | HumAuto | Humidify | Dehumidify.

Inductive AirQuality : Type :=
  | AQUnknown | Excellent | Good | Fair | Poor | Inferior.

Inductive ScryptedInterface : Type :=
  | Thermometer | HumiditySensor | Refresh | TemperatureSetting | OnOff
  | HumiditySetting | AirQualitySensor | VOCSensor | CO2Sensor.

Inductive ScryptedDeviceType : Type :=
  | Thermostat | Sensor.

Inductive TemperatureUnit : Type :=
  | UnitC | UnitF.

Global Instance ThermostatMode_eq_dec : EqDecision ThermostatMode.
Proof. solve_decision. Defined.
Global Instance ScryptedInterface_eq_dec : EqDecision ScryptedInterface.
Proof. solve_decision. Defined.
Global Instance ScryptedDeviceType_eq_dec : EqDecision ScryptedDeviceType.
Proof. solve_decision. Defined.

(** ** Mode translators (main.ts, lines 23-61) *)

Definition ecobeeToThermostatMode (mode : string) : ThermostatMode :=
  if String.eqb mode "cool" then Cool
  else if String.eqb mode "heat" then Heat
  else if String.eqb mode "auto" then HeatCool
  else Off.

Definition thermostatModeToEcobee (mode : ThermostatMode) : string :=
  match mode with
  | Cool => "cool"
  | Heat => "heat"
  | HeatCool => "auto"
  | _ => "off"
  end.

Definition humModeFromEcobee (mode : string) : HumidityMode :=
  if String.eqb mode "auto" then HumAuto
  else if String.eqb mode "manual" then Humidify
  else HumOff.

(** ** Data model *)

(** *** Vendor payloads (shapes of section 6 of the specification) *)

Record ApiSettings : Type := {
  hvacMode : string;
  hasHumidifier : bool;
  humidifierMode : string;
  settings_humidity : string
}.

(** The three air-sensor readings are absent ([undefined]) on models
    without the sensor. *)
Record ApiRuntime : Type := {
  actualTemperature : string;
  actualHumidity : string;
  desiredHeat : string;
  desiredCool : string;
  actualAQScore : option number;
  actualVOC : option number;
  actualCO2 : option number
}.

Record ApiDevice : Type := {
  identifier : string;
  api_name : string;
  brand : string;
  modelNumber : string;
  settings : ApiSettings;
  runtime : ApiRuntime;
  equipmentStatus : option string
}.

Inductive Payload : Type :=
  | TokenData (access refresh : string)
  | SummaryData (revisions statuses : list string)
  | ThermostatData (thermostats : list ApiDevice)
  | StatusData (code : Z).

(** Property reads on the [any] returned by the HTTP client: a
    property the payload does not have reads as [undefined] ([None]). *)
Definition payload_access_token (p : Payload) : option string :=
  match p with TokenData a _ => Some a | _ => None end.
Definition payload_refresh_token (p : Payload) : option string :=
  match p with TokenData _ r => Some r | _ => None end.
Definition payload_revisionList (p : Payload) : option (list string) :=
  match p with SummaryData r _ => Some r | _ => None end.
Definition payload_statusList (p : Payload) : option (list string) :=
  match p with SummaryData _ s => Some s | _ => None end.
Definition payload_thermostatList (p : Payload) : option (list ApiDevice) :=
  match p with ThermostatData l => Some l | _ => None end.
Definition payload_status_code (p : Payload) : option Z :=
  match p with StatusData c => Some c | _ => None end.

(** *** Requests *)

(** An [include...] flag that the source leaves out is [false]. *)
Record Selection : Type := {
  selectionType : string;
  selectionMatch : string;
  includeSettings : bool;
  includeRuntime : bool;
  includeEquipmentStatus : bool
}.

Inductive HoldTemp : Type :=
  | HoldStr (s : string)
  | HoldNum (n : Z).

Record HoldParams : Type := {
  holdType : string;
  heatHoldTemp : HoldTemp;
  coolHoldTemp : HoldTemp;
  fan : option string;
  isTemperatureAbsolute : option string;
  isTemperatureRelative : option string
}.

Record EcobeeFunction : Type := {
  fn_type : string;
  fn_params : HoldParams
}.

(** [body_hvacMode] is [thermostat.settings.hvacMode]. *)
Record Body : Type := {
  body_selection : Selection;
  body_functions : option (list EcobeeFunction);
  body_hvacMode : option string
}.

Inductive Params : Type :=
  | NoParams
  | JsonParams (json : Selection)
  | QueryParams (query : list (string * option string)).

Record AxiosRequest : Type := {
  method : string;
  baseURL : option string;
  url : string;
  authorization : option string;
  params : Params;
  data : option Body;
  timeout : option Z
}.

(** *** Errors *)

(** [RequestFailed method endpoint attempt] is
    [new Error(` request to ${method}:${endpoint} failed after
    ${attempt} retries`)]. *)
Inductive Error : Type :=
  | RequestFailed (method endpoint : string) (attempt : number)
  | AxiosError (reason : string)
  | TypeError (what : string).

Inductive Response : Type :=
  | Resolve (d : Payload)
  | Reject (e : Error).

(** The environment: the outcome of the HTTP call of rank [k]. *)
Definition Network : Type := nat -> AxiosRequest -> Response.

(** *** Normalised device state *)

Inductive Setpoint : Type :=
  | Single (v : number)
  | Range (low high : number).

Record TemperatureSettingStatus : Type := {
  availableModes : list ThermostatMode;
  activeMode : option ThermostatMode;
  mode : option ThermostatMode;
  setpoint : option Setpoint
}.

Record HumiditySettingStatus : Type := {
  hum_mode : option HumidityMode;
  hum_activeMode : option HumidityMode;
  hum_availableModes : list HumidityMode;
  humidifierSetpoint : option number
}.

Record TemperatureCommand : Type := {
  cmd_mode : option ThermostatMode;
  cmd_setpoint : option Setpoint
}.

Record EcobeeThermostat : Type := {
  nativeId : string;
  name : string;
  interfaces : list ScryptedInterface;
  revisionList : option (list string);
  temperatureUnit : TemperatureUnit;
  temperatureSetting : TemperatureSettingStatus;
  humiditySetting : HumiditySettingStatus;
  on : option bool;
  temperature : option number;
  humidity : option number;
  airQuality : option AirQuality;
  vocDensity : option number;
  co2ppm : option number;
  dev_console : list string
}.

Record DeviceInfo : Type := {
  model : string;
  manufacturer : string;
  serialNumber : string
}.

Record Device : Type := {
  device_nativeId : string;
  device_name : string;
  device_type : ScryptedDeviceType;
  device_info : DeviceInfo;
  device_interfaces : list ScryptedInterface
}.

(** The controller with what it reaches: its token, the settings
    store, its reconcilers, the device lists published to the host,
    the HTTP requests issued so far and its console. *)
Record World : Type := {
  access_token : option string;
  storage : gmap string string;
  devices : gmap string EcobeeThermostat;
  published : list (list Device);
  sent : list AxiosRequest;
  console : list string
}.

(** A reconciler together with the controller it refers to
    ([this.provider]). *)
Record Reconciler : Type := {
  this : EcobeeThermostat;
  provider : World
}.

Definition set_revisionList (v : option (list string)) (r : EcobeeThermostat) : EcobeeThermostat :=
  {| nativeId := nativeId r; name := name r; interfaces := interfaces r; revisionList := v; temperatureUnit := temperatureUnit r; temperatureSetting := temperatureSetting r; humiditySetting := humiditySetting r; on := on r; temperature := temperature r; humidity := humidity r; airQuality := airQuality r; vocDensity := vocDensity r; co2ppm := co2ppm r; dev_console := dev_console r |}.
Definition set_temperatureUnit (v : TemperatureUnit) (r : EcobeeThermostat) : EcobeeThermostat :=
  {| nativeId := nativeId r; name := name r; interfaces := interfaces r; revisionList := revisionList r; temperatureUnit := v; temperatureSetting := temperatureSetting r; humiditySetting := humiditySetting r; on := on r; temperature := temperature r; humidity := humidity r; airQuality := airQuality r; vocDensity := vocDensity r; co2ppm := co2ppm r; dev_console := dev_console r |}.
Definition set_temperatureSetting (v : TemperatureSettingStatus) (r : EcobeeThermostat) : EcobeeThermostat :=
  {| nativeId := nativeId r; name := name r; interfaces := interfaces r; revisionList := revisionList r; temperatureUnit := temperatureUnit r; temperatureSetting := v; humiditySetting := humiditySetting r; on := on r; temperature := temperature r; humidity := humidity r; airQuality := airQuality r; vocDensity := vocDensity r; co2ppm := co2ppm r; dev_console := dev_console r |}.
Definition set_humiditySetting (v : HumiditySettingStatus) (r : EcobeeThermostat) : EcobeeThermostat :=
  {| nativeId := nativeId r; name := name r; interfaces := interfaces r; revisionList := revisionList r; temperatureUnit := temperatureUnit r; temperatureSetting := temperatureSetting r; humiditySetting := v; on := on r; temperature := temperature r; humidity := humidity r; airQuality := airQuality r; vocDensity := vocDensity r; co2ppm := co2ppm r; dev_console := dev_console r |}.
Definition set_on (v : option bool) (r : EcobeeThermostat) : EcobeeThermostat :=
  {| nativeId := nativeId r; name := name r; interfaces := interfaces r; revisionList := revisionList r; temperatureUnit := temperatureUnit r; temperatureSetting := temperatureSetting r; humiditySetting := humiditySetting r; on := v; temperature := temperature r; humidity := humidity r; airQuality := airQuality r; vocDensity := vocDensity r; co2ppm := co2ppm r; dev_console := dev_console r |}.
Definition set_temperature (v : option number) (r : EcobeeThermostat) : EcobeeThermostat :=
  {| nativeId := nativeId r; name := name r; interfaces := interfaces r; revisionList := revisionList r; temperatureUnit := temperatureUnit r; temperatureSetting := temperatureSetting r; humiditySetting := humiditySetting r; on := on r; temperature := v; humidity := humidity r; airQuality := airQuality r; vocDensity := vocDensity r; co2ppm := co2ppm r; dev_console := dev_console r |}.
Definition set_humidity (v : option number) (r : EcobeeThermostat) : EcobeeThermostat :=
  {| nativeId := nativeId r; name := name r; interfaces := interfaces r; revisionList := revisionList r; temperatureUnit := temperatureUnit r; temperatureSetting := temperatureSetting r; humiditySetting := humiditySetting r; on := on r; temperature := temperature r; humidity := v; airQuality := airQuality r; vocDensity := vocDensity r; co2ppm := co2ppm r; dev_console := dev_console r |}.
Definition set_airQuality (v : option AirQuality) (r : EcobeeThermostat) : EcobeeThermostat :=
  {| nativeId := nativeId r; name := name r; interfaces := interfaces r; revisionList := revisionList r; temperatureUnit := temperatureUnit r; temperatureSetting := temperatureSetting r; humiditySetting := humiditySetting r; on := on r; temperature := temperature r; humidity := humidity r; airQuality := v; vocDensity := vocDensity r; co2ppm := co2ppm r; dev_console := dev_console r |}.
Definition set_vocDensity (v : option number) (r : EcobeeThermostat) : EcobeeThermostat :=
  {| nativeId := nativeId r; name := name r; interfaces := interfaces r; revisionList := revisionList r; temperatureUnit := temperatureUnit r; temperatureSetting := temperatureSetting r; humiditySetting := humiditySetting r; on := on r; temperature := temperature r; humidity := humidity r; airQuality := airQuality r; vocDensity := v; co2ppm := co2ppm r; dev_console := dev_console r |}.
Definition set_co2ppm (v : option number) (r : EcobeeThermostat) : EcobeeThermostat :=
  {| nativeId := nativeId r; name := name r; interfaces := interfaces r; revisionList := revisionList r; temperatureUnit := temperatureUnit r; temperatureSetting := temperatureSetting r; humiditySetting := humiditySetting r; on := on r; temperature := temperature r; humidity := humidity r; airQuality := airQuality r; vocDensity := vocDensity r; co2ppm := v; dev_console := dev_console r |}.
Definition set_dev_console (v : list string) (r : EcobeeThermostat) : EcobeeThermostat :=
  {| nativeId := nativeId r; name := name r; interfaces := interfaces r; revisionList := revisionList r; temperatureUnit := temperatureUnit r; temperatureSetting := temperatureSetting r; humiditySetting := humiditySetting r; on := on r; temperature := temperature r; humidity := humidity r; airQuality := airQuality r; vocDensity := vocDensity r; co2ppm := co2ppm r; dev_console := v |}.
Definition set_access_token (v : option string) (r : World) : World :=
  {| access_token := v; storage := storage r; devices := devices r; published := published r; sent := sent r; console := console r |}.
Definition set_storage (v : gmap string string) (r : World) : World :=
  {| access_token := access_token r; storage := v; devices := devices r; published := published r; sent := sent r; console := console r |}.
Definition set_devices (v : gmap string EcobeeThermostat) (r : World) : World :=
  {| access_token := access_token r; storage := storage r; devices := v; published := published r; sent := sent r; console := console r |}.
Definition set_published (v : list (list Device)) (r : World) : World :=
  {| access_token := access_token r; storage := storage r; devices := devices r; published := v; sent := sent r; console := console r |}.
Definition set_sent (v : list AxiosRequest) (r : World) : World :=
  {| access_token := access_token r; storage := storage r; devices := devices r; published := published r; sent := v; console := console r |}.
Definition set_console (v : list string) (r : World) : World :=
  {| access_token := access_token r; storage := storage r; devices := devices r; published := published r; sent := sent r; console := v |}.

(** ** Effects: state, exceptions and fuel *)

Inductive Result (S A : Type) : Type :=
  | Ok (a : A) (s : S)
  | Throw (e : Error) (s : S)
  | Diverge.

Arguments Ok {S A} a s.
Arguments Throw {S A} e s.
Arguments Diverge {S A}.

Definition M (S A : Type) : Type := S -> Result S A.

Definition ret {S A : Type} (a : A) : M S A := fun s => Ok a s.

Definition bind {S A B : Type} (m : M S A) (k : A -> M S B) : M S B :=
  fun s =>
    match m s with
    | Ok a s' => k a s'
    | Throw e s' => Throw e s'
    | Diverge => Diverge
    end.

Definition throw {S A : Type} (e : Error) : M S A := fun s => Throw e s.

Definition diverge {S A : Type} : M S A := fun _ => Diverge.

(** [try { m } catch (e) { h e }] *)
Definition try_catch {S A : Type} (m : M S A) (h : Error -> M S A) : M S A :=
  fun s =>
    match m s with
    | Throw e s' => h e s'
    | r => r
    end.

Definition gets {S A : Type} (f : S -> A) : M S A := fun s => Ok (f s) s.

Definition modify {S : Type} (f : S -> S) : M S unit := fun s => Ok tt (f s).

Declare Scope js_scope.
Delimit Scope js_scope with js.
Notation "x <- m ;; k" := (bind m (fun x => k))
  (at level 100, m at next level, right associativity) : js_scope.
Notation "m ;; k" := (bind m (fun _ => k))
  (at level 100, right associativity) : js_scope.
Local Open Scope js_scope.

(** ToNumber of an optional numeric argument: [undefined] is NaN. *)
Definition jsnum (v : option number) : number :=
  match v with Some x => x | None => NaN end.

(** [`${v}`] for a value that may be [null] or [undefined]. *)
Definition interpolate (absent : string) (v : option string) : string :=
  match v with Some s => s | None => absent end.

(** ** The controller (main.ts, lines 382-619) *)

Section Controller.

Variable net : Network.

Definition getItem (key : string) : M World (option string) :=
  gets (fun w => storage w !! key).

(** [storage.setItem] stores the string form of its argument. *)
Definition setItem (key : string) (value : option string) : M World unit :=
  modify (fun w => set_storage (<[key := interpolate "undefined" value]> (storage w)) w).

Definition log (msg : string) : M World unit :=
  modify (fun w => set_console (console w ++ [msg]) w).

(** One call of the HTTP client: the request joins the trace and the
    environment decides whether the promise resolves or rejects. *)
Definition axios (r : AxiosRequest) : M World Payload :=
  fun w =>
    let w' := set_sent (sent w ++ [r]) w in
    match net (length (sent w)) r with
    | Resolve d => Ok d w'
    | Reject e => Throw e w'
    end.

(** [axios.post(url, null, { params })] *)
Definition axios_post (tokenUrl : string) (tokenParams : list (string * option string))
  : M World Payload :=
  axios {| method := "post"; baseURL := None; url := tokenUrl;
           authorization := None; params := QueryParams tokenParams;
           data := None; timeout := None |}.

Definition getToken : M World unit :=
  api_base <- getItem "api_base";;
  let tokenUrl := "https://" ++ interpolate "null" api_base ++ "/token" in
  code <- getItem "ecobee_code";;
  client_id <- getItem "client_id";;
  let tokenParams :=
    [("grant_type", Some "ecobeePin"); ("code", code);
     ("client_id", client_id); ("ecobee_type", Some "jwt")] in
  tokenData <- axios_post tokenUrl tokenParams;;
  modify (set_access_token (payload_access_token tokenData));;
  setItem "refresh_token" (payload_refresh_token tokenData);;
  log "Got tokens".

Definition refreshToken : M World unit :=
  api_base <- getItem "api_base";;
  let tokenUrl := "https://" ++ interpolate "null" api_base ++ "/token" in
  refresh_token <- getItem "refresh_token";;
  client_id <- getItem "client_id";;
  let tokenParams :=
    [("grant_type", Some "refresh_token"); ("refresh_token", refresh_token);
     ("client_id", client_id); ("ecobee_type", Some "jwt")] in
  tokenData <- axios_post tokenUrl tokenParams;;
  modify (set_access_token (payload_access_token tokenData));;
  setItem "refresh_token" (payload_refresh_token tokenData);;
  log "Refreshed tokens".

(** The configuration object that [req] hands to [axios.request]. *)
Definition req_config (method endpoint : string) (json : option Selection)
    (data : option Body) (w : World) : AxiosRequest :=
  {| method := method;
     baseURL := Some ("https://" ++ interpolate "null" (storage w !! "api_base") ++ "/1/");
     url := endpoint;
     authorization := Some ("Bearer " ++ interpolate "undefined" (access_token w));
     params := match json with Some j => JsonParams j | None => NoParams end;
     data := data;
     timeout := Some 10000 |}.

(** [req]: the guard compares the optional [attempt] with
    [API_RETRY]; the recursive call receives the value of the
    expression [attempt++], which is the number held by [attempt]
    before the increment. *)
Fixpoint req (fuel : nat) (method endpoint : string) (json : option Selection)
    (data : option Body) (attempt : option number) : M World Payload :=
  match fuel with
  | O => diverge
  | S fuel' =>
      if gt (jsnum attempt) API_RETRY then
        throw (RequestFailed method endpoint (jsnum attempt))
      else
        config <- gets (req_config method endpoint json data);;
        try_catch (axios config)
          (fun e =>
             log "req failed";;
             refreshToken;;
             req fuel' method endpoint json data (Some (jsnum attempt)))
  end.

(** *** Discovery (main.ts, lines 540-613) *)

(** The body of the loop over [apiDevices], given the outcome of
    [storage.getItem("sensors_only") === "true"]. *)
Definition discoveredDevice (sensorsOnly : bool) (apiDevice : ApiDevice) : Device :=
  let deviceType := Thermostat in
  let interfaces := [Thermometer; HumiditySensor; Refresh] in
  let '(deviceType, interfaces) :=
    if sensorsOnly then (Sensor, interfaces)
    else
      let interfaces := (interfaces ++ [TemperatureSetting; OnOff])%list in
      if hasHumidifier (settings apiDevice)
      then (deviceType, (interfaces ++ [HumiditySetting])%list)
      else (deviceType, interfaces) in
  let interfaces :=
    if ge (jsnum (actualAQScore (runtime apiDevice))) (of_Z 0)
    then (interfaces ++ [AirQualitySensor])%list else interfaces in
  let interfaces :=
    if ge (jsnum (actualVOC (runtime apiDevice))) (of_Z 0)
    then (interfaces ++ [VOCSensor])%list else interfaces in
  let interfaces :=
    if ge (jsnum (actualCO2 (runtime apiDevice))) (of_Z 0)
    then (interfaces ++ [CO2Sensor])%list else interfaces in
  {| device_nativeId := identifier apiDevice;
     device_name := api_name apiDevice ++ " thermostat";
     device_type := deviceType;
     device_info := {| model := brand apiDevice;
                       manufacturer := modelNumber apiDevice;
                       serialNumber := identifier apiDevice |};
     device_interfaces := interfaces |}.

Definition sensors_only (w : World) : bool :=
  bool_decide (storage w !! "sensors_only" = Some "true").

Fixpoint discover_loop (apiDevices : list ApiDevice) (acc : list Device)
  : M World (list Device) :=
  match apiDevices with
  | [] => ret acc
  | apiDevice :: rest =>
      log ("Discovered " ++ brand apiDevice ++ " " ++ modelNumber apiDevice ++ " "
           ++ api_name apiDevice ++ " (" ++ identifier apiDevice ++ ")");;
      sensorsOnly <- gets sensors_only;;
      (if sensorsOnly then log "Devices will be exposed as sensors only." else ret tt);;
      discover_loop rest (acc ++ [discoveredDevice sensorsOnly apiDevice])%list
  end.

(** [new EcobeeThermostat(nativeId, this)]; the name and the
    interfaces of the object are those the host holds for the
    published device. *)
Definition new_EcobeeThermostat (d : Device) : EcobeeThermostat :=
  {| nativeId := device_nativeId d;
     name := device_name d;
     interfaces := device_interfaces d;
     revisionList := None;
     temperatureUnit := UnitF;
     temperatureSetting :=
       {| availableModes := [Cool; Heat; HeatCool; Off];
          activeMode := None; mode := None; setpoint := None |};
     humiditySetting :=
       {| hum_mode := Some HumOff; hum_activeMode := None;
          hum_availableModes := [HumAuto; Humidify; HumOff];
          humidifierSetpoint := None |};
     on := None; temperature := None; humidity := None;
     airQuality := None; vocDensity := None; co2ppm := None;
     dev_console := [] |}.

(** What a reconciler reads as [this.name] and [this.interfaces] is
    not its own: the getters of [ScryptedDeviceBase] read the state
    that the host holds for the device.  [host_view d t] is the
    reconciler [t] while the host holds [d]. *)
Definition host_view (d : Device) (t : EcobeeThermostat) : EcobeeThermostat :=
  {| nativeId := nativeId t;
     name := device_name d;
     interfaces := device_interfaces d;
     revisionList := revisionList t;
     temperatureUnit := temperatureUnit t;
     temperatureSetting := temperatureSetting t;
     humiditySetting := humiditySetting t;
     on := on t; temperature := temperature t; humidity := humidity t;
     airQuality := airQuality t; vocDensity := vocDensity t; co2ppm := co2ppm t;
     dev_console := dev_console t |}.

(** The device that the host holds under the native id [id] once
    [found] has been published.  The host takes the devices in their
    order, so of two devices listed under one id the later one is
    held. *)
Definition held (found : list Device) (id : string) : option Device :=
  List.find (fun d => String.eqb (device_nativeId d) id) (rev found).

(** [deviceManager.onDevicesChanged({ devices })]: the list is
    published, and every reconciler of a listed device reads the
    published name and interfaces from then on.  A reconciler whose
    device is not listed is left as it is: what the host does with the
    state of a device that is no longer listed is not in the source. *)
Definition onDevicesChanged (found : list Device) : M World unit :=
  modify (fun w =>
    set_published (published w ++ [found])
      (set_devices
         (map_imap (fun id t => Some (match held found id with
                                      | Some d => host_view d t
                                      | None => t
                                      end)) (devices w)) w)).

(** The body of the second loop: a reconciler is created for a device
    that has none; the constructor is given the native id only, the
    new object reads its name and interfaces from the host. *)
Definition instantiate (found : list Device) (d : Device) (w : World) : World :=
  match devices w !! device_nativeId d with
  | Some _ => w
  | None =>
      set_devices (<[device_nativeId d :=
                       new_EcobeeThermostat (default d (held found (device_nativeId d)))]>
                     (devices w)) w
  end.

Definition discoverDevices (fuel : nat) : M World unit :=
  let json := {| selectionType := "registered"; selectionMatch := "";
                 includeSettings := true; includeRuntime := true;
                 includeEquipmentStatus := false |} in
  resp <- req fuel "get" "thermostat" (Some json) None None;;
  match payload_thermostatList resp with
  | None => throw (TypeError "apiDevices.length")
  | Some apiDevices =>
      log "Discovered devices.";;
      found <- discover_loop apiDevices [];;
      onDevicesChanged found;;
      modify (fun w => fold_left (fun w d => instantiate found d w) found w)
  end.

End Controller.

(** ** The reconciler (main.ts, lines 63-380) *)

(** The string value of a member of the SDK's [ThermostatMode]. *)
Definition mode_name (m : ThermostatMode) : string :=
  match m with
  | Off => "Off" | Cool => "Cool" | Heat => "Heat" | HeatCool => "HeatCool"
  | Auto => "Auto" | FanOnly => "FanOnly" | Purifier => "Purifier"
  | Eco => "Eco" | Dry => "Dry" | On => "On"
  end.

Definition dev_print (msg : string) (t : EcobeeThermostat) : EcobeeThermostat :=
  set_dev_console (dev_console t ++ [msg]) t.

(** [_updateEquipmentStatus] *)
Definition _updateEquipmentStatus (equipmentStatus : string) (t : EcobeeThermostat)
  : EcobeeThermostat :=
  let equipmentStatus := toLowerCase equipmentStatus in
  let t := dev_print ("Equipment status: "
                      ++ (if String.eqb equipmentStatus "" then "not running"
                          else equipmentStatus)) t in
  let nextTemperatureSetting := temperatureSetting t in
  let nextTemperatureSetting :=
    {| availableModes := availableModes nextTemperatureSetting;
       activeMode :=
         if includes equipmentStatus "heat" then Some Heat
         else if includes equipmentStatus "cool" then Some Cool
         else Some Off;
       mode := mode nextTemperatureSetting;
       setpoint := setpoint nextTemperatureSetting |} in
  let t := if includes equipmentStatus "fan" then set_on (Some true) t
           else set_on (Some false) t in
  let nextHumiditySetting := humiditySetting t in
  let nextHumiditySetting :=
    {| hum_mode := hum_mode nextHumiditySetting;
       hum_activeMode :=
         if includes equipmentStatus "humidifier" then Some Humidify
         else Some HumOff;
       hum_availableModes := hum_availableModes nextHumiditySetting;
       humidifierSetpoint := humidifierSetpoint nextHumiditySetting |} in
  let t := set_humiditySetting nextHumiditySetting t in
  set_temperatureSetting nextTemperatureSetting t.

Definition listItems : list string :=
  ["tId"; "tName"; "connected"; "thermostat"; "alerts"; "runtime"; "interval"].

(** [a !== b] on array elements; an index past the end reads
    [undefined]. *)
Definition strict_ne (a b : option string) : bool := negb (bool_decide (a = b)).

(** The [for] loop of [_updateRevisionList] over the indices [idx]: the
    first index at which the two lists differ. *)
Fixpoint first_change (idx : list nat) (newList oldList : list string) : option nat :=
  match idx with
  | [] => None
  | i :: rest =>
      if strict_ne (newList !! i) (oldList !! i) then Some i
      else first_change rest newList oldList
  end.

(** [_updateRevisionList]: the new list is stored in every case. *)
Definition _updateRevisionList (listStr : string) (t : EcobeeThermostat)
  : bool * EcobeeThermostat :=
  let oldList := revisionList t in
  let t := set_revisionList (Some (split ":" listStr)) t in
  match oldList with
  | None => (true, t)
  | Some oldList =>
      match first_change (seq 3 (length listItems - 3)) (split ":" listStr) oldList with
      | Some i =>
          (true, dev_print (interpolate "undefined" (listItems !! i) ++ " changes detected.") t)
      | None => (false, t)
      end
  end.

(** [setAirQualityFromAQScore] *)
Definition setAirQualityFromAQScore (aqScore : number) (t : EcobeeThermostat)
  : EcobeeThermostat :=
  if lt aqScore (of_Z 51) then set_airQuality (Some Excellent) t
  else if lt aqScore (of_Z 101) then set_airQuality (Some Good) t
  else if lt aqScore (of_Z 151) then set_airQuality (Some Fair) t
  else if lt aqScore (of_Z 201) then set_airQuality (Some Poor) t
  else if lt aqScore (of_Z 301) then set_airQuality (Some Poor) t
  else if lt aqScore (of_Z 501) then set_airQuality (Some Inferior) t
  else set_airQuality (Some AQUnknown) t.

(** The part of [reload] that follows the request: the payload of one
    thermostat is written over the normalised state. *)
Definition apply_reload (data : ApiDevice) (equipment : string) (t : EcobeeThermostat)
  : EcobeeThermostat :=
  let t := set_temperature (Some (ecobeeIntToCelsius (actualTemperature (runtime data)))) t in
  let t := set_humidity (Some (to_number (actualHumidity (runtime data)))) t in
  let t := _updateEquipmentStatus equipment t in
  let nextTemperatureSetting := temperatureSetting t in
  let nextTemperatureSetting :=
    {| availableModes := availableModes nextTemperatureSetting;
       activeMode := activeMode nextTemperatureSetting;
       mode := Some (ecobeeToThermostatMode (hvacMode (settings data)));
       setpoint :=
         if String.eqb (hvacMode (settings data)) "cool"
         then Some (Single (ecobeeIntToCelsius (desiredCool (runtime data))))
         else if String.eqb (hvacMode (settings data)) "heat"
         then Some (Single (ecobeeIntToCelsius (desiredHeat (runtime data))))
         else Some (Range (ecobeeIntToCelsius (desiredHeat (runtime data)))
                          (ecobeeIntToCelsius (desiredCool (runtime data)))) |} in
  let nextHumiditySetting := humiditySetting t in
  let nextHumiditySetting :=
    {| hum_mode := Some (humModeFromEcobee (humidifierMode (settings data)));
       hum_activeMode := hum_activeMode nextHumiditySetting;
       hum_availableModes := hum_availableModes nextHumiditySetting;
       humidifierSetpoint := Some (to_number (settings_humidity (settings data))) |} in
  let t := if bool_decide (AirQualitySensor ∈ interfaces t)
           then setAirQualityFromAQScore (jsnum (actualAQScore (runtime data))) t else t in
  let t := if bool_decide (VOCSensor ∈ interfaces t)
           then set_vocDensity (Some (div (jsnum (actualVOC (runtime data))) (of_Z 10))) t
           else t in
  let t := if bool_decide (CO2Sensor ∈ interfaces t)
           then set_co2ppm (Some (div (jsnum (actualCO2 (runtime data))) (of_Z 10))) t
           else t in
  let t := set_temperatureSetting nextTemperatureSetting t in
  set_humiditySetting nextHumiditySetting t.

(** The [setHold] function of [setTemperature]. *)
Definition temperatureHold (heat cool : string) : EcobeeFunction :=
  {| fn_type := "setHold";
     fn_params := {| holdType := "nextTransition";
                     heatHoldTemp := HoldStr heat;
                     coolHoldTemp := HoldStr cool;
                     fan := None;
                     isTemperatureAbsolute := None;
                     isTemperatureRelative := None |} |}.

(** The [setHold] function of [turnOn] and [turnOff]. *)
Definition fanHold (fanMode : string) : EcobeeFunction :=
  {| fn_type := "setHold";
     fn_params := {| holdType := "nextTransition";
                     heatHoldTemp := HoldNum 550;
                     coolHoldTemp := HoldNum 900;
                     fan := Some fanMode;
                     isTemperatureAbsolute := Some "false";
                     isTemperatureRelative := Some "false" |} |}.

Definition registered (id : string) : Selection :=
  {| selectionType := "registered"; selectionMatch := id;
     includeSettings := false; includeRuntime := false;
     includeEquipmentStatus := false |}.

(** The payload that [setTemperature] builds before the request. *)
Definition setTemperatureData (id : string) (command : TemperatureCommand) : Body :=
  {| body_selection := registered id;
     body_functions :=
       match cmd_setpoint command with
       | Some (Range low high) =>
           Some [temperatureHold (celsiusToEcobeeInt low) (celsiusToEcobeeInt high)]
       | Some (Single v) =>
           Some [temperatureHold (celsiusToEcobeeInt v) (celsiusToEcobeeInt v)]
       | None => None
       end;
     body_hvacMode :=
       match cmd_mode command with
       | Some m => Some (thermostatModeToEcobee m)
       | None => None
       end |}.

Definition fanData (id fanMode : string) : Body :=
  {| body_selection := registered id;
     body_functions := Some [fanHold fanMode];
     body_hvacMode := None |}.

Section Reconciler.

Variable net : Network.

Definition update_this (f : EcobeeThermostat -> EcobeeThermostat) : M Reconciler unit :=
  modify (fun r => {| this := f (this r); provider := provider r |}).

Definition print (msg : string) : M Reconciler unit := update_this (dev_print msg).

(** A call of a method of [this.provider]. *)
Definition call_provider {A : Type} (m : M World A) : M Reconciler A :=
  fun r =>
    match m (provider r) with
    | Ok a w => Ok a {| this := this r; provider := w |}
    | Throw e w => Throw e {| this := this r; provider := w |}
    | Diverge => Diverge
    end.

Definition reload (fuel : nat) : M Reconciler unit :=
  id <- gets (fun r => nativeId (this r));;
  let json := {| selectionType := "thermostats"; selectionMatch := id;
                 includeSettings := true; includeRuntime := true;
                 includeEquipmentStatus := true |} in
  resp <- call_provider (req net fuel "get" "thermostat" (Some json) None None);;
  match payload_thermostatList resp with
  | None => throw (TypeError "thermostatList[0]")
  | Some thermostatList =>
      print "Reload data";;
      match thermostatList !! 0%nat with
      | None => throw (TypeError "data.runtime")
      | Some data =>
          match equipmentStatus data with
          | None =>
              update_this (set_temperature
                (Some (ecobeeIntToCelsius (actualTemperature (runtime data)))));;
              update_this (set_humidity
                (Some (to_number (actualHumidity (runtime data)))));;
              throw (TypeError "equipmentStatus.toLowerCase")
          | Some equipment => update_this (apply_reload data equipment)
          end
      end
  end.

Definition setTemperature (fuel : nat) (command : TemperatureCommand) : M Reconciler unit :=
  print "setTemperature [object Object]";;
  print "[object Object]";;
  id <- gets (fun r => nativeId (this r));;
  let data := setTemperatureData id command in
  match cmd_mode command with
  | Some m => print ("setTemperature.mode " ++ mode_name m)
  | None => ret tt
  end;;
  resp <- call_provider (req net fuel "post" "thermostat" None (Some data) None);;
  match payload_status_code resp with
  | None => throw (TypeError "resp.status.code")
  | Some code =>
      if Z.eqb code 0 then
        print "setTemperature success";;
        reload fuel
      else
        print "setTemperature failed: [object Object]"
  end.

Definition turnOff (fuel : nat) : M Reconciler unit :=
  print "fanOff: setting fan to auto";;
  id <- gets (fun r => nativeId (this r));;
  let data := fanData id "auto" in
  resp <- call_provider (req net fuel "post" "thermostat" None (Some data) None);;
  match payload_status_code resp with
  | None => throw (TypeError "resp.status.code")
  | Some code =>
      if Z.eqb code 0 then
        print "fanOff success";;
        reload fuel
      else
        print "fanOff failed: [object Object]"
  end.

Definition turnOn (fuel : nat) : M Reconciler unit :=
  print "fanOn: setting fan to on";;
  id <- gets (fun r => nativeId (this r));;
  let data := fanData id "on" in
  resp <- call_provider (req net fuel "post" "thermostat" None (Some data) None);;
  match payload_status_code resp with
  | None => throw (TypeError "resp.status.code")
  | Some code =>
      if Z.eqb code 0 then
        print "fanOn success";;
        reload fuel
      else
        print "fanOn failed: [object Object]"
  end.

(** [refresh]: the second field of [statusList[0]] is the equipment
    status. *)
Definition refresh (fuel : nat) (refreshInterface : string) (userInitiated : bool)
  : M Reconciler unit :=
  print (refreshInterface ++ " requested refresh");;
  id <- gets (fun r => nativeId (this r));;
  let json := {| selectionType := "thermostats"; selectionMatch := id;
                 includeSettings := false; includeRuntime := false;
                 includeEquipmentStatus := true |} in
  data <- call_provider (req net fuel "get" "thermostatSummary" (Some json) None None);;
  match payload_statusList data ≫= (λ l, l !! 0%nat) with
  | None => throw (TypeError "statusList[0].split")
  | Some status =>
      match split ":" status !! 1%nat with
      | None => throw (TypeError "equipmentStatus.toLowerCase")
      | Some equipment =>
          update_this (_updateEquipmentStatus equipment);;
          match payload_revisionList data ≫= (λ l, l !! 0%nat) with
          | None => throw (TypeError "listStr.split")
          | Some listStr =>
              changed <- (fun r => let '(c, t) := _updateRevisionList listStr (this r) in
                                   Ok c {| this := t; provider := provider r |});;
              if changed : bool then reload fuel else ret tt
          end
      end
  end.

End Reconciler.

(** ** The controller: settings, handshake and start-up
    (main.ts, lines 386-465 and 615-617) *)

(** The controller together with the alert channel of the host
    ([this.log.a], [this.log.clearAlerts]).  An alert, like a console
    line, is recorded without the name and the date that the source
    puts in front of it. *)
Record Host : Type := {
  plugin : World;
  alerts : list string
}.

(** The answer to [GET /authorize]: the properties [ecobeePin] and
    [code] of the body, or a rejection. *)
Inductive PinResponse : Type :=
  | PinResolve (ecobeePin code : option string)
  | PinReject (e : Error).

Definition Authorizer : Type := nat -> AxiosRequest -> PinResponse.

(** An [async] method that is called without [await]: the caller goes
    on and the call runs on its own. *)
Inductive Detached : Type :=
  | DetachedInitialize
  | DetachedDiscoverDevices.

Inductive SettingValue : Type :=
  | BooleanValue (b : bool)
  | TextValue (s : option string).

Record Setting : Type := {
  setting_title : string;
  setting_key : string;
  setting_type : option string;
  setting_description : string;
  setting_value : SettingValue
}.

(** [!v] for a stored string: [null], [undefined] and the empty string
    are falsy. *)
Definition falsy (v : option string) : bool :=
  match v with
  | None => true
  | Some s => String.eqb s ""
  end.

Section Settings.

Variable net : Network.
Variable authorizer : Authorizer.

Definition in_plugin {A : Type} (m : M World A) : M Host A :=
  fun h =>
    match m (plugin h) with
    | Ok a w => Ok a {| plugin := w; alerts := alerts h |}
    | Throw e w => Throw e {| plugin := w; alerts := alerts h |}
    | Diverge => Diverge
    end.

Definition alert (msg : string) : M Host unit :=
  modify (fun h => {| plugin := plugin h; alerts := alerts h ++ [msg] |}).

Definition clearAlerts : M Host unit :=
  modify (fun h => {| plugin := plugin h; alerts := [] |}).

(** [axios.get(authUrl, { params })] *)
Definition axios_get (authUrl : string) (authParams : list (string * option string))
  : M World (option string * option string) :=
  fun w =>
    let q := {| method := "get"; baseURL := None; url := authUrl;
                authorization := None; params := QueryParams authParams;
                data := None; timeout := None |} in
    let w' := set_sent (sent w ++ [q]) w in
    match authorizer (length (sent w)) q with
    | PinResolve pin code => Ok (pin, code) w'
    | PinReject e => Throw e w'
    end.

Definition getCode : M Host unit :=
  api_base <- in_plugin (getItem "api_base");;
  let authUrl := "https://" ++ interpolate "null" api_base ++ "/authorize" in
  client_id <- in_plugin (getItem "client_id");;
  let authParams :=
    [("response_type", Some "ecobeePin"); ("scope", Some "smartWrite");
     ("client_id", client_id)] in
  authData <- in_plugin (axios_get authUrl authParams);;
  clearAlerts;;
  alert ("Got code " ++ interpolate "undefined" (fst authData)
         ++ ". Enter this in 'My Apps' Ecobee portal. Then restart this app.");;
  in_plugin (setItem "ecobee_code" (snd authData)).

Definition putSetting (key value : string) : M Host unit :=
  in_plugin (setItem key (Some value));;
  if String.eqb key "client_id" then getCode else ret tt.

Definition getSettings : M Host (list Setting) :=
  sensors <- in_plugin (getItem "sensors_only");;
  api_base <- in_plugin (getItem "api_base");;
  client_id <- in_plugin (getItem "client_id");;
  ret [ {| setting_title := "Sensors Only"; setting_key := "sensors_only";
           setting_type := Some "boolean";
           setting_description := "Expose only sensors, and not thermostat";
           setting_value := BooleanValue (bool_decide (sensors = Some "true")) |};
        {| setting_title := "API Base URL"; setting_key := "api_base";
           setting_type := None;
           setting_description := "Customize the API base URL";
           setting_value := TextValue api_base |};
        {| setting_title := "API Client ID"; setting_key := "client_id";
           setting_type := None;
           setting_description := "Your Client ID from the Ecboee developer portal";
           setting_value := TextValue client_id |} ].

(** [initialize]: [discoverDevices] is called without [await]. *)
Definition initialize : M Host (list Detached) :=
  client_id <- in_plugin (getItem "client_id");;
  if falsy client_id then
    alert "You must specify a client ID.";;
    in_plugin (log ("Enter a client ID for this app from the Ecobee developer portal. "
                    ++ "Then, collect the PIN and enter in Ecobee 'My Apps'. "
                    ++ "Restart this app to complete."));;
    ret []
  else
    refresh_token <- in_plugin (getItem "refresh_token");;
    (if falsy refresh_token then in_plugin (getToken net)
     else
       token <- in_plugin (gets access_token);;
       if falsy token then in_plugin (refreshToken net) else ret tt);;
    ret [DetachedDiscoverDevices].

(** [new EcobeeController()] over the settings the host has stored:
    the alerts are cleared, a missing base URL is filled in and
    [initialize] is called without [await]. *)
Definition new_EcobeeController (stored : gmap string string) : Host * list Detached :=
  ({| plugin := {| access_token := None;
                   storage := if falsy (stored !! "api_base")
                              then <["api_base" := "api.ecobee.com"]> stored
                              else stored;
                   devices := ∅; published := []; sent := []; console := [] |};
      alerts := [] |},
   [DetachedInitialize]).

Definition releaseDevice (id nativeId : string) : M Host unit := ret tt.


End Settings.

(** * Definitions used by the statements *)

(** ** Discovery *)

(** A reading that is there and is not below zero. *)
Definition present_nonneg (v : option number) : Prop :=
  match v with
  | Some (S754_zero _) => True
  | Some (S754_finite false _ _) => True
  | Some (S754_infinity false) => True
  | _ => False
  end.

(** ** A sample installation *)

Definition sample_device : ApiDevice :=
  {| identifier := "411912345678"; api_name := "Hallway"; brand := "ecobee";
     modelNumber := "nikeSmart";
     settings := {| hvacMode := "heat"; hasHumidifier := true;
                    humidifierMode := "off"; settings_humidity := "36" |};
     runtime := {| actualTemperature := "711"; actualHumidity := "41";
                   desiredHeat := "680"; desiredCool := "760";
                   actualAQScore := Some (of_Z 42); actualVOC := None;
                   actualCO2 := Some (of_Z 5120) |};
     equipmentStatus := Some "fan,dehumidifier" |}.

Definition sample_world (settings : list (string * string)) : World :=
  {| access_token := Some "token-0"; storage := list_to_map settings;
     devices := ∅; published := []; sent := []; console := [] |}.

Definition sample_thermostat : EcobeeThermostat :=
  new_EcobeeThermostat (discoveredDevice false sample_device).

(** ** Token manager *)

(** The request of a token exchange: [getToken] and [refreshToken]
    differ in the grant type and in the stored credential they send. *)
Definition exchange_request (grant_type credential stored_as : string) (w : World)
  : AxiosRequest :=
  {| method := "post"; baseURL := None;
     url := "https://" ++ interpolate "null" (storage w !! "api_base") ++ "/token";
     authorization := None;
     params := QueryParams [("grant_type", Some grant_type);
                            (credential, storage w !! stored_as);
                            ("client_id", storage w !! "client_id");
                            ("ecobee_type", Some "jwt")];
     data := None; timeout := None |}.

Definition getToken_request : World -> AxiosRequest :=
  exchange_request "ecobeePin" "code" "ecobee_code".

Definition refreshToken_request : World -> AxiosRequest :=
  exchange_request "refresh_token" "refresh_token" "refresh_token".

(** The state after an exchange that was answered with [d]. *)
Definition exchanged (q : AxiosRequest) (d : Payload) (msg : string) (w : World) : World :=
  set_console (console w ++ [msg])
    (set_storage (<["refresh_token" := interpolate "undefined" (payload_refresh_token d)]>
                    (storage w))
       (set_access_token (payload_access_token d) (set_sent (sent w ++ [q]) w))).

(** An environment in which every HTTP call is rejected. *)
Definition offline : Network := fun _ _ => Reject (AxiosError "ECONNREFUSED").

(** ** Request gateway *)

(** Token requests carry no base URL; requests made by [req] do. *)
Definition is_api_request (q : AxiosRequest) : bool :=
  match baseURL q with Some _ => true | None => false end.

(** Every API request is rejected and every token refresh succeeds. *)
Definition always_unauthorized : Network :=
  fun _ q =>
    if is_api_request q then Reject (AxiosError "401")
    else Resolve (TokenData "access-1" "refresh-1").

(** The first three API requests are rejected, the fourth one is
    answered; token refreshes succeed.  The calls alternate, so the
    fourth API request is the call of rank 6. *)
Definition three_failures : Network :=
  fun k q =>
    if is_api_request q then
      if Nat.ltb k 6 then Reject (AxiosError "401") else Resolve (ThermostatData [])
    else Resolve (TokenData "access-1" "refresh-1").

(** ** Commands *)

(** The reconciler after the opening lines of [setTemperature] have
    been printed. *)
Definition announced (command : TemperatureCommand) (t : EcobeeThermostat)
  : EcobeeThermostat :=
  let t := dev_print "[object Object]" (dev_print "setTemperature [object Object]" t) in
  match cmd_mode command with
  | Some m => dev_print ("setTemperature.mode " ++ mode_name m) t
  | None => t
  end.

(** What a command method does with the outcome of its request:
    [before] is the reconciler when the request is made; [what] names
    the command in the console. *)
Definition command_outcome (net : Network) (fuel : nat) (what : string)
    (before : EcobeeThermostat) (outcome : Result World Payload)
  : Result Reconciler unit :=
  match outcome with
  | Ok resp w1 =>
      match payload_status_code resp with
      | None => Throw (TypeError "resp.status.code") {| this := before; provider := w1 |}
      | Some code =>
          if Z.eqb code 0
          then reload net fuel {| this := dev_print (what ++ " success") before;
                                  provider := w1 |}
          else Ok tt {| this := dev_print (what ++ " failed: [object Object]") before;
                        provider := w1 |}
      end
  | Throw e w1 => Throw e {| this := before; provider := w1 |}
  | Diverge => Diverge
  end.

Definition sample_reconciler : Reconciler :=
  {| this := sample_thermostat;
     provider := sample_world [("api_base", "api.ecobee.com"); ("client_id", "app-key");
                               ("refresh_token", "refresh-0")] |}.

Definition heat_to_21 : TemperatureCommand :=
  {| cmd_mode := None; cmd_setpoint := Some (Single (of_Z 21)) |}.

(** The vendor accepts every command and reports one thermostat. *)
Definition vendor_accepts : Network :=
  fun _ q =>
    if String.eqb (method q) "post" then Resolve (StatusData 0)
    else Resolve (ThermostatData [sample_device]).

(** ** Air quality *)

(** The scale in the words of the specification: the exclusive upper
    bound of each bucket with its grade, in ascending order. *)
Definition aq_scale : list (Z * AirQuality) :=
  [(51, Excellent); (101, Good); (151, Fair); (201, Poor); (301, Poor); (501, Inferior)].

(** The grade of the first bucket whose bound lies above [x]; Unknown
    when there is none. *)
Fixpoint grade (scale : list (Z * AirQuality)) (x : number) : AirQuality :=
  match scale with
  | [] => AQUnknown
  | (bound, q) :: rest => if lt x (of_Z bound) then q else grade rest x
  end.

(** ** Temperature round trip *)

(** The integer that the vendor reads back after a temperature went
    through both conversions. *)
Definition round_trip (t : Z) : option Z :=
  read_Z (celsiusToEcobeeInt (ecobeeIntToCelsius (show_Z t))).

(** The four constants of the conversions, evaluated. *)
Definition five_ninths : number := Eval vm_compute in div (of_Z 5) (of_Z 9).
Definition one_point_eight : number := Eval vm_compute in to_number "1.8".
Definition ten : number := Eval vm_compute in of_Z 10.
Definition thirty_two : number := Eval vm_compute in of_Z 32.

Definition round_trip_eval (t : Z) : option Z :=
  let f := div (to_number (show_Z t)) ten in
  let c := to_number (toFixed 2 (mul five_ninths (sub f thirty_two))) in
  read_Z (toFixed 0 (mul (add (mul c one_point_eight) thirty_two) ten)).

Definition exact_at (t : Z) : bool :=
  match round_trip_eval t with
  | Some r => Z.eqb r t
  | None => false
  end.

Fixpoint holds_from (P : Z -> bool) (lo : Z) (n : nat) : bool :=
  match n with
  | O => true
  | S k => P lo && holds_from P (lo + 1) k
  end.

(** ** Request gateway: what may appear in the trace *)

(** [q] is the call that [req] was asked to make. *)
Definition same_call (m endpoint : string) (json : option Selection)
    (body : option Body) (q : AxiosRequest) : Prop :=
  method q = m /\ url q = endpoint
  /\ params q = match json with Some j => JsonParams j | None => NoParams end
  /\ data q = body /\ timeout q = Some 10000
  /\ exists token, authorization q = Some ("Bearer " ++ token).

(** [q] is a token refresh. *)
Definition token_refresh (q : AxiosRequest) : Prop :=
  method q = "post" /\ baseURL q = None /\ data q = None
  /\ exists credential client,
       params q = QueryParams [("grant_type", Some "refresh_token");
                               ("refresh_token", credential);
                               ("client_id", client);
                               ("ecobee_type", Some "jwt")].

(** The state in which an execution ended, when it ended. *)
Definition final_state {S A : Type} (x : Result S A) : option S :=
  match x with
  | Ok _ s => Some s
  | Throw _ s => Some s
  | Diverge => None
  end.

(** One rejected API request, then answers; token refreshes succeed. *)
Definition one_failure : Network :=
  fun k q =>
    if is_api_request q then
      if Nat.eqb k 0 then Reject (AxiosError "401") else Resolve (StatusData 1)
    else Resolve (TokenData "access-1" "refresh-1").

(** ** Reconciler *)

(** The selection that [reload] sends. *)
Definition reload_selection (id : string) : Selection :=
  {| selectionType := "thermostats"; selectionMatch := id;
     includeSettings := true; includeRuntime := true;
     includeEquipmentStatus := true |}.

(** The selection that [refresh] sends. *)
Definition summary_selection (id : string) : Selection :=
  {| selectionType := "thermostats"; selectionMatch := id;
     includeSettings := false; includeRuntime := false;
     includeEquipmentStatus := true |}.

(** [q] names the thermostat [id], and only it, in its query or in its
    body. *)
Definition selects (id : string) (q : AxiosRequest) : Prop :=
  (exists j, params q = JsonParams j /\ selectionMatch j = id)
  \/ (exists b, data q = Some b /\ selectionMatch (body_selection b) = id).

(** The vendor accepts every command and answers every query with an
    empty list of thermostats. *)
Definition no_thermostat : Network :=
  fun _ q =>
    if String.eqb (method q) "post" then Resolve (StatusData 0)
    else Resolve (ThermostatData []).

(** The vendor answers every query with the summary of one thermostat
    whose fingerprint does not move. *)
Definition quiet_summary : Network :=
  fun _ _ =>
    Resolve (SummaryData ["411912345678:Hallway:true:101:102:103:104"]
                         ["411912345678:fan,compCool1"]).

(** The vendor answers with a status entry that has no colon. *)
Definition malformed_summary : Network :=
  fun _ _ =>
    Resolve (SummaryData ["411912345678:Hallway:true:101:102:103:104"]
                         ["fan"]).

(** ** Discovery *)

(** The selection that [discoverDevices] sends. *)
Definition discovery_selection : Selection :=
  {| selectionType := "registered"; selectionMatch := "";
     includeSettings := true; includeRuntime := true;
     includeEquipmentStatus := false |}.




(** ** Settings and start-up *)

(** The value that [getSettings] reports under [key]. *)
Definition reported (key : string) (h : Host) : option SettingValue :=
  match getSettings h with
  | Ok settings _ =>
      setting_value <$> List.find (fun s => String.eqb (setting_key s) key) settings
  | _ => None
  end.

(** The request of the pin handshake, as [getCode] builds it. *)
Definition getCode_request (w : World) : AxiosRequest :=
  {| method := "get"; baseURL := None;
     url := "https://" ++ interpolate "null" (storage w !! "api_base") ++ "/authorize";
     authorization := None;
     params := QueryParams [("response_type", Some "ecobeePin");
                            ("scope", Some "smartWrite");
                            ("client_id", storage w !! "client_id")];
     data := None; timeout := None |}.

Definition pin_message (pin : option string) : string :=
  "Got code " ++ interpolate "undefined" pin
  ++ ". Enter this in 'My Apps' Ecobee portal. Then restart this app.".

Definition sample_host (settings : list (string * string)) : Host :=
  {| plugin := sample_world settings; alerts := ["stale alert"] |}.

(** The vendor hands out a pin. *)
Definition pin_granted : Authorizer :=
  fun _ _ => PinResolve (Some "a1b2") (Some "code-1").

(** The vendor refuses the pin request. *)
Definition pin_refused : Authorizer :=
  fun _ _ => PinReject (AxiosError "400").

(** ** Equipment status *)

(** [tokens.join(sep)] *)
Fixpoint join (sep : ascii) (tokens : list string) : string :=
  match tokens with
  | [] => ""
  | [token] => token
  | token :: rest => token ++ String sep (join sep rest)
  end.

(** The equipment names that the source lists as possible. *)
Definition equipment_names : list string :=
  ["heatPump"; "heatPump2"; "heatPump3"; "compCool1"; "compCool2";
   "auxHeat1"; "auxHeat2"; "auxHeat3"; "fan"; "humidifier"; "dehumidifier";
   "ventilator"; "economizer"; "compHotWater"; "auxHotWater"].

Definition heating_names : list string :=
  ["heatPump"; "heatPump2"; "heatPump3"; "auxHeat1"; "auxHeat2"; "auxHeat3"].

Definition cooling_names : list string := ["compCool1"; "compCool2"].

(** Some element of [names] is among [tokens]. *)
Definition lists_any (names tokens : list string) : bool :=
  existsb (fun token => bool_decide (token ∈ names)) tokens.

(** The separator, lower-cased, is no letter of the four words that
    [_updateEquipmentStatus] looks for. *)
Definition separates (sep : ascii) : bool :=
  forallb (fun word => negb (includes word (String (lower_char sep) "")))
          ["heat"; "cool"; "fan"; "humidifier"].

(** * Properties *)

(** ** Mode translation *)

(** C6. [ecobeeToThermostatMode] is total: "cool", "heat" and "auto"
    map to Cool, Heat and HeatCool and every other string, "auxHeatOnly"
    included, maps to Off; [thermostatModeToEcobee] maps HeatCool to
    "auto"; translating a vendor mode among cool, heat and auto and
    translating it back gives the same string. *)
Theorem mode_translation :
  ecobeeToThermostatMode "cool" = Cool /\
  ecobeeToThermostatMode "heat" = Heat /\
  ecobeeToThermostatMode "auto" = HeatCool /\
  ecobeeToThermostatMode "auxHeatOnly" = Off /\
  (forall s : string,
      s <> "cool" -> s <> "heat" -> s <> "auto" -> ecobeeToThermostatMode s = Off) /\
  thermostatModeToEcobee HeatCool = "auto" /\
  (forall x : string,
      x = "cool" \/ x = "heat" \/ x = "auto" ->
      thermostatModeToEcobee (ecobeeToThermostatMode x) = x).
Proof.
  split; [reflexivity|]. split; [reflexivity|]. split; [reflexivity|].
  split; [reflexivity|]. split; [|split; [reflexivity|]].
  - intros s Hc Hh Ha. unfold ecobeeToThermostatMode.
    destruct (String.eqb_spec s "cool") as [|_]; [contradiction|].
    destruct (String.eqb_spec s "heat") as [|_]; [contradiction|].
    destruct (String.eqb_spec s "auto") as [|_]; [contradiction|].
    reflexivity.
  - intros x [-> | [-> | ->]]; reflexivity.
Qed.

Lemma mode_translation_witness :
  ecobeeToThermostatMode "off" = Off /\
  thermostatModeToEcobee (ecobeeToThermostatMode "auto") = "auto".
Proof.
  destruct mode_translation as (_ & _ & _ & _ & Hother & _ & Hround).
  split.
  - apply Hother; discriminate.
  - apply Hround. right. right. reflexivity.
Defined.

(** ** Discovery *)

Lemma ge_zero_iff (v : option number) :
  ge (jsnum v) (of_Z 0) = true <-> present_nonneg v.
Proof.
  destruct v as [[s | [] | | [] m e] |]; cbn; intuition congruence.
Qed.

Lemma discover_loop_spec (apiDevices : list ApiDevice) :
  forall (acc : list Device) (w : World),
  exists w',
    discover_loop apiDevices acc w
    = Ok (acc ++ map (discoveredDevice (sensors_only w)) apiDevices)%list w'
    /\ storage w' = storage w /\ access_token w' = access_token w
    /\ sent w' = sent w /\ devices w' = devices w /\ published w' = published w.
Proof.
  induction apiDevices as [| a rest IH]; intros acc w.
  - exists w. cbn. rewrite app_nil_r. repeat split.
  - cbn [discover_loop]. unfold bind at 1. unfold log at 1, modify at 1.
    unfold bind at 1. unfold gets at 1.
    set (w1 := set_console _ w).
    assert (Hs : sensors_only w1 = sensors_only w) by reflexivity.
    rewrite Hs.
    destruct (sensors_only w) eqn:Hso.
    + unfold bind at 1. unfold log at 1, modify at 1.
      set (w2 := set_console _ w1).
      destruct (IH (acc ++ [discoveredDevice true a])%list w2)
        as (w' & Heq & H1 & H2 & H3 & H4 & H5).
      change (sensors_only w2) with (sensors_only w1) in Heq.
      rewrite Hs, <- app_assoc in Heq.
      exists w'. rewrite Heq. repeat split; assumption.
    + unfold bind at 1. unfold ret at 1.
      destruct (IH (acc ++ [discoveredDevice false a])%list w1)
        as (w' & Heq & H1 & H2 & H3 & H4 & H5).
      rewrite Hs, <- app_assoc in Heq.
      exists w'. rewrite Heq. repeat split; assumption.
Qed.

Lemma instantiate_published (listed found : list Device) :
  forall w : World,
    published (fold_left (fun w d => instantiate listed d w) found w) = published w.
Proof.
  induction found as [| d found IH]; intros w; [reflexivity|].
  cbn [fold_left]. rewrite IH. unfold instantiate.
  destruct (devices w !! device_nativeId d); reflexivity.
Qed.

(** The list that [discoverDevices] publishes holds, for every
    thermostat of the answer and in the same order, the device that
    the body of the loop derives from it. *)
Lemma discoverDevices_publishes (net : Network) (fuel : nat) (w w1 : World)
    (apiDevices : list ApiDevice) :
  req net fuel "get" "thermostat"
    (Some {| selectionType := "registered"; selectionMatch := "";
             includeSettings := true; includeRuntime := true;
             includeEquipmentStatus := false |}) None None w
  = Ok (ThermostatData apiDevices) w1 ->
  exists w',
    discoverDevices net fuel w = Ok tt w'
    /\ last (published w') = Some (map (discoveredDevice (sensors_only w1)) apiDevices).
Proof.
  intros Hreq. unfold discoverDevices. unfold bind at 1. rewrite Hreq.
  cbn [payload_thermostatList].
  unfold bind at 1, log at 1, modify at 1.
  set (w2 := set_console _ w1).
  destruct (discover_loop_spec apiDevices [] w2) as (w3 & Hloop & _ & _ & _ & _ & Hpub).
  unfold bind at 1. rewrite Hloop. unfold onDevicesChanged, bind, modify.
  eexists. split; [reflexivity|].
  rewrite instantiate_published. cbn [published set_published].
  rewrite last_snoc. reflexivity.
Qed.

(** Membership of a given interface in a list that is written out. *)
Ltac listed := apply (bool_decide_unpack _); vm_compute; exact I.
Ltac unlisted :=
  match goal with
  | H : _ ∈ _ |- _ => revert H; apply (bool_decide_unpack _); vm_compute; exact I
  end.

(** C9. For a device found by discovery, with the "sensors_only"
    setting read from the store: thermometer, humidity sensor and
    refresh are always there; when the setting is "true" the type is
    Sensor and temperature setting, on/off and humidity setting are
    left out whatever the payload says about a humidifier; otherwise
    the type is Thermostat, temperature setting and on/off are there
    and humidity setting is there exactly when the payload declares a
    humidifier; the air-quality, VOC and CO2 interfaces are there
    exactly when the matching runtime field is present and not
    negative. *)
Theorem discovery_capabilities (w : World) (apiDevice : ApiDevice) :
  let d := discoveredDevice (sensors_only w) apiDevice in
  let has := fun i => i ∈ device_interfaces d in
  (has Thermometer /\ has HumiditySensor /\ has Refresh) /\
  (storage w !! "sensors_only" = Some "true" ->
     device_type d = Sensor /\ ~ has TemperatureSetting /\ ~ has OnOff
     /\ ~ has HumiditySetting) /\
  (storage w !! "sensors_only" <> Some "true" ->
     device_type d = Thermostat /\ has TemperatureSetting /\ has OnOff
     /\ (has HumiditySetting <-> hasHumidifier (settings apiDevice) = true)) /\
  (has AirQualitySensor <-> present_nonneg (actualAQScore (runtime apiDevice))) /\
  (has VOCSensor <-> present_nonneg (actualVOC (runtime apiDevice))) /\
  (has CO2Sensor <-> present_nonneg (actualCO2 (runtime apiDevice))).
Proof.
  cbv zeta. unfold sensors_only, discoveredDevice.
  rewrite <- !ge_zero_iff.
  destruct (ge (jsnum (actualAQScore (runtime apiDevice))) (of_Z 0)),
           (ge (jsnum (actualVOC (runtime apiDevice))) (of_Z 0)),
           (ge (jsnum (actualCO2 (runtime apiDevice))) (of_Z 0)),
           (hasHumidifier (settings apiDevice));
    case_bool_decide; cbn [device_interfaces device_type app];
    repeat split; intros; try congruence; try contradiction;
    first [ listed | exfalso; unlisted ].
Qed.

Lemma discovery_capabilities_witness :
  let w := sample_world [("sensors_only", "true")] in
  let d := discoveredDevice (sensors_only w) sample_device in
  storage w !! "sensors_only" = Some "true" /\
  device_type d = Sensor /\
  ~ TemperatureSetting ∈ device_interfaces d /\
  ~ OnOff ∈ device_interfaces d /\
  ~ HumiditySetting ∈ device_interfaces d.
Proof.
  cbv zeta.
  assert (H : storage (sample_world [("sensors_only", "true")]) !! "sensors_only"
              = Some "true") by (vm_compute; reflexivity).
  split; [exact H|].
  destruct (discovery_capabilities (sample_world [("sensors_only", "true")]) sample_device)
    as (_ & Hsensor & _).
  exact (Hsensor H).
Defined.

(** ** Revision fingerprint *)

Lemma first_change_none (idx : list nat) (newList oldList : list string) :
  first_change idx newList oldList = None <->
  forall i, i ∈ idx -> newList !! i = oldList !! i.
Proof.
  induction idx as [| j rest IH]; cbn [first_change].
  - split; [intros _ i Hi; inversion Hi | reflexivity].
  - unfold strict_ne. case_bool_decide as Hj; cbn [negb].
    + rewrite IH. split.
      * intros Hrest i Hi. apply elem_of_cons in Hi as [-> | Hi]; auto.
      * intros Hall i Hi. apply Hall. apply elem_of_cons; now right.
    + split; [discriminate|].
      intros Hall. exfalso. apply Hj, Hall. apply elem_of_cons; now left.
Qed.

Lemma first_change_some (idx : list nat) (newList oldList : list string) (i : nat) :
  first_change idx newList oldList = Some i ->
  i ∈ idx /\ newList !! i <> oldList !! i.
Proof.
  induction idx as [| j rest IH]; cbn [first_change]; [discriminate|].
  unfold strict_ne. case_bool_decide as Hj; cbn [negb].
  - intros H. destruct (IH H) as [Hin Hne]. split; [apply elem_of_cons; now right|exact Hne].
  - intros [= ->]. split; [apply elem_of_cons; now left|exact Hj].
Qed.

Lemma compared_indices (i : nat) :
  i ∈ seq 3 (length listItems - 3) <-> (3 <= i <= 6)%nat.
Proof.
  change (seq 3 (length listItems - 3)) with [3; 4; 5; 6]%nat.
  rewrite !elem_of_cons, elem_of_nil. lia.
Qed.

(** [refresh] applies the equipment status of the summary, compares
    the fingerprint, and calls [reload] exactly when
    [_updateRevisionList] answers [true]. *)
Lemma refresh_run (net : Network) (fuel : nat) (refreshInterface : string)
    (userInitiated : bool) (r : Reconciler) (w1 : World)
    (revisions statuses : list string) (status equipment listStr : string) :
  req net fuel "get" "thermostatSummary"
    (Some {| selectionType := "thermostats"; selectionMatch := nativeId (this r);
             includeSettings := false; includeRuntime := false;
             includeEquipmentStatus := true |}) None None (provider r)
  = Ok (SummaryData revisions statuses) w1 ->
  statuses !! 0%nat = Some status ->
  split ":" status !! 1%nat = Some equipment ->
  revisions !! 0%nat = Some listStr ->
  let t1 := _updateEquipmentStatus equipment
              (dev_print (refreshInterface ++ " requested refresh") (this r)) in
  refresh net fuel refreshInterface userInitiated r =
  if fst (_updateRevisionList listStr t1)
  then reload net fuel {| this := snd (_updateRevisionList listStr t1); provider := w1 |}
  else Ok tt {| this := snd (_updateRevisionList listStr t1); provider := w1 |}.
Proof.
  intros Hreq Hstatus Hequipment Hlist t1.
  unfold refresh, bind, print, update_this, modify, gets, call_provider, ret.
  cbn beta iota. cbn [this provider nativeId dev_print set_dev_console].
  rewrite Hreq. cbn [payload_statusList payload_revisionList mbind option_bind].
  rewrite Hstatus, Hequipment, Hlist. cbn [this provider]. fold t1.
  destruct (_updateRevisionList listStr t1) as [[] t2]; reflexivity.
Qed.

(** C4. [_updateRevisionList] stores the new fingerprint and answers
    [true] exactly when no fingerprint was stored before or the new one
    differs from the stored one at one of the indices 3 to 6; a
    fingerprint that agrees with the stored one at the indices 3 to 6,
    whatever happens at the indices 0 to 2, answers [false]. *)
Theorem revision_fingerprint (listStr : string) (t : EcobeeThermostat) :
  let newList := split ":" listStr in
  revisionList (snd (_updateRevisionList listStr t)) = Some newList /\
  (fst (_updateRevisionList listStr t) = true <->
     revisionList t = None \/
     exists (oldList : list string) (i : nat),
       revisionList t = Some oldList /\ (3 <= i <= 6)%nat /\
       newList !! i <> oldList !! i) /\
  (forall oldList : list string,
      revisionList t = Some oldList ->
      (forall i : nat, (3 <= i <= 6)%nat -> newList !! i = oldList !! i) ->
      fst (_updateRevisionList listStr t) = false).
Proof.
  cbv zeta. unfold _updateRevisionList.
  destruct (revisionList t) as [oldList |] eqn:Hold.
  - destruct (first_change _ _ oldList) as [i |] eqn:Hfc.
    + apply first_change_some in Hfc as [Hin Hne].
      apply compared_indices in Hin.
      split; [reflexivity|]. split.
      * split; [|reflexivity]. intros _. right. exists oldList, i. auto.
      * intros old' [= <-] Hall. exfalso. apply Hne, Hall, Hin.
    + pose proof (proj1 (first_change_none _ _ _) Hfc) as Hall.
      split; [reflexivity|]. split.
      * split; [discriminate|].
        intros [Hnone | (old' & i & [= <-] & Hi & Hne)]; [discriminate|].
        exfalso. apply Hne, Hall, compared_indices, Hi.
      * reflexivity.
  - split; [reflexivity|]. split.
    + split; [intros _; now left | reflexivity].
    + intros oldList [=].
Qed.

Lemma revision_fingerprint_witness :
  let t := set_revisionList
             (Some (split ":" "411912345678:Hallway:true:101:102:103:104"))
             sample_thermostat in
  fst (_updateRevisionList "411912345678:Landing:false:101:102:103:104" t) = false.
Proof.
  cbv zeta.
  set (t := set_revisionList _ sample_thermostat).
  destruct (revision_fingerprint "411912345678:Landing:false:101:102:103:104" t)
    as (_ & _ & Hsame).
  apply (Hsame (split ":" "411912345678:Hallway:true:101:102:103:104")).
  - reflexivity.
  - intros i Hi.
    assert (Hcases : i = 3%nat \/ i = 4%nat \/ i = 5%nat \/ i = 6%nat) by lia.
    destruct Hcases as [-> | [-> | [-> | ->]]]; vm_compute; reflexivity.
Defined.

(** ** Equipment status *)

Lemma prefix_app (sub s : string) :
  String.prefix sub s = true -> exists post, s = sub ++ post.
Proof.
  revert s. induction sub as [| c sub IH]; intros s H.
  - exists s. reflexivity.
  - destruct s as [| d s]; cbn in H; [discriminate|].
    destruct (Ascii.ascii_dec c d) as [-> | Hne]; [|discriminate].
    destruct (IH s H) as [post ->]. exists post. reflexivity.
Qed.

Lemma app_prefix (sub post : string) : String.prefix sub (sub ++ post) = true.
Proof.
  induction sub as [| c sub IH]; simpl.
  - destruct post; reflexivity.
  - destruct (Ascii.ascii_dec c c); [exact IH|contradiction].
Qed.

Lemma includes_inv (s sub : string) :
  includes s sub = true -> exists pre post, s = pre ++ sub ++ post.
Proof.
  induction s as [| c s IH]; cbn [includes].
  - destruct (String.prefix sub "") eqn:Hp; [|discriminate].
    intros _. apply prefix_app in Hp as [post Hp]. exists "", post. exact Hp.
  - destruct (String.prefix sub (String c s)) eqn:Hp.
    + intros _. apply prefix_app in Hp as [post Hp]. exists "", post. exact Hp.
    + intros H. destruct (IH H) as (pre & post & ->).
      exists (String c pre), post. reflexivity.
Qed.

Lemma includes_prefix (s sub : string) :
  String.prefix sub s = true -> includes s sub = true.
Proof.
  intros H. destruct s; cbn [includes]; rewrite H; reflexivity.
Qed.

Lemma includes_app (pre sub post : string) :
  includes (pre ++ sub ++ post) sub = true.
Proof.
  induction pre as [| c pre IH].
  - change ("" ++ sub ++ post) with (sub ++ post).
    apply includes_prefix, app_prefix.
  - change (String c pre ++ sub ++ post) with (String c (pre ++ sub ++ post)).
    cbn [includes]. rewrite IH. destruct (String.prefix _ _); reflexivity.
Qed.

Lemma toLowerCase_app (a b : string) :
  toLowerCase (a ++ b) = toLowerCase a ++ toLowerCase b.
Proof.
  induction a as [| c a IH]; [reflexivity|].
  change (String c a ++ b) with (String c (a ++ b)).
  cbn [toLowerCase]. rewrite IH. reflexivity.
Qed.

Lemma append_assoc (a b c : string) : (a ++ b) ++ c = a ++ b ++ c.
Proof.
  induction a as [| x a IH]; [reflexivity|].
  change (String x a ++ b) with (String x (a ++ b)).
  change (String x (a ++ b) ++ c) with (String x ((a ++ b) ++ c)).
  rewrite IH. reflexivity.
Qed.

(** C10. An equipment status that contains "dehumidifier" makes
    [_updateEquipmentStatus] set the active humidifier mode to
    Humidify, because that token contains "humidifier"; a status
    naming only the dehumidifier and one naming only the humidifier
    leave the same active humidifier mode. *)
Theorem dehumidifier_sets_humidify (equipmentStatus : string) (t : EcobeeThermostat) :
  (includes equipmentStatus "dehumidifier" = true ->
   hum_activeMode (humiditySetting (_updateEquipmentStatus equipmentStatus t))
   = Some Humidify) /\
  hum_activeMode (humiditySetting (_updateEquipmentStatus "dehumidifier" t))
  = hum_activeMode (humiditySetting (_updateEquipmentStatus "humidifier" t)).
Proof.
  split; [|reflexivity].
  intros H. apply includes_inv in H as (pre & post & ->).
  assert (Hinc : includes (toLowerCase (pre ++ "dehumidifier" ++ post)) "humidifier" = true).
  { rewrite !toLowerCase_app.
    change (toLowerCase "dehumidifier") with ("de" ++ "humidifier").
    rewrite (append_assoc "de" "humidifier").
    rewrite <- (append_assoc (toLowerCase pre) "de").
    apply includes_app. }
  unfold _updateEquipmentStatus. cbv zeta.
  cbn [humiditySetting set_temperatureSetting set_humiditySetting hum_activeMode].
  rewrite Hinc. reflexivity.
Qed.

Lemma dehumidifier_sets_humidify_witness :
  includes "fan,dehumidifier" "dehumidifier" = true /\
  hum_activeMode (humiditySetting (_updateEquipmentStatus "fan,dehumidifier" sample_thermostat))
  = Some Humidify.
Proof.
  split; [reflexivity|].
  apply (proj1 (dehumidifier_sets_humidify "fan,dehumidifier" sample_thermostat)).
  reflexivity.
Defined.

(** ** Token manager *)

Ltac run_controller :=
  unfold getToken, refreshToken, axios_post, axios, setItem, getItem, log,
         bind, gets, modify, ret, throw;
  cbn beta iota.

Lemma getToken_run (net : Network) (w : World) :
  getToken net w =
  match net (length (sent w)) (getToken_request w) with
  | Resolve d => Ok tt (exchanged (getToken_request w) d "Got tokens" w)
  | Reject e => Throw e (set_sent (sent w ++ [getToken_request w]) w)
  end.
Proof.
  run_controller.
  change (net (length (sent w)) _) with (net (length (sent w)) (getToken_request w)).
  destruct (net (length (sent w)) (getToken_request w)); reflexivity.
Qed.

Lemma refreshToken_run (net : Network) (w : World) :
  refreshToken net w =
  match net (length (sent w)) (refreshToken_request w) with
  | Resolve d => Ok tt (exchanged (refreshToken_request w) d "Refreshed tokens" w)
  | Reject e => Throw e (set_sent (sent w ++ [refreshToken_request w]) w)
  end.
Proof.
  run_controller.
  change (net (length (sent w)) _) with (net (length (sent w)) (refreshToken_request w)).
  destruct (net (length (sent w)) (refreshToken_request w)); reflexivity.
Qed.

(** C8. [getToken] and [refreshToken] change the credentials in one
    piece.  When the token exchange is answered, the access token in
    memory is the new one and the new refresh token is in the store.
    When the exchange request fails, the method raises the error of the
    request, and the access token held in memory and the settings
    store, with the refresh token in it, are what they were before the
    call. *)
Theorem token_exchange_atomic (net : Network) (w : World) :
  (forall a r : string,
      net (length (sent w)) (getToken_request w) = Resolve (TokenData a r) ->
      exists w', getToken net w = Ok tt w' /\ access_token w' = Some a
                 /\ storage w' !! "refresh_token" = Some r) /\
  (forall a r : string,
      net (length (sent w)) (refreshToken_request w) = Resolve (TokenData a r) ->
      exists w', refreshToken net w = Ok tt w' /\ access_token w' = Some a
                 /\ storage w' !! "refresh_token" = Some r) /\
  (forall e : Error,
      net (length (sent w)) (getToken_request w) = Reject e ->
      exists w', getToken net w = Throw e w'
                 /\ access_token w' = access_token w /\ storage w' = storage w) /\
  (forall e : Error,
      net (length (sent w)) (refreshToken_request w) = Reject e ->
      exists w', refreshToken net w = Throw e w'
                 /\ access_token w' = access_token w /\ storage w' = storage w).
Proof.
  split; [|split; [|split]].
  - intros a r H. rewrite getToken_run, H. eexists.
    split; [reflexivity|]. split; [reflexivity|]. apply lookup_insert_eq.
  - intros a r H. rewrite refreshToken_run, H. eexists.
    split; [reflexivity|]. split; [reflexivity|]. apply lookup_insert_eq.
  - intros e H. rewrite getToken_run, H. eexists. repeat split.
  - intros e H. rewrite refreshToken_run, H. eexists. repeat split.
Qed.

Lemma token_exchange_atomic_witness :
  let w := sample_world [("refresh_token", "refresh-0"); ("client_id", "app-key")] in
  offline (length (sent w)) (refreshToken_request w) = Reject (AxiosError "ECONNREFUSED") /\
  (exists w', refreshToken offline w = Throw (AxiosError "ECONNREFUSED") w'
              /\ access_token w' = access_token w /\ storage w' = storage w).
Proof.
  cbv zeta. split; [reflexivity|].
  destruct (token_exchange_atomic offline
              (sample_world [("refresh_token", "refresh-0"); ("client_id", "app-key")]))
    as (_ & _ & _ & Hfail).
  apply (Hfail (AxiosError "ECONNREFUSED")). reflexivity.
Defined.

(** ** Request gateway *)

(** The guard of [req] holds back a call that is entered with an
    attempt count above [API_RETRY]. *)
Lemma req_guard (net : Network) (fuel : nat) (method endpoint : string) (w : World) :
  req net (S fuel) method endpoint None None (Some (of_Z 3)) w
  = Throw (RequestFailed method endpoint (of_Z 3)) w.
Proof. reflexivity. Qed.

(** One failed attempt: the request is rejected, the handler logs and
    refreshes the token, and the retry is entered with the attempt
    count that the failed call was entered with. *)
Lemma req_retry_step (net : Network) (fuel : nat) (method endpoint : string)
    (json : option Selection) (data : option Body) (attempt : option number)
    (w : World) (e : Error) (d : Payload) :
  let q := req_config method endpoint json data w in
  let w1 := set_console (console w ++ ["req failed"]) (set_sent (sent w ++ [q]) w) in
  gt (jsnum attempt) API_RETRY = false ->
  net (length (sent w)) q = Reject e ->
  net (length (sent w1)) (refreshToken_request w1) = Resolve d ->
  req net (S fuel) method endpoint json data attempt w
  = req net fuel method endpoint json data (Some (jsnum attempt))
      (exchanged (refreshToken_request w1) d "Refreshed tokens" w1).
Proof.
  intros q w1 Hguard Hfail Hrefresh.
  cbn [req]. rewrite Hguard.
  unfold try_catch, bind at 1, gets at 1.
  unfold axios at 1. fold q. rewrite Hfail.
  unfold bind at 1, log at 1, modify at 1.
  change (set_console _ (set_sent (sent w ++ [q]) w)) with w1.
  unfold bind at 1. rewrite refreshToken_run, Hrefresh. reflexivity.
Qed.

(** A failed attempt whose token refresh fails too: the error of the
    refresh leaves [req]. *)
Lemma req_refresh_rejected (net : Network) (fuel : nat) (method endpoint : string)
    (json : option Selection) (data : option Body) (attempt : option number)
    (w : World) (e e' : Error) :
  let q := req_config method endpoint json data w in
  let w1 := set_console (console w ++ ["req failed"]) (set_sent (sent w ++ [q]) w) in
  gt (jsnum attempt) API_RETRY = false ->
  net (length (sent w)) q = Reject e ->
  net (length (sent w1)) (refreshToken_request w1) = Reject e' ->
  req net (S fuel) method endpoint json data attempt w
  = Throw e' (set_sent (sent w1 ++ [refreshToken_request w1]) w1).
Proof.
  intros q w1 Hguard Hfail Hrefresh.
  cbn [req]. rewrite Hguard.
  unfold try_catch, bind at 1, gets at 1.
  unfold axios at 1. fold q. rewrite Hfail.
  unfold bind at 1, log at 1, modify at 1.
  change (set_console _ (set_sent (sent w ++ [q]) w)) with w1.
  unfold bind at 1. rewrite refreshToken_run, Hrefresh. reflexivity.
Qed.

(** An attempt that is answered returns the payload. *)
Lemma req_resolved (net : Network) (fuel : nat) (method endpoint : string)
    (json : option Selection) (data : option Body) (attempt : option number)
    (w : World) (d : Payload) :
  let q := req_config method endpoint json data w in
  gt (jsnum attempt) API_RETRY = false ->
  net (length (sent w)) q = Resolve d ->
  req net (S fuel) method endpoint json data attempt w
  = Ok d (set_sent (sent w ++ [q]) w).
Proof.
  intros q Hguard Hok.
  cbn [req]. rewrite Hguard.
  unfold try_catch, bind at 1, gets at 1.
  unfold axios at 1. fold q. rewrite Hok. reflexivity.
Qed.

Lemma retry_keeps_guard (attempt : option number) :
  gt (jsnum attempt) API_RETRY = false ->
  gt (jsnum (Some (jsnum attempt))) API_RETRY = false.
Proof. intros H. exact H. Qed.

Lemma req_unauthorized_diverges (fuel : nat) :
  forall (method endpoint : string) (json : option Selection) (data : option Body)
         (attempt : option number) (w : World),
    gt (jsnum attempt) API_RETRY = false ->
    req always_unauthorized fuel method endpoint json data attempt w = Diverge.
Proof.
  induction fuel as [| fuel IH]; intros method endpoint json data attempt w Hguard.
  - reflexivity.
  - rewrite (req_retry_step always_unauthorized fuel method endpoint json data attempt w
               (AxiosError "401") (TokenData "access-1" "refresh-1"));
      [| exact Hguard | reflexivity | reflexivity].
    apply IH, retry_keeps_guard, Hguard.
Qed.

(** C1. The retry of [req] is not bounded.  When every request is
    rejected and every token refresh succeeds, no amount of fuel makes
    [req] return: the RequestFailed error is never raised, whatever the
    number of consecutive failures.  When the request is rejected three
    times in a row and answered the fourth time, the caller receives
    the payload, after four requests and three token refreshes, and not
    an error. *)
Theorem req_retry_unbounded :
  (forall (fuel : nat) (method endpoint : string) (json : option Selection)
          (data : option Body) (w : World),
      req always_unauthorized fuel method endpoint json data None w = Diverge) /\
  (exists w',
      req three_failures 4 "get" "thermostat" None None None (sample_world [])
      = Ok (ThermostatData []) w'
      /\ length (filter (fun q => is_api_request q = true) (sent w')) = 4%nat
      /\ length (filter (fun q => is_api_request q = false) (sent w')) = 3%nat).
Proof.
  split.
  - intros. apply req_unauthorized_diverges. reflexivity.
  - eexists. split; [vm_compute; reflexivity|]. split; vm_compute; reflexivity.
Qed.

(** ** Commands *)

Ltac run_command :=
  unfold bind, print, update_this, modify, gets, call_provider, ret, throw,
         command_outcome;
  cbn beta iota; cbn [this provider].

Lemma setTemperature_run (net : Network) (fuel : nat) (command : TemperatureCommand)
    (r : Reconciler) :
  setTemperature net fuel command r =
  command_outcome net fuel "setTemperature" (announced command (this r))
    (req net fuel "post" "thermostat" None
       (Some (setTemperatureData (nativeId (this r)) command)) None (provider r)).
Proof.
  unfold setTemperature, announced.
  destruct (cmd_mode command) as [m |]; run_command;
    cbn [nativeId dev_print set_dev_console];
    destruct (req net fuel _ _ _ _ _ (provider r)) as [resp w1 | e w1 |]; try reflexivity;
    destruct (payload_status_code resp) as [code |]; try reflexivity;
    destruct (Z.eqb code 0); reflexivity.
Qed.

Lemma turnOn_run (net : Network) (fuel : nat) (r : Reconciler) :
  turnOn net fuel r =
  command_outcome net fuel "fanOn" (dev_print "fanOn: setting fan to on" (this r))
    (req net fuel "post" "thermostat" None
       (Some (fanData (nativeId (this r)) "on")) None (provider r)).
Proof.
  unfold turnOn. run_command. cbn [nativeId dev_print set_dev_console].
  destruct (req net fuel _ _ _ _ _ (provider r)) as [resp w1 | e w1 |]; try reflexivity;
    destruct (payload_status_code resp) as [code |]; try reflexivity;
    destruct (Z.eqb code 0); reflexivity.
Qed.

Lemma turnOff_run (net : Network) (fuel : nat) (r : Reconciler) :
  turnOff net fuel r =
  command_outcome net fuel "fanOff" (dev_print "fanOff: setting fan to auto" (this r))
    (req net fuel "post" "thermostat" None
       (Some (fanData (nativeId (this r)) "auto")) None (provider r)).
Proof.
  unfold turnOff. run_command. cbn [nativeId dev_print set_dev_console].
  destruct (req net fuel _ _ _ _ _ (provider r)) as [resp w1 | e w1 |]; try reflexivity;
    destruct (payload_status_code resp) as [code |]; try reflexivity;
    destruct (Z.eqb code 0); reflexivity.
Qed.

(** The claim of the specification that a command method never lets an
    error of the request machinery reach its caller does not hold:
    with the network down, the request of [setTemperature] is rejected,
    the token refresh that [req] attempts is rejected too, and the
    method rejects with that error. *)
Lemma command_error_reaches_caller :
  ~ (forall (net : Network) (fuel : nat) (command : TemperatureCommand)
            (r : Reconciler) (e : Error) (r' : Reconciler),
        setTemperature net fuel command r <> Throw e r').
Proof.
  intros H.
  destruct (setTemperature offline 1 heat_to_21 sample_reconciler) as [u r' | e r' |] eqn:E.
  - vm_compute in E. discriminate.
  - exact (H _ _ _ _ _ _ E).
  - vm_compute in E. discriminate.
Qed.

(** C2, as the code has it.  The command methods contain no handler:
    an error that leaves their call of [req] leaves [setTemperature],
    [turnOn] and [turnOff] unchanged, with the state that [req] left,
    exactly as it leaves [reload] and [refresh].  Only an answer of
    the vendor with a status code other than 0 is printed without
    raising: the three command methods then return normally. *)
Theorem command_errors_propagate (net : Network) (fuel : nat) (r : Reconciler)
    (e : Error) (w1 : World) :
  (forall command : TemperatureCommand,
      req net fuel "post" "thermostat" None
        (Some (setTemperatureData (nativeId (this r)) command)) None (provider r)
      = Throw e w1 ->
      setTemperature net fuel command r
      = Throw e {| this := announced command (this r); provider := w1 |}) /\
  (req net fuel "post" "thermostat" None
     (Some (fanData (nativeId (this r)) "on")) None (provider r) = Throw e w1 ->
   turnOn net fuel r
   = Throw e {| this := dev_print "fanOn: setting fan to on" (this r); provider := w1 |}) /\
  (req net fuel "post" "thermostat" None
     (Some (fanData (nativeId (this r)) "auto")) None (provider r) = Throw e w1 ->
   turnOff net fuel r
   = Throw e {| this := dev_print "fanOff: setting fan to auto" (this r);
                provider := w1 |}) /\
  (req net fuel "get" "thermostat"
     (Some {| selectionType := "thermostats"; selectionMatch := nativeId (this r);
              includeSettings := true; includeRuntime := true;
              includeEquipmentStatus := true |}) None None (provider r) = Throw e w1 ->
   reload net fuel r = Throw e {| this := this r; provider := w1 |}) /\
  (forall (refreshInterface : string) (userInitiated : bool),
      req net fuel "get" "thermostatSummary"
        (Some {| selectionType := "thermostats"; selectionMatch := nativeId (this r);
                 includeSettings := false; includeRuntime := false;
                 includeEquipmentStatus := true |}) None None (provider r) = Throw e w1 ->
      refresh net fuel refreshInterface userInitiated r
      = Throw e {| this := dev_print (refreshInterface ++ " requested refresh") (this r);
                   provider := w1 |}) /\
  (forall (code : Z) (w2 : World),
      code <> 0 ->
      (forall command : TemperatureCommand,
          req net fuel "post" "thermostat" None
            (Some (setTemperatureData (nativeId (this r)) command)) None (provider r)
          = Ok (StatusData code) w2 ->
          setTemperature net fuel command r
          = Ok tt {| this := dev_print "setTemperature failed: [object Object]"
                               (announced command (this r));
                     provider := w2 |}) /\
      (req net fuel "post" "thermostat" None
         (Some (fanData (nativeId (this r)) "on")) None (provider r)
       = Ok (StatusData code) w2 ->
       turnOn net fuel r
       = Ok tt {| this := dev_print "fanOn failed: [object Object]"
                            (dev_print "fanOn: setting fan to on" (this r));
                  provider := w2 |}) /\
      (req net fuel "post" "thermostat" None
         (Some (fanData (nativeId (this r)) "auto")) None (provider r)
       = Ok (StatusData code) w2 ->
       turnOff net fuel r
       = Ok tt {| this := dev_print "fanOff failed: [object Object]"
                            (dev_print "fanOff: setting fan to auto" (this r));
                  provider := w2 |})).
Proof.
  split; [|split; [|split; [|split; [|split]]]].
  - intros command H. rewrite setTemperature_run, H. reflexivity.
  - intros H. rewrite turnOn_run, H. reflexivity.
  - intros H. rewrite turnOff_run, H. reflexivity.
  - intros H. unfold reload. run_command. rewrite H. reflexivity.
  - intros refreshInterface userInitiated H. unfold refresh. run_command.
    cbn [nativeId dev_print set_dev_console]. rewrite H. reflexivity.
  - intros code w2 Hcode.
    assert (Hne : Z.eqb code 0 = false) by (apply Z.eqb_neq; exact Hcode).
    split; [|split].
    + intros command H. rewrite setTemperature_run, H.
      cbn [command_outcome payload_status_code]. rewrite Hne. reflexivity.
    + intros H. rewrite turnOn_run, H.
      cbn [command_outcome payload_status_code]. rewrite Hne. reflexivity.
    + intros H. rewrite turnOff_run, H.
      cbn [command_outcome payload_status_code]. rewrite Hne. reflexivity.
Qed.

Lemma command_errors_propagate_witness :
  let r := sample_reconciler in
  let failed := fun (m endpoint : string) (json : option Selection) (body : option Body) =>
    let q := req_config m endpoint json body (provider r) in
    let w := set_console (console (provider r) ++ ["req failed"])
               (set_sent (sent (provider r) ++ [q]) (provider r)) in
    set_sent (sent w ++ [refreshToken_request w]) w in
  let summary := {| selectionType := "thermostats"; selectionMatch := nativeId (this r);
                    includeSettings := false; includeRuntime := false;
                    includeEquipmentStatus := true |} in
  turnOn offline 1 r
  = Throw (AxiosError "ECONNREFUSED")
      {| this := dev_print "fanOn: setting fan to on" (this r);
         provider := failed "post" "thermostat" None
                       (Some (fanData (nativeId (this r)) "on")) |} /\
  refresh offline 1 "OnOff" true r
  = Throw (AxiosError "ECONNREFUSED")
      {| this := dev_print "OnOff requested refresh" (this r);
         provider := failed "get" "thermostatSummary" (Some summary) None |} /\
  exists w2,
    turnOff one_failure 2 r
    = Ok tt {| this := dev_print "fanOff failed: [object Object]"
                         (dev_print "fanOff: setting fan to auto" (this r));
               provider := w2 |}.
Proof.
  cbv zeta.
  assert (Hdown : forall (m endpoint : string) (json : option Selection)
                         (body : option Body),
             req offline 1 m endpoint json body None (provider sample_reconciler)
             = Throw (AxiosError "ECONNREFUSED")
                 (let q := req_config m endpoint json body (provider sample_reconciler) in
                  let w := set_console (console (provider sample_reconciler)
                                        ++ ["req failed"])
                             (set_sent (sent (provider sample_reconciler) ++ [q])
                                (provider sample_reconciler)) in
                  set_sent (sent w ++ [refreshToken_request w]) w)).
  { intros m endpoint json body.
    apply (req_refresh_rejected offline 0 m endpoint json body None
             (provider sample_reconciler) (AxiosError "ECONNREFUSED")
             (AxiosError "ECONNREFUSED")); reflexivity. }
  split; [|split].
  - pose proof (Hdown "post" "thermostat" None
                  (Some (fanData (nativeId (this sample_reconciler)) "on"))) as H.
    match type of H with
    | _ = Throw _ ?w =>
        destruct (command_errors_propagate offline 1 sample_reconciler
                    (AxiosError "ECONNREFUSED") w) as (_ & Hon & _)
    end.
    exact (Hon H).
  - pose proof (Hdown "get" "thermostatSummary"
                  (Some {| selectionType := "thermostats";
                           selectionMatch := nativeId (this sample_reconciler);
                           includeSettings := false; includeRuntime := false;
                           includeEquipmentStatus := true |}) None) as H.
    match type of H with
    | _ = Throw _ ?w =>
        destruct (command_errors_propagate offline 1 sample_reconciler
                    (AxiosError "ECONNREFUSED") w) as (_ & _ & _ & _ & Hrefresh & _)
    end.
    exact (Hrefresh "OnOff" true H).
  - destruct (req one_failure 2 "post" "thermostat" None
                (Some (fanData (nativeId (this sample_reconciler)) "auto")) None
                (provider sample_reconciler)) as [resp w2 | e w2 |] eqn:Hreq;
      [| vm_compute in Hreq; discriminate | vm_compute in Hreq; discriminate].
    assert (Hresp : resp = StatusData 1).
    { vm_compute in Hreq. injection Hreq as <- _. reflexivity. }
    subst resp. exists w2.
    assert (Hcode : 1 <> 0) by discriminate.
    destruct (command_errors_propagate one_failure 2 sample_reconciler
                (AxiosError "401") w2) as (_ & _ & _ & _ & _ & Hlogged).
    destruct (Hlogged 1 w2 Hcode) as (_ & _ & Hoff).
    exact (Hoff Hreq).
Defined.

(** C3. [setTemperature] addresses the reconciler's own thermostat
    and builds one setHold function with hold type "nextTransition":
    for a pair, [heatHoldTemp] is [celsiusToEcobeeInt] of the first
    element and [coolHoldTemp] is [celsiusToEcobeeInt] of the second;
    for a single value both are [celsiusToEcobeeInt] of it; without a
    setpoint there is no function.  A mode adds the hvacMode setting
    [thermostatModeToEcobee] of it, no mode adds none.  When the
    vendor answers with status code 0 the method prints the success
    and continues as one call of [reload]; with any other code it
    prints the failure and returns without error, with no request
    after the answer and the normalised state untouched. *)
Theorem setTemperature_contract (net : Network) (fuel : nat)
    (command : TemperatureCommand) (r : Reconciler) :
  let data := setTemperatureData (nativeId (this r)) command in
  let setHold := fun heat cool : string =>
    {| fn_type := "setHold";
       fn_params := {| holdType := "nextTransition";
                       heatHoldTemp := HoldStr heat;
                       coolHoldTemp := HoldStr cool;
                       fan := None;
                       isTemperatureAbsolute := None;
                       isTemperatureRelative := None |} |} in
  (selectionType (body_selection data) = "registered"
   /\ selectionMatch (body_selection data) = nativeId (this r)) /\
  (forall low high : number,
      cmd_setpoint command = Some (Range low high) ->
      body_functions data
      = Some [setHold (celsiusToEcobeeInt low) (celsiusToEcobeeInt high)]) /\
  (forall v : number,
      cmd_setpoint command = Some (Single v) ->
      body_functions data
      = Some [setHold (celsiusToEcobeeInt v) (celsiusToEcobeeInt v)]) /\
  (cmd_setpoint command = None -> body_functions data = None) /\
  (forall m : ThermostatMode,
      cmd_mode command = Some m ->
      body_hvacMode data = Some (thermostatModeToEcobee m)) /\
  (cmd_mode command = None -> body_hvacMode data = None) /\
  (forall (code : Z) (w1 : World),
      req net fuel "post" "thermostat" None (Some data) None (provider r)
      = Ok (StatusData code) w1 ->
      (code = 0 ->
       setTemperature net fuel command r
       = reload net fuel
           {| this := dev_print "setTemperature success" (announced command (this r));
              provider := w1 |}) /\
      (code <> 0 ->
       setTemperature net fuel command r
       = Ok tt {| this := dev_print "setTemperature failed: [object Object]"
                            (announced command (this r));
                  provider := w1 |})).
Proof.
  cbv zeta. split; [split; reflexivity|].
  split; [intros low high H; unfold setTemperatureData; cbn [body_functions];
          rewrite H; reflexivity|].
  split; [intros v H; unfold setTemperatureData; cbn [body_functions];
          rewrite H; reflexivity|].
  split; [intros H; unfold setTemperatureData; cbn [body_functions];
          rewrite H; reflexivity|].
  split; [intros m H; unfold setTemperatureData; cbn [body_hvacMode];
          rewrite H; reflexivity|].
  split; [intros H; unfold setTemperatureData; cbn [body_hvacMode];
          rewrite H; reflexivity|].
  intros code w1 H. split.
  - intros ->. rewrite setTemperature_run, H. reflexivity.
  - intros Hcode. rewrite setTemperature_run, H. cbn.
    destruct (Z.eqb_spec code 0); [contradiction|reflexivity].
Qed.

Lemma setTemperature_contract_witness :
  let r := sample_reconciler in
  let data := setTemperatureData (nativeId (this r)) heat_to_21 in
  let w1 := set_sent (sent (provider r)
                      ++ [req_config "post" "thermostat" None (Some data) (provider r)])
              (provider r) in
  body_functions data
  = Some [ {| fn_type := "setHold";
              fn_params := {| holdType := "nextTransition";
                              heatHoldTemp := HoldStr "698";
                              coolHoldTemp := HoldStr "698";
                              fan := None;
                              isTemperatureAbsolute := None;
                              isTemperatureRelative := None |} |} ] /\
  body_functions
    (setTemperatureData (nativeId (this r))
       {| cmd_mode := Some HeatCool;
          cmd_setpoint := Some (Range (of_Z 20) (of_Z 24)) |})
  = Some [ {| fn_type := "setHold";
              fn_params := {| holdType := "nextTransition";
                              heatHoldTemp := HoldStr "680";
                              coolHoldTemp := HoldStr "752";
                              fan := None;
                              isTemperatureAbsolute := None;
                              isTemperatureRelative := None |} |} ] /\
  req vendor_accepts 2 "post" "thermostat" None (Some data) None (provider r)
  = Ok (StatusData 0) w1 /\
  setTemperature vendor_accepts 2 heat_to_21 r
  = reload vendor_accepts 2
      {| this := dev_print "setTemperature success" (announced heat_to_21 (this r));
         provider := w1 |}.
Proof.
  cbv zeta.
  destruct (setTemperature_contract vendor_accepts 2 heat_to_21 sample_reconciler)
    as (_ & _ & Hsingle & _ & _ & _ & Hanswer).
  destruct (setTemperature_contract vendor_accepts 2
              {| cmd_mode := Some HeatCool;
                 cmd_setpoint := Some (Range (of_Z 20) (of_Z 24)) |} sample_reconciler)
    as (_ & Hpair & _).
  split; [rewrite (Hsingle (of_Z 21) eq_refl); vm_compute; reflexivity|].
  split; [rewrite (Hpair (of_Z 20) (of_Z 24) eq_refl); vm_compute; reflexivity|].
  assert (Hreq : req vendor_accepts 2 "post" "thermostat" None
                   (Some (setTemperatureData (nativeId (this sample_reconciler)) heat_to_21))
                   None (provider sample_reconciler)
                 = Ok (StatusData 0)
                     (set_sent (sent (provider sample_reconciler)
                                ++ [req_config "post" "thermostat" None
                                      (Some (setTemperatureData
                                               (nativeId (this sample_reconciler))
                                               heat_to_21))
                                      (provider sample_reconciler)])
                        (provider sample_reconciler))).
  { apply req_resolved; reflexivity. }
  split; [exact Hreq|].
  exact (proj1 (Hanswer 0 _ Hreq) eq_refl).
Defined.

(** The scenario of the specification: a single setpoint of 21 degrees
    is sent as "698" for both hold temperatures, and on success the
    command is followed by one reload request and nothing else. *)
Example setTemperature_scenario :
  exists r',
    setTemperature vendor_accepts 2 heat_to_21 sample_reconciler = Ok tt r'
    /\ map (fun q => (method q, url q)) (sent (provider r'))
       = [("post", "thermostat"); ("get", "thermostat")]
    /\ setpoint (temperatureSetting (this r')) = Some (Single (to_number "20")).
Proof.
  eexists. split; [vm_compute; reflexivity|]. split; vm_compute; reflexivity.
Qed.

(** ** Numbers that hold integers *)

Lemma digits2_iter_xO (p k : positive) :
  digits2_pos (Pos.iter xO p k) = (digits2_pos p + k)%positive.
Proof.
  induction k as [| k IH] using Pos.peano_ind.
  - cbn. lia.
  - rewrite Pos.iter_succ. cbn [digits2_pos]. rewrite IH. lia.
Qed.

Lemma iter_xO_value (p k : positive) :
  Zpos (Pos.iter xO p k) = Zpos p * 2 ^ Zpos k.
Proof.
  induction k as [| k IH] using Pos.peano_ind.
  - cbn. lia.
  - rewrite Pos.iter_succ, Pos2Z.inj_succ, Z.pow_succ_r by lia.
    rewrite Pos2Z.inj_xO, IH. lia.
Qed.

(** A positive integer of [d] binary digits lies in [2^(d-1), 2^d). *)
Lemma digits2_bounds (p : positive) :
  2 ^ (Zpos (digits2_pos p) - 1) <= Zpos p < 2 ^ Zpos (digits2_pos p).
Proof.
  induction p as [p IH | p IH |]; cbn [digits2_pos].
  - rewrite Pos2Z.inj_succ.
    replace (Z.succ (Zpos (digits2_pos p)) - 1) with (Z.succ (Zpos (digits2_pos p) - 1)) by lia.
    rewrite !Z.pow_succ_r by lia.
    destruct IH as [IHlo IHhi]. revert IHlo IHhi.
    generalize (2 ^ (Zpos (digits2_pos p) - 1)) (2 ^ Zpos (digits2_pos p)). lia.
  - rewrite Pos2Z.inj_succ.
    replace (Z.succ (Zpos (digits2_pos p)) - 1) with (Z.succ (Zpos (digits2_pos p) - 1)) by lia.
    rewrite !Z.pow_succ_r by lia.
    destruct IH as [IHlo IHhi]. revert IHlo IHhi.
    generalize (2 ^ (Zpos (digits2_pos p) - 1)) (2 ^ Zpos (digits2_pos p)). lia.
  - cbn. lia.
Qed.

Lemma digits2_le_53 (p : positive) :
  Zpos p < 2 ^ 53 -> Zpos (digits2_pos p) <= 53.
Proof.
  intros H. pose proof (digits2_bounds p) as [Hlo _].
  destruct (Z.le_gt_cases (Zpos (digits2_pos p)) 53) as [|Hgt]; [assumption|].
  exfalso.
  assert (2 ^ 53 <= 2 ^ (Zpos (digits2_pos p) - 1)) by (apply Z.pow_le_mono_r; lia).
  lia.
Qed.

Lemma fexp_normal (e : Z) : -1021 <= e -> fexp prec emax e = e - 53.
Proof. intros H. unfold fexp, emin, prec, emax. lia. Qed.

Lemma shl_align_normal (p : positive) :
  let d := Zpos (digits2_pos p) in
  d <= 53 ->
  exists mz, shl_align p 0 (d - 53) = (mz, d - 53)
             /\ Zpos (digits2_pos mz) = 53
             /\ Zpos mz = Zpos p * 2 ^ (53 - d).
Proof.
  intros d Hd. unfold shl_align.
  destruct (d - 53 - 0) as [| k | k] eqn:Hk; try lia.
  - exists p. split; [f_equal; lia|]. split; [fold d; lia|].
    replace (53 - d) with 0 by lia. lia.
  - exists (Pos.iter xO p k). split; [reflexivity|]. split.
    + rewrite digits2_iter_xO. fold d. lia.
    + rewrite iter_xO_value. f_equal. f_equal. lia.
Qed.

Lemma binary_round_aux_normal (s : bool) (mz : positive) (ez : Z) :
  Zpos (digits2_pos mz) = 53 -> -1021 <= ez + 53 -> ez <= 971 ->
  binary_round_aux prec emax s (Zpos mz) ez loc_Exact = S754_finite s mz ez.
Proof.
  intros Hd Hlo Hhi.
  assert (Hshr : forall l, shr_fexp prec emax (Zpos mz) ez l
                           = (shr_record_of_loc (Zpos mz) l, ez)).
  { intros l. unfold shr_fexp. cbn [Zdigits2]. rewrite Hd, fexp_normal by lia.
    replace (53 + ez - 53 - ez) with 0 by lia. reflexivity. }
  unfold binary_round_aux. rewrite Hshr.
  cbn [shr_record_of_loc shr_m loc_of_shr_record round_nearest_even].
  rewrite Hshr. cbn [shr_record_of_loc shr_m].
  unfold prec, emax. destruct (Z.leb_spec ez (1024 - 53)); [reflexivity|lia].
Qed.

(** Below 2^53 an integer is held exactly: the mantissa is the
    integer shifted to 53 digits. *)
Lemma of_Z_normal (p : positive) :
  let d := Zpos (digits2_pos p) in
  Zpos p < 2 ^ 53 ->
  exists mz, Zpos mz = Zpos p * 2 ^ (53 - d)
             /\ of_Z (Zpos p) = S754_finite false mz (d - 53)
             /\ of_Z (Zneg p) = S754_finite true mz (d - 53).
Proof.
  intros d Hp. assert (Hd : d <= 53) by (apply digits2_le_53, Hp).
  destruct (shl_align_normal p Hd) as (mz & Hal & Hmz & Hval). fold d in Hal, Hval.
  exists mz. split; [exact Hval|].
  unfold of_Z, binary_normalize, binary_round.
  rewrite Z.add_0_r, fexp_normal by (fold d; lia). fold d. rewrite Hal.
  split; apply binary_round_aux_normal; lia.
Qed.

Lemma compare_normal (p q mp mq : positive) :
  let dp := Zpos (digits2_pos p) in
  let dq := Zpos (digits2_pos q) in
  dp <= 53 -> dq <= 53 ->
  Zpos mp = Zpos p * 2 ^ (53 - dp) ->
  Zpos mq = Zpos q * 2 ^ (53 - dq) ->
  match Z.compare (dp - 53) (dq - 53) with
  | Lt => Lt
  | Gt => Gt
  | Eq => Pos.compare_cont Eq mp mq
  end = Z.compare (Zpos p) (Zpos q).
Proof.
  intros dp dq Hp Hq Hmp Hmq.
  pose proof (digits2_bounds p) as [Hplo Hphi].
  pose proof (digits2_bounds q) as [Hqlo Hqhi].
  fold dp in Hplo, Hphi. fold dq in Hqlo, Hqhi.
  destruct (Z.compare_spec (dp - 53) (dq - 53)) as [Heq | Hlt | Hgt].
  - assert (dp = dq) as Hd by lia. rewrite Hd in Hmp.
    change (Pos.compare_cont Eq mp mq) with (Z.compare (Zpos mp) (Zpos mq)).
    rewrite Hmp, Hmq. symmetry. apply Zmult_compare_compat_r.
    apply Z.lt_gt, Z.pow_pos_nonneg; lia.
  - symmetry. apply Z.compare_lt_iff.
    assert (2 ^ dp <= 2 ^ (dq - 1)) by (apply Z.pow_le_mono_r; lia). lia.
  - symmetry. apply Z.compare_gt_iff.
    assert (2 ^ dq <= 2 ^ (dp - 1)) by (apply Z.pow_le_mono_r; lia). lia.
Qed.

(** On integers below 2^53 in magnitude the comparison of numbers is
    the comparison of integers. *)
Lemma of_Z_compare (a b : Z) :
  Z.abs a < 2 ^ 53 -> Z.abs b < 2 ^ 53 ->
  SFcompare (of_Z a) (of_Z b) = Some (Z.compare a b).
Proof.
  intros Ha Hb.
  destruct a as [| p | p], b as [| q | q]; try reflexivity;
    try (destruct (of_Z_normal p) as (mp & Hmp & Hpp & Hpn); [lia|]);
    try (destruct (of_Z_normal q) as (mq & Hmq & Hqp & Hqn); [lia|]);
    rewrite ?Hpp, ?Hpn, ?Hqp, ?Hqn;
    change (of_Z 0) with (S754_zero false); cbn [SFcompare]; try reflexivity.
  - f_equal. apply compare_normal; try assumption; apply digits2_le_53; lia.
  - f_equal.
    change (Z.compare (Zneg p) (Zneg q)) with (CompOpp (Z.compare (Zpos p) (Zpos q))).
    rewrite <- (compare_normal p q mp mq); try assumption;
      try (apply digits2_le_53; lia).
    destruct (Z.compare_spec (Zpos (digits2_pos p) - 53) (Zpos (digits2_pos q) - 53));
      reflexivity.
Qed.

Lemma of_Z_lt (a b : Z) :
  Z.abs a < 2 ^ 53 -> Z.abs b < 2 ^ 53 -> lt (of_Z a) (of_Z b) = Z.ltb a b.
Proof.
  intros Ha Hb. unfold lt, SFltb, Z.ltb. rewrite of_Z_compare by assumption.
  reflexivity.
Qed.

(** ** Air quality *)

(** C7. [setAirQualityFromAQScore] stores the grade of the first
    bucket of the scale whose bound lies above the score.  For an
    integer score this is Excellent below 51, Good from 51 to 100, Fair
    from 101 to 150, Poor from 151 to 200 and from 201 to 300, Inferior
    from 301 to 500 and Unknown from 501 on; a score that is not a
    number gives Unknown; in particular 50 is Excellent, 100 is Good,
    101 is Fair, 500 is Inferior and 501 is Unknown. *)
Theorem air_quality_buckets (t : EcobeeThermostat) :
  let quality := fun x : number => airQuality (setAirQualityFromAQScore x t) in
  (forall x : number, quality x = Some (grade aq_scale x)) /\
  (forall score : Z,
      Z.abs score < 2 ^ 53 ->
      (score < 51 -> quality (of_Z score) = Some Excellent) /\
      (51 <= score < 101 -> quality (of_Z score) = Some Good) /\
      (101 <= score < 151 -> quality (of_Z score) = Some Fair) /\
      (151 <= score < 201 -> quality (of_Z score) = Some Poor) /\
      (201 <= score < 301 -> quality (of_Z score) = Some Poor) /\
      (301 <= score < 501 -> quality (of_Z score) = Some Inferior) /\
      (501 <= score -> quality (of_Z score) = Some AQUnknown)) /\
  quality NaN = Some AQUnknown /\
  quality (of_Z 50) = Some Excellent /\
  quality (of_Z 100) = Some Good /\
  quality (of_Z 101) = Some Fair /\
  quality (of_Z 500) = Some Inferior /\
  quality (of_Z 501) = Some AQUnknown.
Proof.
  cbv zeta. split; [|split; [|repeat split]].
  - intros x. unfold setAirQualityFromAQScore, aq_scale. cbn [grade].
    destruct (lt x (of_Z 51)); [reflexivity|].
    destruct (lt x (of_Z 101)); [reflexivity|].
    destruct (lt x (of_Z 151)); [reflexivity|].
    destruct (lt x (of_Z 201)); [reflexivity|].
    destruct (lt x (of_Z 301)); [reflexivity|].
    destruct (lt x (of_Z 501)); reflexivity.
  - intros score Hscore. unfold setAirQualityFromAQScore.
    rewrite !of_Z_lt by (assumption || reflexivity).
    destruct (Z.ltb_spec score 51); [cbn; repeat split; intros; (reflexivity || lia)|].
    destruct (Z.ltb_spec score 101); [cbn; repeat split; intros; (reflexivity || lia)|].
    destruct (Z.ltb_spec score 151); [cbn; repeat split; intros; (reflexivity || lia)|].
    destruct (Z.ltb_spec score 201); [cbn; repeat split; intros; (reflexivity || lia)|].
    destruct (Z.ltb_spec score 301); [cbn; repeat split; intros; (reflexivity || lia)|].
    destruct (Z.ltb_spec score 501); cbn; repeat split; intros; (reflexivity || lia).
Qed.

Lemma air_quality_buckets_witness :
  Z.abs 250 < 2 ^ 53 /\ 201 <= 250 < 301 /\
  airQuality (setAirQualityFromAQScore (of_Z 250) sample_thermostat) = Some Poor.
Proof.
  assert (Hrange : Z.abs 250 < 2 ^ 53) by reflexivity.
  assert (Hbucket : 201 <= 250 < 301) by lia.
  split; [exact Hrange|]. split; [exact Hbucket|].
  destruct (air_quality_buckets sample_thermostat) as (_ & Hall & _).
  destruct (Hall 250 Hrange) as (_ & _ & _ & _ & Hpoor & _).
  exact (Hpoor Hbucket).
Defined.

(** ** Temperature round trip *)

Lemma round_trip_eval_eq (t : Z) : round_trip t = round_trip_eval t.
Proof. reflexivity. Qed.

Lemma holds_from_spec (P : Z -> bool) (n : nat) :
  forall lo : Z,
    holds_from P lo n = true ->
    forall t : Z, lo <= t < lo + Z.of_nat n -> P t = true.
Proof.
  induction n as [| n IH]; intros lo H t Ht; [lia|].
  cbn [holds_from] in H. apply andb_prop in H as [Hlo Hrest].
  destruct (Z.eq_dec t lo) as [-> | Hne]; [exact Hlo|].
  apply (IH (lo + 1) Hrest). lia.
Qed.

Lemma round_trip_checked : holds_from exact_at (-10000) (Z.to_nat 20001) = true.
Proof. vm_compute. reflexivity. Qed.

(** Between -1000 and 1000 degrees Fahrenheit the round trip gives
    back the very integer it started from. *)
Lemma round_trip_exact (t : Z) : -10000 <= t <= 10000 -> round_trip t = Some t.
Proof.
  intros Ht.
  assert (H : exact_at t = true).
  { apply (holds_from_spec exact_at (Z.to_nat 20001) (-10000) round_trip_checked). lia. }
  unfold exact_at in H. rewrite round_trip_eval_eq.
  destruct (round_trip_eval t) as [r |]; [|discriminate].
  apply Z.eqb_eq in H. now subst.
Qed.

(** C5. For a raw vendor temperature [t], an integer number of tenths
    of a degree Fahrenheit between -1000 and 1000 degrees,
    [celsiusToEcobeeInt (ecobeeIntToCelsius t)] is a decimal integer
    within 1 of [t]; [ecobeeIntToCelsius] is [(5/9) * (t/10 - 32)]
    rounded to two decimals and [celsiusToEcobeeInt] is
    [(c * 1.8 + 32) * 10] printed with no fractional digit. *)
Theorem temperature_round_trip (t : Z) :
  -10000 <= t <= 10000 ->
  (exists r : Z,
      read_Z (celsiusToEcobeeInt (ecobeeIntToCelsius (show_Z t))) = Some r
      /\ Z.abs (r - t) <= 1) /\
  ecobeeIntToCelsius (show_Z t)
  = to_number (toFixed 2 (mul (div (of_Z 5) (of_Z 9))
                              (sub (div (to_number (show_Z t)) (of_Z 10)) (of_Z 32)))) /\
  (forall c : number,
      celsiusToEcobeeInt c
      = toFixed 0 (mul (add (mul c (to_number "1.8")) (of_Z 32)) (of_Z 10))).
Proof.
  intros Ht. split; [|split; reflexivity].
  exists t. split; [apply round_trip_exact, Ht|].
  rewrite Z.sub_diag. cbn. lia.
Qed.

Lemma temperature_round_trip_witness :
  -10000 <= 711 <= 10000 /\
  exists r : Z,
    read_Z (celsiusToEcobeeInt (ecobeeIntToCelsius (show_Z 711))) = Some r
    /\ Z.abs (r - 711) <= 1.
Proof.
  assert (H : -10000 <= 711 <= 10000) by lia.
  split; [exact H|]. exact (proj1 (temperature_round_trip 711 H)).
Defined.

(** * Further properties *)

(** ** Request gateway *)

Lemma req_config_same_call (m endpoint : string) (json : option Selection)
    (body : option Body) (w : World) :
  same_call m endpoint json body (req_config m endpoint json body w).
Proof. repeat split. eexists. reflexivity. Qed.

Lemma refreshToken_request_token_refresh (w : World) :
  token_refresh (refreshToken_request w).
Proof. repeat split. do 2 eexists. reflexivity. Qed.

Lemma req_frame (net : Network) (fuel : nat) :
  forall (m endpoint : string) (json : option Selection) (body : option Body)
         (attempt : option number) (w w' : World),
    final_state (req net fuel m endpoint json body attempt w) = Some w' ->
    exists extra : list AxiosRequest,
      sent w' = (sent w ++ extra)%list
      /\ Forall (fun q => same_call m endpoint json body q \/ token_refresh q) extra
      /\ devices w' = devices w /\ published w' = published w
      /\ forall k : string, k <> "refresh_token" -> storage w' !! k = storage w !! k.
Proof.
  induction fuel as [| fuel IH]; intros m endpoint json body attempt w w' H;
    [discriminate|].
  destruct (gt (jsnum attempt) API_RETRY) eqn:Hguard.
  - cbn [req] in H. rewrite Hguard in H. injection H as <-.
    exists []. rewrite app_nil_r. repeat split; auto.
  - set (q := req_config m endpoint json body w).
    destruct (net (length (sent w)) q) as [d | e] eqn:Hq.
    + rewrite (req_resolved net fuel m endpoint json body attempt w d Hguard Hq) in H.
      injection H as <-. exists [q]. repeat split; auto.
      constructor; [|constructor]. left. apply req_config_same_call.
    + set (w1 := set_console (console w ++ ["req failed"]) (set_sent (sent w ++ [q]) w)).
      destruct (net (length (sent w1)) (refreshToken_request w1)) as [d | e'] eqn:Hr.
      * rewrite (req_retry_step net fuel m endpoint json body attempt w e d Hguard Hq Hr)
          in H.
        apply IH in H as (extra & Hsent & Hall & Hdev & Hpub & Hsto).
        exists (q :: refreshToken_request w1 :: extra).
        split; [rewrite Hsent; cbn; rewrite <- !app_assoc; reflexivity|].
        split; [constructor; [left; apply req_config_same_call|];
                constructor; [right; apply refreshToken_request_token_refresh|exact Hall]|].
        split; [exact Hdev|]. split; [exact Hpub|].
        intros k Hk. rewrite (Hsto k Hk). cbn. apply lookup_insert_ne. congruence.
      * rewrite (req_refresh_rejected net fuel m endpoint json body attempt w e e'
                   Hguard Hq Hr) in H.
        injection H as <-. exists [q; refreshToken_request w1].
        split; [cbn; rewrite <- app_assoc; reflexivity|].
        split; [constructor; [left; apply req_config_same_call|];
                constructor; [right; apply refreshToken_request_token_refresh|constructor]|].
        repeat split; auto.
Qed.

(** X1. Whatever the environment does, when a call of [req] ends, with
    a payload or with an error, the HTTP calls it added to the trace
    are the call it was asked to make (same method, endpoint, query,
    body, 10 s timeout, a bearer token) and token refreshes, nothing
    else; the reconcilers and the published device lists are what they
    were, and the settings store differs at most at "refresh_token". *)
Theorem req_sends_only_its_call_and_refreshes (net : Network) (fuel : nat)
    (m endpoint : string) (json : option Selection) (body : option Body)
    (w w' : World) :
  final_state (req net fuel m endpoint json body None w) = Some w' ->
  exists extra : list AxiosRequest,
    sent w' = (sent w ++ extra)%list
    /\ Forall (fun q => same_call m endpoint json body q \/ token_refresh q) extra
    /\ devices w' = devices w /\ published w' = published w
    /\ forall k : string, k <> "refresh_token" -> storage w' !! k = storage w !! k.
Proof. apply req_frame. Qed.

Lemma req_sends_only_its_call_and_refreshes_witness :
  exists w',
    final_state (req three_failures 4 "get" "thermostat" None None None (sample_world []))
    = Some w'
    /\ exists extra : list AxiosRequest,
         sent w' = (sent (sample_world []) ++ extra)%list
         /\ Forall (fun q => same_call "get" "thermostat" None None q \/ token_refresh q) extra.
Proof.
  eexists. split; [vm_compute; reflexivity|].
  match goal with
  | |- context [sent ?w'] =>
      destruct (req_sends_only_its_call_and_refreshes three_failures 4 "get" "thermostat"
                  None None (sample_world []) w') as (extra & Hsent & Hall & _)
  end; [vm_compute; reflexivity|].
  exists extra. split; assumption.
Defined.

(** X2. One rejected request followed by a successful token refresh
    and an answered retry: [req] returns the payload of the retry after
    exactly three HTTP calls, the retry carries the access token that
    the refresh returned, and that token and the new refresh token are
    the stored credentials afterwards. *)
Theorem req_retries_once_with_new_token (net : Network) (fuel : nat)
    (m endpoint : string) (json : option Selection) (body : option Body)
    (w : World) (e : Error) (a r : string) (d : Payload) :
  let q := req_config m endpoint json body w in
  let w1 := set_console (console w ++ ["req failed"]) (set_sent (sent w ++ [q]) w) in
  let w2 := exchanged (refreshToken_request w1) (TokenData a r) "Refreshed tokens" w1 in
  let q' := req_config m endpoint json body w2 in
  net (length (sent w)) q = Reject e ->
  net (S (length (sent w))) (refreshToken_request w1) = Resolve (TokenData a r) ->
  net (S (S (length (sent w)))) q' = Resolve d ->
  exists w',
    req net (S (S fuel)) m endpoint json body None w = Ok d w'
    /\ sent w' = (sent w ++ [q; refreshToken_request w1; q'])%list
    /\ authorization q' = Some ("Bearer " ++ a)
    /\ access_token w' = Some a
    /\ storage w' !! "refresh_token" = Some r.
Proof.
  intros q w1 w2 q' Hq Hr Hq'.
  assert (Hlen1 : length (sent w1) = S (length (sent w))).
  { unfold w1. cbn. rewrite length_app. cbn. lia. }
  assert (Hlen2 : length (sent w2) = S (S (length (sent w)))).
  { unfold w2, exchanged. cbn [sent set_console set_storage set_access_token set_sent].
    rewrite length_app, Hlen1. cbn. lia. }
  rewrite (req_retry_step net (S fuel) m endpoint json body None w e (TokenData a r));
    [| reflexivity | exact Hq
     | change (net (length (sent w1)) (refreshToken_request w1) = Resolve (TokenData a r));
       rewrite Hlen1; exact Hr].
  fold q w1 w2.
  rewrite (req_resolved net fuel m endpoint json body (Some (jsnum None)) w2 d);
    [| reflexivity
     | change (net (length (sent w2)) q' = Resolve d); rewrite Hlen2; exact Hq'].
  eexists. split; [reflexivity|].
  split; [cbn; rewrite <- !app_assoc; reflexivity|].
  split; [reflexivity|]. split; [reflexivity|].
  cbn. apply lookup_insert_eq.
Qed.

(** X3. A rejected request whose token refresh is rejected too: [req]
    raises the error of the refresh after exactly two HTTP calls, with
    no retry, and leaves the access token and the settings store as
    they were. *)
Theorem req_gives_up_when_refresh_fails (net : Network) (fuel : nat)
    (m endpoint : string) (json : option Selection) (body : option Body)
    (w : World) (e e' : Error) :
  let q := req_config m endpoint json body w in
  let w1 := set_console (console w ++ ["req failed"]) (set_sent (sent w ++ [q]) w) in
  net (length (sent w)) q = Reject e ->
  net (S (length (sent w))) (refreshToken_request w1) = Reject e' ->
  exists w',
    req net (S fuel) m endpoint json body None w = Throw e' w'
    /\ sent w' = (sent w ++ [q; refreshToken_request w1])%list
    /\ access_token w' = access_token w /\ storage w' = storage w.
Proof.
  intros q w1 Hq Hr.
  assert (Hlen1 : length (sent w1) = S (length (sent w))).
  { unfold w1. cbn. rewrite length_app. cbn. lia. }
  rewrite (req_refresh_rejected net fuel m endpoint json body None w e e');
    [| reflexivity | exact Hq
     | change (net (length (sent w1)) (refreshToken_request w1) = Reject e');
       rewrite Hlen1; exact Hr].
  eexists. split; [reflexivity|].
  split; [cbn; rewrite <- app_assoc; reflexivity|]. split; reflexivity.
Qed.

Lemma req_retries_once_with_new_token_witness :
  exists w',
    req one_failure 2 "post" "thermostat" None None None (sample_world [])
    = Ok (StatusData 1) w'
    /\ access_token w' = Some "access-1"
    /\ storage w' !! "refresh_token" = Some "refresh-1".
Proof.
  destruct (req_retries_once_with_new_token one_failure 0 "post" "thermostat" None None
              (sample_world []) (AxiosError "401") "access-1" "refresh-1" (StatusData 1))
    as (w' & Hrun & _ & _ & Htoken & Hstored); [reflexivity | reflexivity | reflexivity |].
  exists w'. repeat split; assumption.
Defined.

Lemma req_gives_up_when_refresh_fails_witness :
  exists w',
    req offline 1 "get" "thermostat" None None None (sample_world [])
    = Throw (AxiosError "ECONNREFUSED") w'
    /\ length (sent w') = 2%nat
    /\ access_token w' = access_token (sample_world []).
Proof.
  destruct (req_gives_up_when_refresh_fails offline 0 "get" "thermostat" None None
              (sample_world []) (AxiosError "ECONNREFUSED") (AxiosError "ECONNREFUSED"))
    as (w' & Hrun & Hsent & Htoken & _); [reflexivity | reflexivity |].
  exists w'. split; [exact Hrun|]. split; [rewrite Hsent; reflexivity | exact Htoken].
Defined.

(** ** Reload *)

Lemma reload_run (net : Network) (fuel : nat) (r : Reconciler) :
  reload net fuel r =
  match req net fuel "get" "thermostat" (Some (reload_selection (nativeId (this r))))
          None None (provider r) with
  | Ok resp w1 =>
      match payload_thermostatList resp with
      | None => Throw (TypeError "thermostatList[0]") {| this := this r; provider := w1 |}
      | Some thermostatList =>
          match thermostatList !! 0%nat with
          | None => Throw (TypeError "data.runtime")
                      {| this := dev_print "Reload data" (this r); provider := w1 |}
          | Some data =>
              match equipmentStatus data with
              | None =>
                  Throw (TypeError "equipmentStatus.toLowerCase")
                    {| this := set_humidity (Some (to_number (actualHumidity (runtime data))))
                                 (set_temperature
                                    (Some (ecobeeIntToCelsius
                                             (actualTemperature (runtime data))))
                                    (dev_print "Reload data" (this r)));
                       provider := w1 |}
              | Some equipment =>
                  Ok tt {| this := apply_reload data equipment
                                     (dev_print "Reload data" (this r));
                           provider := w1 |}
              end
          end
      end
  | Throw e w1 => Throw e {| this := this r; provider := w1 |}
  | Diverge => Diverge
  end.
Proof.
  unfold reload, reload_selection. run_command.
  destruct (req net fuel _ _ _ _ _ (provider r)) as [resp w1 | e w1 |]; try reflexivity.
  destruct (payload_thermostatList resp) as [l |]; try reflexivity.
  cbn [this provider].
  destruct (l !! 0%nat) as [data |]; try reflexivity.
  destruct (equipmentStatus data); reflexivity.
Qed.

Lemma setAirQuality_frame (x : number) (t : EcobeeThermostat) :
  exists q, setAirQualityFromAQScore x t = set_airQuality q t.
Proof.
  unfold setAirQualityFromAQScore.
  repeat match goal with |- context [lt x ?c] => destruct (lt x c) end; eexists; reflexivity.
Qed.

(** What [apply_reload] leaves alone, and the two settings it builds. *)
Lemma apply_reload_fields (data : ApiDevice) (equipment : string) (t : EcobeeThermostat) :
  let t' := apply_reload data equipment t in
  nativeId t' = nativeId t /\ name t' = name t /\ interfaces t' = interfaces t
  /\ revisionList t' = revisionList t /\ temperatureUnit t' = temperatureUnit t
  /\ (AirQualitySensor ∉ interfaces t -> airQuality t' = airQuality t)
  /\ (VOCSensor ∉ interfaces t -> vocDensity t' = vocDensity t)
  /\ (CO2Sensor ∉ interfaces t -> co2ppm t' = co2ppm t)
  /\ mode (temperatureSetting t') = Some (ecobeeToThermostatMode (hvacMode (settings data)))
  /\ setpoint (temperatureSetting t')
     = (if String.eqb (hvacMode (settings data)) "cool"
        then Some (Single (ecobeeIntToCelsius (desiredCool (runtime data))))
        else if String.eqb (hvacMode (settings data)) "heat"
        then Some (Single (ecobeeIntToCelsius (desiredHeat (runtime data))))
        else Some (Range (ecobeeIntToCelsius (desiredHeat (runtime data)))
                         (ecobeeIntToCelsius (desiredCool (runtime data))))).
Proof.
  cbv zeta. unfold apply_reload.
  set (t1 := _updateEquipmentStatus equipment _).
  assert (Hi : interfaces t1 = interfaces t).
  { unfold t1, _updateEquipmentStatus. cbv zeta.
    destruct (includes (toLowerCase equipment) "fan"); reflexivity. }
  assert (Hf : nativeId t1 = nativeId t /\ name t1 = name t
               /\ revisionList t1 = revisionList t /\ temperatureUnit t1 = temperatureUnit t
               /\ airQuality t1 = airQuality t /\ vocDensity t1 = vocDensity t
               /\ co2ppm t1 = co2ppm t).
  { unfold t1, _updateEquipmentStatus. cbv zeta.
    destruct (includes (toLowerCase equipment) "fan"); repeat split. }
  destruct Hf as (Hn & Hna & Hr & Hu & Ha & Hv & Hc).
  clearbody t1. cbv zeta.
  destruct (setAirQuality_frame (jsnum (actualAQScore (runtime data))) t1) as [q Hq].
  rewrite Hq. clear Hq.
  destruct (bool_decide (AirQualitySensor ∈ interfaces t1)) eqn:Haq;
    cbn [interfaces set_airQuality set_vocDensity set_co2ppm];
    destruct (bool_decide (VOCSensor ∈ interfaces t1)) eqn:Hvoc;
    cbn [interfaces set_airQuality set_vocDensity set_co2ppm];
    destruct (bool_decide (CO2Sensor ∈ interfaces t1)) eqn:Hco2;
    cbn; rewrite <- Hi;
    (split; [assumption|]); (split; [assumption|]); (split; [reflexivity|]);
    (split; [assumption|]); (split; [assumption|]);
    (split; [intros Hno; first [apply bool_decide_eq_true in Haq; contradiction | assumption]|]);
    (split; [intros Hno; first [apply bool_decide_eq_true in Hvoc; contradiction | assumption]|]);
    (split; [intros Hno; first [apply bool_decide_eq_true in Hco2; contradiction | assumption]|]);
    split; reflexivity.
Qed.

(** X4. After a reload that succeeded the shape of the setpoint
    matches the mode: the mode is one of Cool, Heat, HeatCool and Off;
    in Cool and Heat the setpoint is a single value, in HeatCool and
    Off (every vendor mode other than "cool" and "heat") it is the
    pair of the heat and cool setpoints. *)
Theorem reload_setpoint_matches_mode (net : Network) (fuel : nat) (r r' : Reconciler) :
  reload net fuel r = Ok tt r' ->
  let ts := temperatureSetting (this r') in
  (exists m, mode ts = Some m /\ m ∈ [Cool; Heat; HeatCool; Off]) /\
  (mode ts = Some Cool \/ mode ts = Some Heat ->
   exists v, setpoint ts = Some (Single v)) /\
  (mode ts = Some HeatCool \/ mode ts = Some Off ->
   exists low high, setpoint ts = Some (Range low high)).
Proof.
  rewrite reload_run.
  destruct (req net fuel _ _ _ _ _ (provider r)) as [resp w1 | e w1 |]; try discriminate.
  destruct (payload_thermostatList resp) as [l |]; try discriminate.
  destruct (l !! 0%nat) as [data |]; try discriminate.
  destruct (equipmentStatus data) as [equipment |]; try discriminate.
  intros [= <-]. cbv zeta. cbn [this].
  destruct (apply_reload_fields data equipment (dev_print "Reload data" (this r)))
    as (_ & _ & _ & _ & _ & _ & _ & _ & Hmode & Hset).
  rewrite Hmode, Hset. unfold ecobeeToThermostatMode.
  destruct (String.eqb (hvacMode (settings data)) "cool");
    [|destruct (String.eqb (hvacMode (settings data)) "heat");
      [|destruct (String.eqb (hvacMode (settings data)) "auto")]];
    (split; [eexists; split; [reflexivity|listed]|]);
    split; intros [H | H]; try discriminate H; eauto.
Qed.

Lemma reload_setpoint_matches_mode_witness :
  exists r',
    reload vendor_accepts 1 sample_reconciler = Ok tt r'
    /\ exists v, setpoint (temperatureSetting (this r')) = Some (Single v).
Proof.
  eexists. split; [vm_compute; reflexivity|].
  match goal with
  | |- context [this ?r'] =>
      destruct (reload_setpoint_matches_mode vendor_accepts 1 sample_reconciler r')
        as (_ & Hsingle & _); [vm_compute; reflexivity|]
  end.
  apply Hsingle. right. vm_compute. reflexivity.
Defined.

(** X5. However a reload ends, the reconciler keeps its native id, its
    name, its interfaces, its stored revision list and its temperature
    unit, and a reading of a sensor that is not among its interfaces
    (air quality, VOC, CO2) is not written. *)
Theorem reload_keeps_identity (net : Network) (fuel : nat) (r r' : Reconciler) :
  final_state (reload net fuel r) = Some r' ->
  nativeId (this r') = nativeId (this r) /\ name (this r') = name (this r)
  /\ interfaces (this r') = interfaces (this r)
  /\ revisionList (this r') = revisionList (this r)
  /\ temperatureUnit (this r') = temperatureUnit (this r)
  /\ (AirQualitySensor ∉ interfaces (this r) -> airQuality (this r') = airQuality (this r))
  /\ (VOCSensor ∉ interfaces (this r) -> vocDensity (this r') = vocDensity (this r))
  /\ (CO2Sensor ∉ interfaces (this r) -> co2ppm (this r') = co2ppm (this r)).
Proof.
  rewrite reload_run.
  destruct (req net fuel _ _ _ _ _ (provider r)) as [resp w1 | e w1 |];
    [| intros [= <-]; repeat split | discriminate].
  destruct (payload_thermostatList resp) as [l |]; [| intros [= <-]; repeat split].
  destruct (l !! 0%nat) as [data |]; [| intros [= <-]; repeat split].
  destruct (equipmentStatus data) as [equipment |]; [| intros [= <-]; repeat split].
  intros [= <-]. cbn [this].
  destruct (apply_reload_fields data equipment (dev_print "Reload data" (this r)))
    as (H1 & H2 & H3 & H4 & H5 & H6 & H7 & H8 & _).
  repeat split; assumption.
Qed.

Lemma reload_keeps_identity_witness :
  exists r',
    final_state (reload vendor_accepts 1 sample_reconciler) = Some r'
    /\ interfaces (this r') = interfaces (this sample_reconciler)
    /\ vocDensity (this r') = vocDensity (this sample_reconciler).
Proof.
  eexists. split; [vm_compute; reflexivity|].
  match goal with
  | |- context [this ?r'] =>
      destruct (reload_keeps_identity vendor_accepts 1 sample_reconciler r')
        as (_ & _ & Hi & _ & _ & _ & Hvoc & _); [vm_compute; reflexivity|]
  end.
  split; [exact Hi|]. apply Hvoc. apply (bool_decide_unpack _). vm_compute. exact I.
Defined.

(** X6. A reload that is answered without a thermostat (an empty list,
    or a payload that is not a list of thermostats) raises a TypeError;
    no temperature, humidity, mode or setpoint is written: at most the
    line "Reload data" joins the console. *)
Theorem reload_without_thermostat (net : Network) (fuel : nat) (r : Reconciler)
    (resp : Payload) (w1 : World) :
  req net fuel "get" "thermostat" (Some (reload_selection (nativeId (this r))))
    None None (provider r) = Ok resp w1 ->
  (forall d rest, resp <> ThermostatData (d :: rest)) ->
  exists what t',
    reload net fuel r = Throw (TypeError what) {| this := t'; provider := w1 |}
    /\ (t' = this r \/ t' = dev_print "Reload data" (this r)).
Proof.
  intros Hreq Hshape. rewrite reload_run, Hreq.
  destruct resp as [a b | a b | [| d rest] | c]; cbn;
    try (do 2 eexists; split; [reflexivity | left; reflexivity]).
  - do 2 eexists; split; [reflexivity | right; reflexivity].
  - exfalso. exact (Hshape d rest eq_refl).
Qed.

Lemma reload_without_thermostat_witness :
  exists what t' w1,
    reload no_thermostat 1 sample_reconciler
    = Throw (TypeError what) {| this := t'; provider := w1 |}
    /\ temperature t' = temperature (this sample_reconciler).
Proof.
  destruct (reload_without_thermostat no_thermostat 1 sample_reconciler (ThermostatData [])
              (set_sent (sent (provider sample_reconciler)
                         ++ [req_config "get" "thermostat"
                               (Some (reload_selection (nativeId (this sample_reconciler))))
                               None (provider sample_reconciler)])
                 (provider sample_reconciler)))
    as (what & t' & Hrun & Ht).
  - apply req_resolved; reflexivity.
  - intros d rest. discriminate.
  - exists what, t'. eexists. split; [exact Hrun|].
    destruct Ht as [-> | ->]; reflexivity.
Defined.

(** ** Refresh *)

Lemma split_without_separator (sep : ascii) (s : string) :
  includes s (String sep "") = false -> split sep s = [s].
Proof.
  induction s as [| c s IH]; [reflexivity|].
  cbn [includes String.prefix].
  destruct (Ascii.ascii_dec sep c) as [-> | Hne].
  - destruct s; cbn [String.prefix]; intros H; discriminate H.
  - destruct (Ascii.eqb_spec c sep) as [-> | _]; [contradiction|].
    intros H. cbn [split].
    destruct (Ascii.eqb_spec c sep) as [-> | _]; [contradiction|].
    rewrite IH; [reflexivity | exact H].
Qed.

(** X7. A refresh whose summary carries, at the indices 3 to 6, the
    fingerprint that is already stored does not reload: the summary is
    the only request, the equipment status of the summary is applied
    and the new revision list is stored. *)
Theorem refresh_without_change (net : Network) (fuel : nat) (refreshInterface : string)
    (userInitiated : bool) (r : Reconciler) (w1 : World)
    (revisions statuses oldList : list string) (status equipment listStr : string) :
  req net fuel "get" "thermostatSummary"
    (Some (summary_selection (nativeId (this r)))) None None (provider r)
  = Ok (SummaryData revisions statuses) w1 ->
  statuses !! 0%nat = Some status ->
  split ":" status !! 1%nat = Some equipment ->
  revisions !! 0%nat = Some listStr ->
  revisionList (this r) = Some oldList ->
  (forall i : nat, (3 <= i <= 6)%nat -> split ":" listStr !! i = oldList !! i) ->
  exists t',
    refresh net fuel refreshInterface userInitiated r
    = Ok tt {| this := t'; provider := w1 |}
    /\ revisionList t' = Some (split ":" listStr)
    /\ on t' = Some (includes (toLowerCase equipment) "fan")
    /\ temperature t' = temperature (this r)
    /\ setpoint (temperatureSetting t') = setpoint (temperatureSetting (this r)).
Proof.
  intros Hreq Hstatus Hequipment Hlist Hold Hsame.
  rewrite (refresh_run net fuel refreshInterface userInitiated r w1 revisions statuses
             status equipment listStr Hreq Hstatus Hequipment Hlist).
  cbv zeta.
  set (t1 := _updateEquipmentStatus equipment _).
  assert (Hold1 : revisionList t1 = Some oldList).
  { unfold t1, _updateEquipmentStatus. cbv zeta.
    destruct (includes (toLowerCase equipment) "fan"); exact Hold. }
  assert (Hon : on t1 = Some (includes (toLowerCase equipment) "fan")).
  { unfold t1, _updateEquipmentStatus. cbv zeta.
    destruct (includes (toLowerCase equipment) "fan"); reflexivity. }
  assert (Hkeep : temperature t1 = temperature (this r)
                  /\ setpoint (temperatureSetting t1)
                     = setpoint (temperatureSetting (this r))).
  { unfold t1, _updateEquipmentStatus. cbv zeta.
    destruct (includes (toLowerCase equipment) "fan"); split; reflexivity. }
  clearbody t1.
  unfold _updateRevisionList. rewrite Hold1.
  assert (Hnone : first_change (seq 3 (length listItems - 3)) (split ":" listStr) oldList
                  = None).
  { apply first_change_none. intros i Hi. apply Hsame, compared_indices, Hi. }
  rewrite Hnone. cbn [fst snd].
  eexists. split; [reflexivity|]. cbn. tauto.
Qed.

Lemma refresh_without_change_witness :
  let r := {| this := set_revisionList
                        (Some (split ":" "411912345678:Hallway:true:101:102:103:104"))
                        sample_thermostat;
              provider := sample_world [] |} in
  exists r',
    refresh quiet_summary 1 "OnOff" true r = Ok tt r'
    /\ length (sent (provider r')) = 1%nat
    /\ on (this r') = Some true.
Proof.
  cbv zeta.
  set (r := {| this := _; provider := _ |}).
  assert (Hreq : req quiet_summary 1 "get" "thermostatSummary"
                   (Some (summary_selection (nativeId (this r)))) None None (provider r)
                 = Ok (SummaryData ["411912345678:Hallway:true:101:102:103:104"]
                                   ["411912345678:fan,compCool1"])
                     (set_sent (sent (provider r)
                                ++ [req_config "get" "thermostatSummary"
                                      (Some (summary_selection (nativeId (this r)))) None
                                      (provider r)]) (provider r)))
    by (apply req_resolved; reflexivity).
  assert (Hsame : forall i : nat, (3 <= i <= 6)%nat ->
                    split ":" "411912345678:Hallway:true:101:102:103:104" !! i
                    = split ":" "411912345678:Hallway:true:101:102:103:104" !! i)
    by reflexivity.
  destruct (refresh_without_change quiet_summary 1 "OnOff" true r _ _ _ _
              "411912345678:fan,compCool1" "fan,compCool1"
              "411912345678:Hallway:true:101:102:103:104"
              Hreq eq_refl eq_refl eq_refl eq_refl Hsame)
    as (t' & Hrun & _ & Hon & _).
  eexists. split; [exact Hrun|]. split; [reflexivity|]. cbn [this]. rewrite Hon. reflexivity.
Defined.

(** X8. A refresh whose first status entry has no colon (or whose
    summary has no status entry at all) raises a TypeError after the
    one summary request; the equipment status, the revision list and
    every other part of the normalised state stay as they were. *)
Theorem refresh_malformed_status (net : Network) (fuel : nat) (refreshInterface : string)
    (userInitiated : bool) (r : Reconciler) (w1 : World)
    (revisions statuses : list string) :
  req net fuel "get" "thermostatSummary"
    (Some (summary_selection (nativeId (this r)))) None None (provider r)
  = Ok (SummaryData revisions statuses) w1 ->
  (statuses = [] \/ exists status rest,
                      statuses = status :: rest /\ includes status ":" = false) ->
  exists what,
    refresh net fuel refreshInterface userInitiated r
    = Throw (TypeError what)
        {| this := dev_print (refreshInterface ++ " requested refresh") (this r);
           provider := w1 |}.
Proof.
  intros Hreq Hshape.
  unfold refresh, bind, print, update_this, modify, gets, call_provider, ret, throw.
  cbn beta iota. cbn [this provider nativeId dev_print set_dev_console].
  change {| selectionType := "thermostats"; selectionMatch := nativeId (this r);
            includeSettings := false; includeRuntime := false;
            includeEquipmentStatus := true |}
    with (summary_selection (nativeId (this r))).
  rewrite Hreq. cbn [payload_statusList mbind option_bind].
  destruct Hshape as [-> | (status & rest & -> & Hcolon)].
  - eexists. reflexivity.
  - cbn [lookup list_lookup]. rewrite (split_without_separator ":" status Hcolon).
    eexists. reflexivity.
Qed.

Lemma refresh_malformed_status_witness :
  exists what r',
    refresh malformed_summary 1 "OnOff" true sample_reconciler = Throw (TypeError what) r'
    /\ on (this r') = on (this sample_reconciler)
    /\ revisionList (this r') = None.
Proof.
  destruct (refresh_malformed_status malformed_summary 1 "OnOff" true sample_reconciler
              (set_sent (sent (provider sample_reconciler)
                         ++ [req_config "get" "thermostatSummary"
                               (Some (summary_selection
                                        (nativeId (this sample_reconciler)))) None
                               (provider sample_reconciler)])
                 (provider sample_reconciler))
              ["411912345678:Hallway:true:101:102:103:104"] ["fan"])
    as (what & Hrun).
  - apply req_resolved; reflexivity.
  - right. exists "fan", []. split; reflexivity.
  - exists what. eexists. split; [exact Hrun|]. split; reflexivity.
Defined.

(** ** Commands *)

Lemma selects_or_refresh_json (m endpoint : string) (j : Selection)
    (extra : list AxiosRequest) :
  Forall (fun q => same_call m endpoint (Some j) None q \/ token_refresh q) extra ->
  Forall (fun q => selects (selectionMatch j) q \/ token_refresh q) extra.
Proof.
  intros Hall. eapply Forall_impl; [exact Hall|].
  intros q [(_ & _ & Hp & _) | H]; [left | right; exact H].
  left. exists j. split; [exact Hp | reflexivity].
Qed.

Lemma selects_or_refresh_body (m endpoint : string) (b : Body)
    (extra : list AxiosRequest) :
  Forall (fun q => same_call m endpoint None (Some b) q \/ token_refresh q) extra ->
  Forall (fun q => selects (selectionMatch (body_selection b)) q \/ token_refresh q) extra.
Proof.
  intros Hall. eapply Forall_impl; [exact Hall|].
  intros q [(_ & _ & _ & Hd & _) | H]; [left | right; exact H].
  right. exists b. split; [exact Hd | reflexivity].
Qed.

Lemma reload_trace (net : Network) (fuel : nat) (r r' : Reconciler) :
  final_state (reload net fuel r) = Some r' ->
  exists extra : list AxiosRequest,
    sent (provider r') = (sent (provider r) ++ extra)%list
    /\ Forall (fun q => selects (nativeId (this r)) q \/ token_refresh q) extra.
Proof.
  rewrite reload_run.
  destruct (req net fuel _ _ _ _ _ (provider r)) as [resp w1 | e w1 |] eqn:Hreq;
    [| | discriminate].
  - assert (Hfin : final_state (req net fuel "get" "thermostat"
                                  (Some (reload_selection (nativeId (this r)))) None None
                                  (provider r)) = Some w1) by (rewrite Hreq; reflexivity).
    apply req_frame in Hfin as (extra & Hsent & Hall & _).
    apply selects_or_refresh_json in Hall.
    intros H. exists extra. split; [|exact Hall].
    destruct (payload_thermostatList resp) as [l |]; [|injection H as <-; exact Hsent].
    destruct (l !! 0%nat) as [data |]; [|injection H as <-; exact Hsent].
    destruct (equipmentStatus data); injection H as <-; exact Hsent.
  - assert (Hfin : final_state (req net fuel "get" "thermostat"
                                  (Some (reload_selection (nativeId (this r)))) None None
                                  (provider r)) = Some w1) by (rewrite Hreq; reflexivity).
    apply req_frame in Hfin as (extra & Hsent & Hall & _).
    apply selects_or_refresh_json in Hall.
    intros [= <-]. exists extra. split; assumption.
Qed.

Lemma command_trace (net : Network) (fuel : nat) (what : string)
    (before : EcobeeThermostat) (b : Body) (w : World) (r' : Reconciler) :
  selectionMatch (body_selection b) = nativeId before ->
  final_state (command_outcome net fuel what before
                 (req net fuel "post" "thermostat" None (Some b) None w)) = Some r' ->
  exists extra : list AxiosRequest,
    sent (provider r') = (sent w ++ extra)%list
    /\ Forall (fun q => selects (nativeId before) q \/ token_refresh q) extra.
Proof.
  intros Hsel.
  destruct (req net fuel "post" "thermostat" None (Some b) None w)
    as [resp w1 | e w1 |] eqn:Hreq; [| | discriminate].
  - assert (Hfin : final_state (req net fuel "post" "thermostat" None (Some b) None w)
                   = Some w1) by (rewrite Hreq; reflexivity).
    apply req_frame in Hfin as (extra & Hsent & Hall & _).
    apply selects_or_refresh_body in Hall. rewrite Hsel in Hall.
    cbn [command_outcome].
    destruct (payload_status_code resp) as [code |];
      [|intros [= <-]; exists extra; split; assumption].
    destruct (Z.eqb code 0); [|intros [= <-]; exists extra; split; assumption].
    intros H. apply reload_trace in H as (extra2 & Hsent2 & Hall2).
    cbn [this provider] in Hsent2, Hall2.
    exists (extra ++ extra2)%list. split.
    + rewrite Hsent2, Hsent, app_assoc. reflexivity.
    + apply Forall_app. split; [exact Hall | exact Hall2].
  - assert (Hfin : final_state (req net fuel "post" "thermostat" None (Some b) None w)
                   = Some w1) by (rewrite Hreq; reflexivity).
    apply req_frame in Hfin as (extra & Hsent & Hall & _).
    apply selects_or_refresh_body in Hall. rewrite Hsel in Hall.
    intros [= <-]. exists extra. split; assumption.
Qed.

(** X9. Whatever the environment answers and however the command ends,
    every HTTP call that [setTemperature], [turnOn] or [turnOff] adds
    to the trace is a token refresh or names this reconciler's own
    thermostat in its selection: a command never addresses another
    device. *)
Theorem commands_address_own_thermostat (net : Network) (fuel : nat)
    (r r' : Reconciler) :
  let own := fun w' : World =>
    exists extra : list AxiosRequest,
      sent w' = (sent (provider r) ++ extra)%list
      /\ Forall (fun q => selects (nativeId (this r)) q \/ token_refresh q) extra in
  (forall command : TemperatureCommand,
      final_state (setTemperature net fuel command r) = Some r' -> own (provider r')) /\
  (final_state (turnOn net fuel r) = Some r' -> own (provider r')) /\
  (final_state (turnOff net fuel r) = Some r' -> own (provider r')).
Proof.
  cbv zeta. split; [|split].
  - intros command. rewrite setTemperature_run. intros H.
    apply command_trace in H; [|unfold announced; destruct (cmd_mode command); reflexivity].
    replace (nativeId (announced command (this r))) with (nativeId (this r)) in H
      by (unfold announced; destruct (cmd_mode command); reflexivity).
    exact H.
  - rewrite turnOn_run. intros H. apply command_trace in H; [exact H | reflexivity].
  - rewrite turnOff_run. intros H. apply command_trace in H; [exact H | reflexivity].
Qed.

Lemma commands_address_own_thermostat_witness :
  exists r',
    final_state (turnOn vendor_accepts 2 sample_reconciler) = Some r'
    /\ exists extra : list AxiosRequest,
         sent (provider r') = (sent (provider sample_reconciler) ++ extra)%list
         /\ Forall (fun q => selects (nativeId (this sample_reconciler)) q
                             \/ token_refresh q) extra.
Proof.
  eexists. split; [vm_compute; reflexivity|].
  match goal with
  | |- context [provider ?r'] =>
      exact (proj1 (proj2 (commands_address_own_thermostat vendor_accepts 2
                             sample_reconciler r'))
               ltac:(vm_compute; reflexivity))
  end.
Defined.

(** ** Discovery: the registry of reconcilers *)









(** X11. A discovery that raises an error has published nothing and
    created no reconciler: the published lists and the registry are
    what they were before the call. *)
Theorem discoverDevices_failure_changes_nothing (net : Network) (fuel : nat)
    (w w' : World) (e : Error) :
  discoverDevices net fuel w = Throw e w' ->
  published w' = published w /\ devices w' = devices w.
Proof.
  unfold discoverDevices. unfold bind at 1.
  change {| selectionType := "registered"; selectionMatch := "";
            includeSettings := true; includeRuntime := true;
            includeEquipmentStatus := false |} with discovery_selection.
  destruct (req net fuel "get" "thermostat" (Some discovery_selection) None None w)
    as [resp w1 | e1 w1 |] eqn:Hreq; [| | discriminate].
  - assert (Hfin : final_state (req net fuel "get" "thermostat" (Some discovery_selection)
                                  None None w) = Some w1) by (rewrite Hreq; reflexivity).
    apply req_frame in Hfin as (_ & _ & _ & Hdev & Hpub & _).
    destruct (payload_thermostatList resp) as [apiDevices |].
    + unfold bind at 1, log at 1, modify at 1.
      set (w2 := set_console _ w1).
      destruct (discover_loop_spec apiDevices [] w2) as (w3 & Hloop & _).
      unfold bind at 1. rewrite Hloop. unfold onDevicesChanged, bind, modify. discriminate.
    + intros [= _ <-]. split; assumption.
  - assert (Hfin : final_state (req net fuel "get" "thermostat" (Some discovery_selection)
                                  None None w) = Some w1) by (rewrite Hreq; reflexivity).
    apply req_frame in Hfin as (_ & _ & _ & Hdev & Hpub & _).
    intros [= _ <-]. split; assumption.
Qed.

Lemma discoverDevices_failure_changes_nothing_witness :
  exists w',
    discoverDevices offline 1 (sample_world []) = Throw (AxiosError "ECONNREFUSED") w'
    /\ published w' = published (sample_world [])
    /\ devices w' = devices (sample_world []).
Proof.
  eexists. split; [vm_compute; reflexivity|].
  match goal with
  | |- published ?w' = _ /\ _ =>
      exact (discoverDevices_failure_changes_nothing offline 1 (sample_world []) w'
               (AxiosError "ECONNREFUSED") ltac:(vm_compute; reflexivity))
  end.
Defined.

(** X12. The interface list of a discovered device never holds an
    interface twice and always begins with thermometer, humidity
    sensor and refresh; the device carries the identifier of the
    thermostat as native id and as serial number. *)
Theorem discovered_device_well_formed (sensorsOnly : bool) (apiDevice : ApiDevice) :
  let d := discoveredDevice sensorsOnly apiDevice in
  NoDup (device_interfaces d)
  /\ take 3 (device_interfaces d) = [Thermometer; HumiditySensor; Refresh]
  /\ device_nativeId d = identifier apiDevice
  /\ serialNumber (device_info d) = device_nativeId d.
Proof.
  cbv zeta. unfold discoveredDevice.
  destruct sensorsOnly,
           (hasHumidifier (settings apiDevice)),
           (ge (jsnum (actualAQScore (runtime apiDevice))) (of_Z 0)),
           (ge (jsnum (actualVOC (runtime apiDevice))) (of_Z 0)),
           (ge (jsnum (actualCO2 (runtime apiDevice))) (of_Z 0));
    cbn [device_interfaces device_nativeId device_info serialNumber app];
    (split; [apply (bool_decide_unpack _); vm_compute; exact I|]);
    repeat split.
Qed.

(** ** Start-up *)

Ltac run_host :=
  unfold initialize, putSetting, getCode, getSettings, in_plugin, alert, clearAlerts,
         axios_get, getItem, setItem, log, bind, gets, modify, ret;
  cbn beta iota; cbn [plugin alerts].

(** X13. Without a client id (none stored, or the empty string)
    [initialize] raises the alert "You must specify a client ID." and
    returns: no HTTP call is made, no token is touched, the settings
    store is unchanged and discovery is not started. *)
Theorem initialize_without_client_id (net : Network) (h : Host) :
  falsy (storage (plugin h) !! "client_id") = true ->
  exists h',
    initialize net h = Ok [] h'
    /\ alerts h' = (alerts h ++ ["You must specify a client ID."])%list
    /\ sent (plugin h') = sent (plugin h)
    /\ access_token (plugin h') = access_token (plugin h)
    /\ storage (plugin h') = storage (plugin h)
    /\ devices (plugin h') = devices (plugin h).
Proof.
  intros Hmissing. run_host. rewrite Hmissing.
  eexists. split; [reflexivity|]. repeat split.
Qed.

Lemma initialize_without_client_id_witness :
  exists h',
    initialize offline (sample_host [("client_id", "")]) = Ok [] h'
    /\ sent (plugin h') = [].
Proof.
  destruct (initialize_without_client_id offline (sample_host [("client_id", "")]))
    as (h' & Hrun & _ & Hsent & _); [reflexivity|].
  exists h'. split; [exact Hrun | exact Hsent].
Defined.

(** X14. With a client id, [initialize] makes at most one HTTP call:
    the pin exchange of [getToken] when no refresh token is stored,
    the refresh of [refreshToken] when a refresh token is stored and
    there is no access token, none when both are there.  Discovery is
    started exactly when [initialize] does not raise; when the exchange
    is rejected its error leaves [initialize] with the access token
    and the settings store as they were.  No alert is raised and no
    reconciler or published list is touched. *)
Theorem initialize_exchanges_at_most_once (net : Network) (h : Host) :
  falsy (storage (plugin h) !! "client_id") = false ->
  let w := plugin h in
  let q := if falsy (storage w !! "refresh_token")
           then getToken_request w else refreshToken_request w in
  let needed := falsy (storage w !! "refresh_token") || falsy (access_token w) in
  exists h',
    alerts h' = alerts h /\ devices (plugin h') = devices w
    /\ published (plugin h') = published w
    /\ sent (plugin h') = (sent w ++ (if needed then [q] else []))%list
    /\ (initialize net h = Ok [DetachedDiscoverDevices] h'
        \/ (needed = true
            /\ exists e, net (length (sent w)) q = Reject e
                         /\ initialize net h = Throw e h'
                         /\ access_token (plugin h') = access_token w
                         /\ storage (plugin h') = storage w)).
Proof.
  intros Hclient. cbv zeta.
  unfold initialize, in_plugin, getItem, bind, gets, ret. cbn beta iota.
  cbn [plugin alerts]. rewrite Hclient. cbn [plugin alerts].
  destruct (falsy (storage (plugin h) !! "refresh_token")) eqn:Hrefresh;
    cbn [orb plugin alerts].
  - rewrite getToken_run.
    destruct (net (length (sent (plugin h))) (getToken_request (plugin h)))
      as [d | e] eqn:Hnet.
    + exists {| plugin := exchanged (getToken_request (plugin h)) d "Got tokens" (plugin h);
                alerts := alerts h |}.
      do 4 (split; [reflexivity|]). left. reflexivity.
    + exists {| plugin := set_sent (sent (plugin h) ++ [getToken_request (plugin h)])
                            (plugin h);
                alerts := alerts h |}.
      do 4 (split; [reflexivity|]). right. split; [reflexivity|].
      exists e. repeat split.
  - destruct (falsy (access_token (plugin h))) eqn:Haccess; cbn [plugin alerts].
    + rewrite refreshToken_run.
      destruct (net (length (sent (plugin h))) (refreshToken_request (plugin h)))
        as [d | e] eqn:Hnet.
      * exists {| plugin := exchanged (refreshToken_request (plugin h)) d
                              "Refreshed tokens" (plugin h);
                  alerts := alerts h |}.
        do 4 (split; [reflexivity|]). left. reflexivity.
      * exists {| plugin := set_sent (sent (plugin h) ++ [refreshToken_request (plugin h)])
                              (plugin h);
                  alerts := alerts h |}.
        do 4 (split; [reflexivity|]). right. split; [reflexivity|].
        exists e. repeat split.
    + exists {| plugin := plugin h; alerts := alerts h |}.
      split; [reflexivity|]. split; [reflexivity|]. split; [reflexivity|].
      split; [cbn [plugin sent]; rewrite app_nil_r; reflexivity|]. left. reflexivity.
Qed.

Lemma initialize_exchanges_at_most_once_witness :
  let h := sample_host [("client_id", "app-key")] in
  exists h',
    initialize offline h = Throw (AxiosError "ECONNREFUSED") h'
    /\ sent (plugin h') = [getToken_request (plugin h)]
    /\ access_token (plugin h') = Some "token-0".
Proof.
  cbv zeta.
  destruct (initialize_exchanges_at_most_once offline
              (sample_host [("client_id", "app-key")]) eq_refl)
    as (h' & _ & _ & _ & Hsent & [Hok | (_ & e & Hnet & Hrun & Htoken & _)]).
  - exfalso. vm_compute in Hok. discriminate Hok.
  - exists h'. injection Hnet as <-.
    split; [exact Hrun|]. split; [exact Hsent | exact Htoken].
Defined.

(** X15. A new controller always has a base URL: a stored non-empty
    "api_base" is kept, a missing or empty one becomes
    "api.ecobee.com"; every other stored setting is kept, the alerts
    are cleared, there is no access token and no reconciler, and
    [initialize] is the one call started. *)
Theorem new_controller_has_base_url (stored : gmap string string) :
  let h := fst (new_EcobeeController stored) in
  (exists base, storage (plugin h) !! "api_base" = Some base /\ base <> ""
                /\ (falsy (stored !! "api_base") = false -> stored !! "api_base" = Some base)
                /\ (falsy (stored !! "api_base") = true -> base = "api.ecobee.com"))
  /\ (forall k, k <> "api_base" -> storage (plugin h) !! k = stored !! k)
  /\ alerts h = [] /\ access_token (plugin h) = None /\ devices (plugin h) = ∅
  /\ snd (new_EcobeeController stored) = [DetachedInitialize].
Proof.
  cbv zeta. unfold new_EcobeeController. cbn [fst snd plugin alerts storage access_token devices].
  destruct (stored !! "api_base") as [base |] eqn:Hbase; cbn [falsy].
  - destruct (String.eqb_spec base "") as [-> | Hne].
    + split; [|repeat split; intros; apply lookup_insert_ne; congruence].
      exists "api.ecobee.com". rewrite lookup_insert_eq.
      repeat split; try discriminate.
    + split; [|repeat split].
      exists base. repeat split; try assumption; try discriminate.
  - split; [|repeat split; intros; apply lookup_insert_ne; congruence].
    exists "api.ecobee.com". rewrite lookup_insert_eq. repeat split; try discriminate.
Qed.

Lemma new_controller_has_base_url_witness :
  storage (plugin (fst (new_EcobeeController (list_to_map [("api_base", "")]))))
  !! "api_base" = Some "api.ecobee.com".
Proof.
  destruct (new_controller_has_base_url (list_to_map [("api_base", "")]))
    as ((base & Hstored & _ & _ & Hdefault) & _).
  rewrite Hstored. f_equal. apply Hdefault. reflexivity.
Defined.

(** ** Settings *)

(** X16. [putSetting] on a key other than "client_id" stores the value
    under the key and does nothing else: no HTTP call, no alert, other
    keys untouched.  [getSettings] then reports it: "api_base" as the
    stored text, "sensors_only" as the boolean [value === "true"],
    which is also what the next discovery reads. *)
Theorem putSetting_then_getSettings (authorizer : Authorizer)
    (key value : string) (h : Host) :
  key <> "client_id" ->
  exists h',
    putSetting authorizer key value h = Ok tt h'
    /\ storage (plugin h') = <[key := value]> (storage (plugin h))
    /\ sent (plugin h') = sent (plugin h) /\ alerts h' = alerts h
    /\ access_token (plugin h') = access_token (plugin h)
    /\ (key = "api_base" ->
        reported "api_base" h' = Some (TextValue (Some value)))
    /\ (key = "sensors_only" ->
        reported "sensors_only" h'
        = Some (BooleanValue (String.eqb value "true"))
        /\ sensors_only (plugin h') = String.eqb value "true").
Proof.
  intros Hkey. unfold putSetting.
  destruct (String.eqb_spec key "client_id") as [-> | _]; [contradiction|].
  run_host. cbn [interpolate]. eexists. split; [reflexivity|].
  cbn [plugin alerts storage sent access_token set_storage].
  split; [reflexivity|]. split; [reflexivity|]. split; [reflexivity|].
  split; [reflexivity|]. split.
  - intros ->. unfold reported. run_host.
    cbn [plugin storage set_storage List.find setting_key String.eqb Ascii.eqb Bool.eqb
         fmap option_fmap option_map setting_value].
    rewrite lookup_insert_eq. reflexivity.
  - intros ->. unfold reported, sensors_only. run_host.
    cbn [plugin storage set_storage]. rewrite lookup_insert_eq.
    assert (Hb : bool_decide (Some value = Some "true") = String.eqb value "true").
    { destruct (String.eqb_spec value "true") as [-> | Hne].
      - apply bool_decide_eq_true. reflexivity.
      - apply bool_decide_eq_false. congruence. }
    rewrite Hb. split; reflexivity.
Qed.

Lemma putSetting_then_getSettings_witness :
  exists h',
    putSetting pin_refused "sensors_only" "true" (sample_host []) = Ok tt h'
    /\ reported "sensors_only" h' = Some (BooleanValue true)
    /\ sensors_only (plugin h') = true.
Proof.
  destruct (putSetting_then_getSettings pin_refused "sensors_only" "true"
              (sample_host []))
    as (h' & Hrun & _ & _ & _ & _ & _ & Hsensors); [discriminate|].
  exists h'. split; [exact Hrun|]. exact (Hsensors eq_refl).
Defined.

(** X17. [putSetting] on "client_id" stores the new client id and then
    asks for a pin with that id.  When the vendor answers with a pin
    and a code, the alerts are replaced by the one message showing the
    pin and the authorization code is stored under "ecobee_code".  When the
    request fails the error leaves [putSetting], the alerts stay, and
    the new client id remains stored all the same. *)
Theorem putSetting_client_id (authorizer : Authorizer) (value : string) (h : Host) :
  let w1 := set_storage (<["client_id" := value]> (storage (plugin h))) (plugin h) in
  let q := getCode_request w1 in
  params q = QueryParams [("response_type", Some "ecobeePin"); ("scope", Some "smartWrite");
                          ("client_id", Some value)]
  /\ (forall pin code,
        authorizer (length (sent (plugin h))) q = PinResolve pin (Some code) ->
        exists h',
          putSetting authorizer "client_id" value h = Ok tt h'
          /\ alerts h' = [pin_message pin]
          /\ storage (plugin h')
             = <["ecobee_code" := code]> (<["client_id" := value]> (storage (plugin h)))
          /\ sent (plugin h') = (sent (plugin h) ++ [q])%list)
  /\ (forall e,
        authorizer (length (sent (plugin h))) q = PinReject e ->
        exists h',
          putSetting authorizer "client_id" value h = Throw e h'
          /\ alerts h' = alerts h
          /\ storage (plugin h') = <["client_id" := value]> (storage (plugin h))
          /\ sent (plugin h') = (sent (plugin h) ++ [q])%list).
Proof.
  cbv zeta. split; [|split].
  - unfold getCode_request. cbn [params storage set_storage].
    rewrite lookup_insert_eq. reflexivity.
  - intros pin code Hpin. unfold putSetting. cbn [String.eqb Ascii.eqb Bool.eqb].
    run_host. cbn [interpolate sent set_storage storage].
    change (authorizer (length (sent (plugin h))) _)
      with (authorizer (length (sent (plugin h)))
              (getCode_request
                 (set_storage (<["client_id" := value]> (storage (plugin h))) (plugin h)))).
    rewrite Hpin. cbn [plugin alerts fst snd].
    eexists. split; [reflexivity|]. repeat split.
  - intros e Hpin. unfold putSetting. cbn [String.eqb Ascii.eqb Bool.eqb].
    run_host. cbn [interpolate sent set_storage storage].
    change (authorizer (length (sent (plugin h))) _)
      with (authorizer (length (sent (plugin h)))
              (getCode_request
                 (set_storage (<["client_id" := value]> (storage (plugin h))) (plugin h)))).
    rewrite Hpin. cbn [plugin alerts].
    eexists. split; [reflexivity|]. repeat split.
Qed.

Lemma putSetting_client_id_witness :
  exists h1 h2,
    putSetting pin_granted "client_id" "app-key" (sample_host []) = Ok tt h1
    /\ alerts h1 = [pin_message (Some "a1b2")]
    /\ storage (plugin h1) !! "ecobee_code" = Some "code-1"
    /\ putSetting pin_refused "client_id" "app-key" (sample_host [])
       = Throw (AxiosError "400") h2
    /\ storage (plugin h2) !! "client_id" = Some "app-key"
    /\ alerts h2 = ["stale alert"].
Proof.
  destruct (putSetting_client_id pin_granted "app-key" (sample_host []))
    as (_ & Hgranted & _).
  destruct (Hgranted (Some "a1b2") "code-1" eq_refl) as (h1 & Hrun1 & Halerts1 & Hstore1 & _).
  destruct (putSetting_client_id pin_refused "app-key" (sample_host []))
    as (_ & _ & Hrefused).
  destruct (Hrefused (AxiosError "400") eq_refl) as (h2 & Hrun2 & Halerts2 & Hstore2 & _).
  exists h1, h2. split; [exact Hrun1|]. split; [exact Halerts1|].
  split; [rewrite Hstore1; apply lookup_insert_eq|].
  split; [exact Hrun2|]. split; [|exact Halerts2].
  rewrite Hstore2. apply lookup_insert_eq.
Defined.

(** ** Credentials *)

(** X18. The credentials that a token exchange returns are the ones
    used next: after a [getToken] (or [refreshToken]) that succeeded,
    the next token refresh sends the refresh token just received and
    every request of [req] carries the access token just received as
    bearer. *)
Theorem exchanged_credentials_are_used_next (net : Network) (w : World) (a r : string) :
  let next := fun w' : World =>
    params (refreshToken_request w')
    = QueryParams [("grant_type", Some "refresh_token"); ("refresh_token", Some r);
                   ("client_id", storage w !! "client_id"); ("ecobee_type", Some "jwt")]
    /\ forall m endpoint json body,
         authorization (req_config m endpoint json body w') = Some ("Bearer " ++ a) in
  (net (length (sent w)) (getToken_request w) = Resolve (TokenData a r) ->
   exists w', getToken net w = Ok tt w' /\ next w') /\
  (net (length (sent w)) (refreshToken_request w) = Resolve (TokenData a r) ->
   exists w', refreshToken net w = Ok tt w' /\ next w').
Proof.
  cbv zeta.
  assert (Hnext : forall q msg,
            params (refreshToken_request (exchanged q (TokenData a r) msg w))
            = QueryParams [("grant_type", Some "refresh_token"); ("refresh_token", Some r);
                           ("client_id", storage w !! "client_id");
                           ("ecobee_type", Some "jwt")]).
  { intros q msg. unfold refreshToken_request, exchange_request, exchanged.
    cbn [params storage set_console set_storage payload_refresh_token interpolate].
    rewrite lookup_insert_eq, lookup_insert_ne by discriminate. reflexivity. }
  split; intros H; [rewrite getToken_run | rewrite refreshToken_run]; rewrite H;
    eexists; (split; [reflexivity|]); (split; [apply Hnext|]); reflexivity.
Qed.

Lemma exchanged_credentials_are_used_next_witness :
  exists w',
    refreshToken always_unauthorized (sample_world [("client_id", "app-key")]) = Ok tt w'
    /\ authorization (req_config "get" "thermostat" None None w') = Some "Bearer access-1".
Proof.
  destruct (exchanged_credentials_are_used_next always_unauthorized
              (sample_world [("client_id", "app-key")]) "access-1" "refresh-1")
    as (_ & Hrefresh).
  destruct (Hrefresh eq_refl) as (w' & Hrun & _ & Hbearer).
  exists w'. split; [exact Hrun | apply Hbearer].
Defined.

(** ** Unit and mode translators *)

Lemma digits_round_trip (n : Z) : 0 <= n -> digits_to_Z (digits_of_Z n) = Some n.
Proof.
  intros Hn. unfold digits_to_Z, digits_of_Z, NilZero.string_of_uint.
  destruct (N.to_uint (Z.to_N n)) eqn:Hu;
    try (rewrite <- Hu, NilEmpty.usu, DecimalN.Unsigned.of_to, Z2N.id by exact Hn;
         reflexivity).
  exfalso. destruct (Z.to_N n) as [| p]; [discriminate|].
  cbn in Hu. exact (DecimalPos.Unsigned.to_uint_nonnil p Hu).
Qed.

Lemma digits_start (n : Z) (r : string) : 0 <= n -> digits_of_Z n <> String "-" r.
Proof.
  intros Hn Heq. pose proof (digits_round_trip n Hn) as H.
  rewrite Heq in H. unfold digits_to_Z in H. cbn [NilEmpty.uint_of_string] in H.
  destruct (NilEmpty.uint_of_string r); cbn in H; discriminate.
Qed.

Lemma scaled_half_up_nonneg (m : positive) (e : Z) (f : nat) : 0 <= scaled_half_up m e f.
Proof.
  unfold scaled_half_up.
  assert (0 <= Zpos m * 10 ^ Z.of_nat f) by (apply Z.mul_nonneg_nonneg; [lia|apply Z.pow_nonneg; lia]).
  destruct e as [| k | k].
  - apply Z.mul_nonneg_nonneg; [assumption|apply Z.pow_nonneg; lia].
  - apply Z.mul_nonneg_nonneg; [assumption|apply Z.pow_nonneg; lia].
  - apply Z.div_pos; [|apply Z.pow_pos_nonneg; lia].
    assert (0 <= 2 ^ Zpos k) by (apply Z.pow_nonneg; lia). lia.
Qed.

Lemma read_Z_digits (n : Z) : 0 <= n -> read_Z (digits_of_Z n) = Some n.
Proof.
  intros Hn. pose proof (digits_round_trip n Hn) as H.
  destruct (digits_of_Z n) as [| c r] eqn:Hd; [exact H|].
  destruct (Ascii.ascii_dec c "-") as [-> | Hc];
    [exfalso; exact (digits_start n r Hn Hd)|].
  replace (read_Z (String c r)) with (digits_to_Z (String c r)); [exact H|].
  unfold read_Z. destruct c as [[] [] [] [] [] [] [] []]; try reflexivity.
  contradiction Hc. reflexivity.
Qed.

(** An integer other than zero that [toFixed(0)] prints is printed in
    its plain decimal form. *)
Lemma toFixed_0_plain (x : number) (t : Z) :
  read_Z (toFixed 0 x) = Some t -> t <> 0 -> toFixed 0 x = show_Z t.
Proof.
  destruct x as [s | [] | | s m e]; try (cbn; discriminate).
  - cbn. intros [= <-] H. contradiction.
  - unfold toFixed, place_point.
    pose proof (scaled_half_up_nonneg m e 0) as Hn.
    set (n := scaled_half_up m e 0) in *.
    destruct s.
    + change ("-" ++ digits_of_Z n) with (String "-" (digits_of_Z n)).
      cbn [read_Z]. rewrite digits_round_trip by exact Hn.
      intros [= <-] Ht. destruct n as [| p | p]; [contradiction | reflexivity | lia].
    + change ("" ++ digits_of_Z n) with (digits_of_Z n).
      rewrite read_Z_digits by exact Hn.
      intros [= <-] Ht. destruct n as [| p | p]; [contradiction | reflexivity | lia].
Qed.

(** X19. A vendor temperature [t] other than 0, between -1000 and 1000
    degrees Fahrenheit, that is read with [ecobeeIntToCelsius] and
    written back with [celsiusToEcobeeInt] reaches the vendor as the
    very same decimal string; 0 is written back as "-0". *)
Theorem temperature_string_round_trip (t : Z) :
  -10000 <= t <= 10000 ->
  (t <> 0 -> celsiusToEcobeeInt (ecobeeIntToCelsius (show_Z t)) = show_Z t) /\
  (t = 0 -> celsiusToEcobeeInt (ecobeeIntToCelsius (show_Z t)) = "-0").
Proof.
  intros Ht. split.
  - intros Hne. pose proof (round_trip_exact t Ht) as H. unfold round_trip in H.
    unfold celsiusToEcobeeInt in *. apply toFixed_0_plain; assumption.
  - intros ->. vm_compute. reflexivity.
Qed.

Lemma temperature_string_round_trip_witness :
  -10000 <= 680 <= 10000 /\ 680 <> 0
  /\ celsiusToEcobeeInt (ecobeeIntToCelsius "680") = "680".
Proof.
  assert (Hrange : -10000 <= 680 <= 10000) by lia.
  assert (Hne : 680 <> 0) by discriminate.
  split; [exact Hrange|]. split; [exact Hne|].
  exact (proj1 (temperature_string_round_trip 680 Hrange) Hne).
Defined.

(** X20. Every mode that a reconciler advertises (Cool, Heat, HeatCool,
    Off) survives the translation to the vendor and back;
    [thermostatModeToEcobee] only ever produces "cool", "heat", "auto"
    or "off", and every other mode of the SDK is sent as "off". *)
Theorem advertised_modes_round_trip (d : Device) (m : ThermostatMode) :
  (m ∈ availableModes (temperatureSetting (new_EcobeeThermostat d)) ->
   ecobeeToThermostatMode (thermostatModeToEcobee m) = m) /\
  thermostatModeToEcobee m ∈ ["cool"; "heat"; "auto"; "off"] /\
  (m ∉ availableModes (temperatureSetting (new_EcobeeThermostat d)) ->
   thermostatModeToEcobee m = "off").
Proof.
  cbn [new_EcobeeThermostat temperatureSetting availableModes].
  destruct m;
    (split;
     [intros H;
      first [reflexivity
            | exfalso; revert H; apply (bool_decide_unpack _); vm_compute; exact I]
     | split; [listed | intros H; first [reflexivity | exfalso; apply H; listed]]]).
Qed.

Lemma advertised_modes_round_trip_witness :
  ecobeeToThermostatMode (thermostatModeToEcobee HeatCool) = HeatCool
  /\ thermostatModeToEcobee Eco = "off".
Proof.
  split.
  - apply (proj1 (advertised_modes_round_trip (discoveredDevice false sample_device)
                    HeatCool)). listed.
  - apply (proj2 (proj2 (advertised_modes_round_trip (discoveredDevice false sample_device)
                           Eco))).
    apply (bool_decide_unpack _). vm_compute. exact I.
Defined.

(** ** Equipment status, name by name *)

Lemma prefix_before_separator (sep : ascii) (sub : string) :
  includes sub (String sep "") = false ->
  forall a b : string, String.prefix sub (a ++ String sep b) = String.prefix sub a.
Proof.
  induction sub as [| c sub IH]; intros Hsep a b; [destruct a; reflexivity|].
  assert (Hc : c <> sep /\ includes sub (String sep "") = false).
  { cbn [includes String.prefix] in Hsep.
    destruct (Ascii.ascii_dec sep c) as [-> | Hne].
    - destruct sub; cbn [String.prefix] in Hsep; discriminate.
    - split; [congruence | exact Hsep]. }
  destruct Hc as [Hc Hsub].
  destruct a as [| x a].
  - change ("" ++ String sep b) with (String sep b). cbn [String.prefix].
    destruct (Ascii.ascii_dec c sep); [contradiction | reflexivity].
  - change (String x a ++ String sep b) with (String x (a ++ String sep b)).
    cbn [String.prefix]. destruct (Ascii.ascii_dec c x); [apply IH, Hsub | reflexivity].
Qed.

Lemma includes_empty (sub : string) : sub <> "" -> includes "" sub = false.
Proof. destruct sub; [contradiction | reflexivity]. Qed.

(** A word without the separator occurs in [a sep b] exactly when it
    occurs in [a] or in [b]. *)
Lemma includes_across_separator (sep : ascii) (sub : string) :
  includes sub (String sep "") = false -> sub <> "" ->
  forall a b : string,
    includes (a ++ String sep b) sub = includes a sub || includes b sub.
Proof.
  intros Hsep Hsub a b. induction a as [| x a IH].
  - change ("" ++ String sep b) with (String sep b).
    rewrite includes_empty by exact Hsub. cbn [includes orb].
    change (String sep b) with ("" ++ String sep b) at 1.
    rewrite (prefix_before_separator sep sub Hsep "" b).
    destruct sub; [contradiction | reflexivity].
  - change (String x a ++ String sep b) with (String x (a ++ String sep b)).
    cbn [includes]. rewrite IH.
    change (String x (a ++ String sep b)) with (String x a ++ String sep b).
    rewrite (prefix_before_separator sep sub Hsep (String x a) b).
    destruct (String.prefix sub (String x a)); reflexivity.
Qed.

Lemma includes_join (sep : ascii) (sub : string) (tokens : list string) :
  includes sub (String sep "") = false -> sub <> "" ->
  includes (join sep tokens) sub = existsb (fun token => includes token sub) tokens.
Proof.
  intros Hsep Hsub. induction tokens as [| token rest IH].
  - apply includes_empty, Hsub.
  - destruct rest as [| token2 rest].
    + cbn [join existsb]. rewrite orb_false_r. reflexivity.
    + change (join sep (token :: token2 :: rest))
        with (token ++ String sep (join sep (token2 :: rest))).
      rewrite includes_across_separator by assumption.
      rewrite IH. reflexivity.
Qed.

Lemma toLowerCase_join (sep : ascii) (tokens : list string) :
  toLowerCase (join sep tokens) = join (lower_char sep) (map toLowerCase tokens).
Proof.
  induction tokens as [| token rest IH]; [reflexivity|].
  destruct rest as [| token2 rest]; [reflexivity|].
  change (join sep (token :: token2 :: rest))
    with (token ++ String sep (join sep (token2 :: rest))).
  rewrite toLowerCase_app. cbn [toLowerCase]. rewrite IH. reflexivity.
Qed.

Lemma existsb_agree {A : Type} (f g : A -> bool) (l : list A) :
  Forall (fun x => f x = g x) l -> existsb f l = existsb g l.
Proof.
  induction 1 as [| x l Hx _ IH]; [reflexivity|]. cbn. rewrite Hx, IH. reflexivity.
Qed.

Lemma status_word (sep : ascii) (word : string) (tokens : list string) :
  includes word (String (lower_char sep) "") = false -> word <> "" ->
  includes (toLowerCase (join sep tokens)) word
  = existsb (fun token => includes (toLowerCase token) word) tokens.
Proof.
  intros Hsep Hword. rewrite toLowerCase_join, includes_join by assumption.
  induction tokens as [| token rest IH]; [reflexivity|]. cbn. rewrite IH. reflexivity.
Qed.

(** Which of the four words each documented name contains. *)
Lemma equipment_names_table :
  Forall (fun token =>
            includes (toLowerCase token) "heat" = bool_decide (token ∈ heating_names)
            /\ includes (toLowerCase token) "cool" = bool_decide (token ∈ cooling_names)
            /\ includes (toLowerCase token) "fan" = bool_decide (token ∈ ["fan"])
            /\ includes (toLowerCase token) "humidifier"
               = bool_decide (token ∈ ["humidifier"; "dehumidifier"]))
         equipment_names.
Proof. repeat constructor. Qed.

Lemma status_names (sep : ascii) (word : string) (names tokens : list string) :
  includes word (String (lower_char sep) "") = false -> word <> "" ->
  Forall (fun token => token ∈ equipment_names) tokens ->
  Forall (fun token => includes (toLowerCase token) word = bool_decide (token ∈ names))
         equipment_names ->
  includes (toLowerCase (join sep tokens)) word = lists_any names tokens.
Proof.
  intros Hsep Hword Hdoc Htable. rewrite status_word by assumption.
  apply existsb_agree. eapply Forall_impl; [exact Hdoc|].
  intros token Hin. cbv beta in Hin.
  rewrite Forall_forall in Htable. apply Htable, Hin.
Qed.

(** X21. For an equipment status that lists documented equipment names
    with a separator such as the comma, [_updateEquipmentStatus] reads
    it name by name: the fan is on exactly when "fan" is listed; the
    active mode is Heat when a heat pump or auxiliary heat stage is
    listed, otherwise Cool when a cooling stage is listed, otherwise
    Off; the humidifier is active exactly when "humidifier" or
    "dehumidifier" is listed. *)
Theorem equipment_status_by_name (sep : ascii) (tokens : list string)
    (t : EcobeeThermostat) :
  separates sep = true ->
  Forall (fun token => token ∈ equipment_names) tokens ->
  let t' := _updateEquipmentStatus (join sep tokens) t in
  on t' = Some (lists_any ["fan"] tokens)
  /\ activeMode (temperatureSetting t')
     = Some (if lists_any heating_names tokens then Heat
             else if lists_any cooling_names tokens then Cool else Off)
  /\ hum_activeMode (humiditySetting t')
     = Some (if lists_any ["humidifier"; "dehumidifier"] tokens then Humidify else HumOff).
Proof.
  intros Hsep Hdoc. cbv zeta.
  unfold separates in Hsep. cbn [forallb] in Hsep.
  apply andb_prop in Hsep as [Hheat Hsep]. apply andb_prop in Hsep as [Hcool Hsep].
  apply andb_prop in Hsep as [Hfan Hsep]. apply andb_prop in Hsep as [Hhum _].
  apply negb_true_iff in Hheat, Hcool, Hfan, Hhum.
  pose proof equipment_names_table as Htable.
  assert (H1 : includes (toLowerCase (join sep tokens)) "heat"
               = lists_any heating_names tokens).
  { apply (status_names sep); [assumption | discriminate | assumption|].
    eapply Forall_impl; [exact Htable|]. intros token (H & _). exact H. }
  assert (H2 : includes (toLowerCase (join sep tokens)) "cool"
               = lists_any cooling_names tokens).
  { apply (status_names sep); [assumption | discriminate | assumption|].
    eapply Forall_impl; [exact Htable|]. intros token (_ & H & _). exact H. }
  assert (H3 : includes (toLowerCase (join sep tokens)) "fan"
               = lists_any ["fan"] tokens).
  { apply (status_names sep); [assumption | discriminate | assumption|].
    eapply Forall_impl; [exact Htable|]. intros token (_ & _ & H & _). exact H. }
  assert (H4 : includes (toLowerCase (join sep tokens)) "humidifier"
               = lists_any ["humidifier"; "dehumidifier"] tokens).
  { apply (status_names sep); [assumption | discriminate | assumption|].
    eapply Forall_impl; [exact Htable|]. intros token (_ & _ & _ & H). exact H. }
  unfold _updateEquipmentStatus. cbv zeta. rewrite H1, H2, H3, H4.
  destruct (lists_any ["fan"] tokens), (lists_any heating_names tokens),
           (lists_any cooling_names tokens),
           (lists_any ["humidifier"; "dehumidifier"] tokens); repeat split.
Qed.

Lemma equipment_status_by_name_witness :
  let t' := _updateEquipmentStatus "auxHeat1,fan,compCool1" sample_thermostat in
  on t' = Some true /\ activeMode (temperatureSetting t') = Some Heat
  /\ hum_activeMode (humiditySetting t') = Some HumOff.
Proof.
  assert (Hdoc : Forall (fun token => token ∈ equipment_names)
                   ["auxHeat1"; "fan"; "compCool1"]).
  { repeat constructor; listed. }
  exact (equipment_status_by_name ","%char ["auxHeat1"; "fan"; "compCool1"]
           sample_thermostat eq_refl Hdoc).
Defined.

(** ** Fan commands and the state after a reload *)

(** X22. [turnOn] and [turnOff] send one setHold with the fixed hold
    temperatures 550 and 900 and the fan mode "on" or "auto".  They
    never write the fan state themselves: when the vendor answers with
    status code 0 the method continues as one call of [reload], with
    any other code it prints the failure and returns without error,
    the normalised state untouched. *)
Theorem fan_command_contract (net : Network) (fuel : nat) (r : Reconciler)
    (fanOn : bool) (code : Z) (w1 : World) :
  let fanMode := if fanOn then "on" else "auto" in
  let command := if fanOn then turnOn net fuel else turnOff net fuel in
  let what := if fanOn then "fanOn" else "fanOff" in
  let before := dev_print (what ++ ": setting fan to " ++ fanMode) (this r) in
  req net fuel "post" "thermostat" None (Some (fanData (nativeId (this r)) fanMode)) None
    (provider r) = Ok (StatusData code) w1 ->
  body_functions (fanData (nativeId (this r)) fanMode)
  = Some [ {| fn_type := "setHold";
              fn_params := {| holdType := "nextTransition";
                              heatHoldTemp := HoldNum 550; coolHoldTemp := HoldNum 900;
                              fan := Some fanMode;
                              isTemperatureAbsolute := Some "false";
                              isTemperatureRelative := Some "false" |} |} ]
  /\ (code = 0 ->
      command r = reload net fuel {| this := dev_print (what ++ " success") before;
                                     provider := w1 |})
  /\ (code <> 0 ->
      exists t',
        command r = Ok tt {| this := t'; provider := w1 |}
        /\ t' = dev_print (what ++ " failed: [object Object]") before
        /\ on t' = on (this r) /\ temperature t' = temperature (this r)
        /\ temperatureSetting t' = temperatureSetting (this r)
        /\ humiditySetting t' = humiditySetting (this r)).
Proof.
  cbv zeta. destruct fanOn; intros Hreq;
    (split; [reflexivity|]);
    [rewrite turnOn_run | rewrite turnOff_run]; rewrite Hreq;
    cbn [command_outcome payload_status_code];
    (split; [intros ->; reflexivity|]);
    intros Hcode; destruct (Z.eqb_spec code 0); try contradiction;
    eexists; repeat split.
Qed.

Lemma fan_command_contract_witness :
  exists w1 t',
    req one_failure 2 "post" "thermostat" None
      (Some (fanData (nativeId (this sample_reconciler)) "auto")) None
      (provider sample_reconciler) = Ok (StatusData 1) w1
    /\ turnOff one_failure 2 sample_reconciler = Ok tt {| this := t'; provider := w1 |}
    /\ on t' = on (this sample_reconciler).
Proof.
  destruct (req one_failure 2 "post" "thermostat" None
              (Some (fanData (nativeId (this sample_reconciler)) "auto")) None
              (provider sample_reconciler)) as [resp w1 | e w1 |] eqn:Hreq;
    [| vm_compute in Hreq; discriminate | vm_compute in Hreq; discriminate].
  assert (Hresp : resp = StatusData 1).
  { vm_compute in Hreq. injection Hreq as <- _. reflexivity. }
  subst resp.
  destruct (fan_command_contract one_failure 2 sample_reconciler false 1 w1 Hreq)
    as (_ & _ & Hfail).
  destruct Hfail as (t' & Hrun & _ & Hon & _); [discriminate|].
  exists w1, t'. split; [reflexivity|]. split; [exact Hrun | exact Hon].
Defined.

(** X23. A reload that is answered with a list of thermostats writes
    the first one, and only it, over the normalised state: the
    temperature is [ecobeeIntToCelsius] of its actual temperature, the
    humidity is its actual humidity, the fan state and the active
    modes are those of its equipment status, the humidifier mode and
    setpoint are those of its settings; the reload makes no request
    after the answer. *)
Theorem reload_applies_first_thermostat (net : Network) (fuel : nat) (r : Reconciler)
    (data : ApiDevice) (rest : list ApiDevice) (equipment : string) (w1 : World) :
  req net fuel "get" "thermostat" (Some (reload_selection (nativeId (this r))))
    None None (provider r) = Ok (ThermostatData (data :: rest)) w1 ->
  equipmentStatus data = Some equipment ->
  exists t',
    reload net fuel r = Ok tt {| this := t'; provider := w1 |}
    /\ temperature t' = Some (ecobeeIntToCelsius (actualTemperature (runtime data)))
    /\ humidity t' = Some (to_number (actualHumidity (runtime data)))
    /\ on t' = Some (includes (toLowerCase equipment) "fan")
    /\ activeMode (temperatureSetting t')
       = activeMode (temperatureSetting (_updateEquipmentStatus equipment (this r)))
    /\ hum_activeMode (humiditySetting t')
       = hum_activeMode (humiditySetting (_updateEquipmentStatus equipment (this r)))
    /\ hum_mode (humiditySetting t')
       = Some (humModeFromEcobee (humidifierMode (settings data)))
    /\ humidifierSetpoint (humiditySetting t')
       = Some (to_number (settings_humidity (settings data))).
Proof.
  intros Hreq Hequipment. rewrite reload_run, Hreq.
  cbn [payload_thermostatList lookup list_lookup]. rewrite Hequipment.
  eexists. split; [reflexivity|].
  unfold apply_reload. cbv zeta.
  set (t1 := _updateEquipmentStatus equipment _).
  assert (Ht1 : temperature t1 = Some (ecobeeIntToCelsius (actualTemperature (runtime data)))
                /\ humidity t1 = Some (to_number (actualHumidity (runtime data)))
                /\ on t1 = Some (includes (toLowerCase equipment) "fan")
                /\ activeMode (temperatureSetting t1)
                   = activeMode (temperatureSetting
                                   (_updateEquipmentStatus equipment (this r)))
                /\ hum_activeMode (humiditySetting t1)
                   = hum_activeMode (humiditySetting
                                       (_updateEquipmentStatus equipment (this r)))).
  { unfold t1, _updateEquipmentStatus. cbv zeta.
    destruct (includes (toLowerCase equipment) "fan"); repeat split. }
  destruct Ht1 as (Htemp & Hhum & Hon & Hactive & Hhactive).
  clearbody t1.
  destruct (setAirQuality_frame (jsnum (actualAQScore (runtime data))) t1) as [q Hq].
  rewrite Hq. clear Hq.
  destruct (bool_decide (AirQualitySensor ∈ interfaces t1));
    cbn [interfaces set_airQuality set_vocDensity set_co2ppm];
    destruct (bool_decide (VOCSensor ∈ interfaces t1));
    cbn [interfaces set_airQuality set_vocDensity set_co2ppm];
    destruct (bool_decide (CO2Sensor ∈ interfaces t1));
    cbn; repeat split; assumption.
Qed.

Lemma reload_applies_first_thermostat_witness :
  exists t' w1,
    reload vendor_accepts 1 sample_reconciler = Ok tt {| this := t'; provider := w1 |}
    /\ temperature t' = Some (ecobeeIntToCelsius "711")
    /\ on t' = Some true.
Proof.
  destruct (reload_applies_first_thermostat vendor_accepts 1 sample_reconciler
              sample_device [] "fan,dehumidifier"
              (set_sent (sent (provider sample_reconciler)
                         ++ [req_config "get" "thermostat"
                               (Some (reload_selection (nativeId (this sample_reconciler))))
                               None (provider sample_reconciler)])
                 (provider sample_reconciler)))
    as (t' & Hrun & Htemp & _ & Hon & _).
  - apply req_resolved; reflexivity.
  - reflexivity.
  - exists t'. eexists. split; [exact Hrun|]. split; [exact Htemp | exact Hon].
Defined.
